(** * grinta: team-level match metrics over an event table

    A shallow embedding of [features/utils.py], [features/metrics.py],
    [features/spatial.py] and [features/aggregator.py], and the properties
    of the time-window selector, the metric functions and the segment
    aggregator.

    Conventions of the embedding.
    - A pandas [DataFrame] is a list of column names together with a list of
      rows; a row is a record with one optional cell per column the code
      reads ([None] is NaN / NA / None).  Reading a column that is not in
      [columns] raises [KeyError], as [df["c"]] does.
    - A finite Python float is the rational it denotes ([Q]), and [fl]
      rounds a rational to the nearest binary64 float.  The float
      operations on which a decision of the code depends (the seconds of a
      timestamp, the cutoffs of the time windows, the percentages that
      [round] rounds) are modelled with their rounding; the shares, means
      and spreads that the metric functions return are kept as the exact
      quotients, of which the code holds the nearest float.  Equalities
      between computed numbers are stated with [==].
    - A Python [dict] is a [gmap]: no property below depends on the
      iteration order of a dictionary. *)

From Stdlib Require Import ZArith QArith Qminmax Qround Lqa String Ascii List.
From stdpp Require Import base option list strings gmap fin_maps pretty sorting.

Local Open Scope Z_scope.
Local Open Scope string_scope.

(** ** Exceptions *)

Inductive result (A : Type) : Type :=
  | Ok (a : A)
  | KeyError (c : string).
Arguments Ok {A} a.
Arguments KeyError {A} c.

Global Instance result_ret : MRet result := λ A a, Ok a.

Global Instance result_bind : MBind result := λ A B k r,
  match r with
  | Ok a => k a
  | KeyError c => KeyError c
  end.

Definition returns {A} (r : result A) : Prop := ∃ a, r = Ok a.

(** ** Binary floating point

    Python floats are IEEE-754 binary64 numbers, and every operation on
    them returns the float nearest to the exact result, ties going to the
    even significand. *)

(** Rounding to the nearest integer, ties to the even one. *)
Definition round_half_even (q : Q) : Z :=
  let f := Qfloor q in
  match (q - inject_Z f ?= 1 # 2)%Q with
  | Lt => f
  | Gt => f + 1
  | Eq => if Z.even f then f else f + 1
  end.

(** [q * 2^e] *)
Definition Qldexp (q : Q) (e : Z) : Q :=
  if (0 <=? e)%Z then (q * inject_Z (2 ^ e))%Q
  else (q / inject_Z (2 ^ (- e)))%Q.

(** The exponent of the last bit of the significand of the float nearest
    to [q >= 0]: the significand has 53 bits, and the exponent is at least
    -1074, where the subnormal numbers lie. *)
Definition float_exp (q : Q) : Z :=
  Z.max 0 (Z.log2 (Qfloor (q * inject_Z (2 ^ 1074))) - 52) - 1074.

(** The float nearest to [q >= 0]: the significand is rounded to an
    integer, ties to even. *)
Definition fl_abs (q : Q) : Q :=
  let e := float_exp q in
  Qldexp (inject_Z (round_half_even (Qldexp q (- e)))) e.

(** The float nearest to [q], in lowest terms.  The exponent is not
    bounded above, so a magnitude of [2^1024] or more is rounded to 53
    bits where the machine overflows. *)
Definition fl (q : Q) : Q :=
  Qred (if Qle_bool 0 q then fl_abs q else - fl_abs (- q)).

(** [a + b], [a - b], [a * b] and [a / b] with a float result.  An
    operand that is no float (an [int], or a number written in decimal, as
    [4.1]) stands for the float nearest to it, which for an integer up to
    [2^53] is the integer itself; on floats [fl] changes nothing. *)
Definition float_add (a b : Q) : Q := fl (fl a + fl b).
Definition float_sub (a b : Q) : Q := fl (fl a - fl b).
Definition float_mul (a b : Q) : Q := fl (fl a * fl b).
Definition float_div (a b : Q) : Q := fl (fl a / fl b).

(** ** The event table *)

Record event := Event {
  c_label : nat;                  (* index label of the row *)
  c_period : option Z;
  c_timestamp : option string;
  c_type_name : option string;
  c_team_id : option Z;
  c_team_name : option string;
  c_x : option Q;
  c_y : option Q;
  c_end_x : option Q;
  c_pass_outcome : option string;
  c_shot_outcome : option string;
  c_seconds : option Q            (* the scratch column "_seconds" *)
}.

Record DataFrame := Frame {
  columns : list string;
  rows : list event
}.

Definition has_col (df : DataFrame) (c : string) : bool :=
  bool_decide (c ∈ columns df).

(** [df.empty]: some axis has length 0. *)
Definition df_empty (df : DataFrame) : bool :=
  match rows df, columns df with
  | [], _ | _, [] => true
  | _, _ => false
  end.

Definition with_rows (df : DataFrame) (rs : list event) : DataFrame :=
  {| columns := columns df; rows := rs |}.

(** [df["c"]]: the cells of column [c], read with the projection [proj]. *)
Definition getitem {A} (df : DataFrame) (c : string) (proj : event → A)
  : result (list A) :=
  if has_col df c then Ok (proj <$> rows df) else KeyError c.

(** [require df cs]: the columns [cs] are read, in this order. *)
Fixpoint require (df : DataFrame) (cs : list string) : result unit :=
  match cs with
  | [] => Ok ()
  | c :: cs' => if has_col df c then require df cs' else KeyError c
  end.

(** [df[mask]] where [mask] is built from the columns [cs] (read left to
    right) and holds at the rows satisfying [p]. *)
Definition where_ (df : DataFrame) (cs : list string) (p : event → bool)
  : result DataFrame :=
  _ ← require df cs; Ok (with_rows df (filter (λ e, p e = true) (rows df))).

Definition notna {A} (o : option A) : bool :=
  match o with Some _ => true | None => false end.

Definition isna {A} (o : option A) : bool := negb (notna o).

(** [series == v] on a nullable column: NaN compares unequal to anything. *)
Definition eqb_cell `{EqDecision A} (o : option A) (v : A) : bool :=
  bool_decide (o = Some v).

Definition isin (o : option string) (vs : list string) : bool :=
  match o with
  | Some s => bool_decide (s ∈ vs)
  | None => false
  end.

Definition dropna {A} (l : list (option A)) : list A := omap id l.

(** ** features/utils.py: time filtering *)

Definition is_digit (c : ascii) : bool :=
  let n := nat_of_ascii c in (48 <=? n)%nat && (n <=? 57)%nat.

(** The longest prefix of decimal digits, and the rest: [\d*] (greedy). *)
Fixpoint span_digits (s : string) : string * string :=
  match s with
  | String c s' =>
      if is_digit c
      then let '(d, r) := span_digits s' in (String c d, r)
      else (EmptyString, s)
  | EmptyString => (EmptyString, EmptyString)
  end.

Fixpoint int_acc (acc : Z) (s : string) : Z :=
  match s with
  | String c s' => int_acc (10 * acc + (Z.of_nat (nat_of_ascii c) - 48)) s'
  | EmptyString => acc
  end.

(** [int(s)] for a string of decimal digits. *)
Definition int (s : string) : Z := int_acc 0 s.

(** [re.match] with the pattern of [_timestamp_to_seconds]: one or more
    digits, a colon, digits, a colon, digits, an optional dot and a possibly
    empty run of digits; the result is the four groups.  The match is
    anchored at the start only, what follows it is ignored.  Each run of
    digits is greedy and is followed by a character that is no digit, so
    the matcher never backtracks. *)
Definition re_match (s : string) : option (string * string * string * string) :=
  let '(g1, r1) := span_digits s in
  match g1, r1 with
  | String _ _, String ":" r1' =>
      let '(g2, r2) := span_digits r1' in
      match g2, r2 with
      | String _ _, String ":" r2' =>
          let '(g3, r3) := span_digits r2' in
          match g3 with
          | String _ _ =>
              let r4 := match r3 with String "." r => r | _ => r3 end in
              let '(g4, _) := span_digits r4 in
              Some (g1, g2, g3, g4)
          | EmptyString => None
          end
      | _, _ => None
      end
  | _, _ => None
  end.

(** [s.ljust(3, '0')[:3]] *)
Definition ljust3 (s : string) : string :=
  match s with
  | EmptyString => "000"
  | String a EmptyString => String a "00"
  | String a (String b EmptyString) => String a (String b "0")
  | String a (String b (String c _)) => String a (String b (String c EmptyString))
  end.

(** Without a fraction the function returns the [int]; it is read as a
    float wherever it is used, the column "_seconds" being numeric. *)
Definition _timestamp_to_seconds (timestamp : option string) : Q :=
  match timestamp with
  | None => 0%Q
  | Some ts =>
      match re_match ts with
      | None => 0%Q
      | Some (g1, g2, g3, frac) =>
          let secs := int g1 * 3600 + int g2 * 60 + int g3 in
          match frac with
          | EmptyString => fl (inject_Z secs)
          | _ =>
              float_add (inject_Z secs)
                (float_div (inject_Z (int (ljust3 frac))) 1000)
          end
      end
  end.

Definition filter_by_period (df : DataFrame) (period : Z) : DataFrame :=
  if negb (has_col df "period") then df
  else with_rows df (filter (λ e, eqb_cell (c_period e) period = true) (rows df)).

(** [df["_seconds"] = df["timestamp"].apply(_timestamp_to_seconds)] *)
Definition set_seconds (e : event) : event :=
  {| c_label := c_label e; c_period := c_period e;
     c_timestamp := c_timestamp e; c_type_name := c_type_name e;
     c_team_id := c_team_id e; c_team_name := c_team_name e;
     c_x := c_x e; c_y := c_y e; c_end_x := c_end_x e;
     c_pass_outcome := c_pass_outcome e; c_shot_outcome := c_shot_outcome e;
     c_seconds := Some (_timestamp_to_seconds (c_timestamp e)) |}.

Definition assign_seconds (df : DataFrame) : DataFrame :=
  {| columns := if has_col df "_seconds" then columns df
                else columns df ++ ["_seconds"];
     rows := set_seconds <$> rows df |}.

(** [df.drop(columns=["_seconds"], errors="ignore")] *)
Definition clear_seconds (e : event) : event :=
  {| c_label := c_label e; c_period := c_period e;
     c_timestamp := c_timestamp e; c_type_name := c_type_name e;
     c_team_id := c_team_id e; c_team_name := c_team_name e;
     c_x := c_x e; c_y := c_y e; c_end_x := c_end_x e;
     c_pass_outcome := c_pass_outcome e; c_shot_outcome := c_shot_outcome e;
     c_seconds := None |}.

Definition drop_seconds (df : DataFrame) : DataFrame :=
  {| columns := filter (λ c, c ≠ "_seconds") (columns df);
     rows := clear_seconds <$> rows df |}.

(** Python's [max(a, b)]: [a] unless [b > a]. *)
Definition py_max (a b : Q) : Q := if Qle_bool b a then a else b.

(** [Series.max()]: NaN cells are skipped, the maximum of nothing is NaN. *)
Definition series_max (l : list (option Q)) : option Q :=
  match dropna l with
  | [] => None
  | v :: vs => Some (foldl py_max v vs)
  end.

(** [series >= c]: false at NaN cells. *)
Definition ge_cell (o : option Q) (c : Q) : bool :=
  match o with
  | Some v => Qle_bool c v
  | None => false
  end.

(** [series <= c] *)
Definition le_cell (o : option Q) (c : Q) : bool :=
  match o with
  | Some v => Qle_bool v c
  | None => false
  end.

(** [sorted(df["period"].dropna().unique())] *)
Definition present_periods (df : DataFrame) : list Z :=
  merge_sort Z.le (remove_dups (dropna (c_period <$> rows df))).

(** The columns read are guarded by the test of the first line, so no
    [KeyError] can be raised and the function is written without the
    exception monad. *)
Definition filter_last_n_minutes (df : DataFrame) (n_minutes : Q)
    (period : option Z) : DataFrame :=
  if negb (has_col df "period") || negb (has_col df "timestamp") then df
  else
    let df := assign_seconds df in
    match present_periods df with
    | [] => df
    | p0 :: ps =>
        let use_period :=
          match period with Some p => p | None => foldl Z.max p0 ps end in
        let period_events :=
          with_rows df
            (filter (λ e, eqb_cell (c_period e) use_period = true) (rows df)) in
        if df_empty period_events then period_events
        else
          match series_max (c_seconds <$> rows period_events) with
          | None => drop_seconds (with_rows df [])   (* NaN cutoff *)
          | Some period_max_seconds =>
              let period_length_seconds :=
                py_max period_max_seconds (45 * 60) in
              let cutoff :=
                float_sub period_length_seconds (float_mul n_minutes 60) in
              drop_seconds
                (with_rows df
                   (filter (λ e, eqb_cell (c_period e) use_period
                                 && ge_cell (c_seconds e) cutoff = true)
                      (rows df)))
          end
    end.

Definition filter_first_n_minutes (df : DataFrame) (n_minutes : Q)
    (period : option Z) : DataFrame :=
  if negb (has_col df "period") || negb (has_col df "timestamp") then df
  else
    let df := assign_seconds df in
    let use_period := default 1 period in
    let cutoff := float_mul n_minutes 60 in
    drop_seconds
      (with_rows df
         (filter (λ e, eqb_cell (c_period e) use_period
                       && le_cell (c_seconds e) cutoff = true)
            (rows df))).

(** ** Numbers

    A Python float is a rational or NaN; a field that may hold [None] is an
    [option]. *)

Inductive number : Type :=
  | NaN
  | Num (q : Q).

Definition Qlt_bool (a b : Q) : bool := negb (Qle_bool b a).

(** [series > c], [series < c]: false at NaN cells. *)
Definition gt_cell (o : option Q) (c : Q) : bool :=
  match o with
  | Some v => Qlt_bool c v
  | None => false
  end.

Definition lt_cell (o : option Q) (c : Q) : bool :=
  match o with
  | Some v => Qlt_bool v c
  | None => false
  end.

(** Python's [min(a, b)]: [a] unless [b < a]. *)
Definition py_min (a b : Q) : Q := if Qlt_bool b a then b else a.

(** [Series.min()] *)
Definition series_min (l : list (option Q)) : option Q :=
  match dropna l with
  | [] => None
  | v :: vs => Some (foldl py_min v vs)
  end.

Definition Qsum (l : list Q) : Q := foldr Qplus 0%Q l.

Definition Qnat (n : nat) : Q := inject_Z (Z.of_nat n).

(** [Series.mean()]: the mean of the cells that are not NaN, NaN if there
    is none. *)
Definition mean (l : list (option Q)) : number :=
  match dropna l with
  | [] => NaN
  | vs => Num (Qsum vs / Qnat (length vs))
  end.

(** [round(x, ndigits)] on a float: the exact value of the float [fl q]
    is rounded to [ndigits] decimals, ties to even, and the result is the
    float nearest to that decimal. *)
Definition py_round (q : Q) (ndigits : nat) : Q :=
  let s := inject_Z (10 ^ Z.of_nat ndigits) in
  fl (inject_Z (round_half_even (fl q * s)) / s)%Q.

Definition round_number (v : number) (ndigits : nat) : number :=
  match v with
  | NaN => NaN
  | Num q => Num (py_round q ndigits)
  end.

(** ** features/metrics.py *)

(** [Series.value_counts().to_dict()]: how often each value that is not
    NaN occurs. *)
Definition value_counts (l : list (option Z)) : gmap Z nat :=
  foldr (λ o m, match o with
                | Some t => <[t := S (default 0%nat (m !! t))]> m
                | None => m
                end) ∅ l.

(** [counts.sum()], [sum(d.values())] *)
Definition dict_sum (m : gmap Z nat) : nat :=
  map_fold (λ _ v acc, (v + acc)%nat) 0%nat m.

(** [df["team_id"].value_counts().to_dict()] *)
Definition count_by_team (df : DataFrame) : result (gmap Z nat) :=
  tids ← getitem df "team_id" c_team_id; Ok (value_counts tids).

(** The guard that opens most metric functions. *)
Definition no_team_events (df : DataFrame) : bool :=
  df_empty df || negb (has_col df "team_id") || negb (has_col df "type_name").

Definition is_type (t : string) (e : event) : bool :=
  eqb_cell (c_type_name e) t.

(** The dictionary comprehension [{str(tid): count / total for tid, count in
    counts.items()}] is [kmap pretty] after mapping the values. *)
Definition possession_share_from_passes (df : DataFrame)
  : result (gmap string Q) :=
  if no_team_events df then Ok ∅
  else
    passes ← where_ df ["type_name"] (is_type "Pass");
    if df_empty passes then Ok ∅
    else
      counts ← count_by_team passes;
      let total := dict_sum counts in
      if bool_decide (total = 0%nat) then Ok ∅
      else Ok (kmap (M2:=gmap string) pretty
                 ((λ count, Qnat count / Qnat total)%Q <$> counts)).

Definition ball_receipts_by_team (df : DataFrame) : result (gmap Z nat) :=
  if no_team_events df then Ok ∅
  else
    receipts ← where_ df ["type_name"] (is_type "Ball Receipt");
    count_by_team receipts.

Definition pass_counts_by_team (df : DataFrame) : result (gmap Z nat) :=
  if no_team_events df then Ok ∅
  else
    passes ← where_ df ["type_name"] (is_type "Pass");
    count_by_team passes.

Definition is_successful (e : event) : bool :=
  isna (c_pass_outcome e) || eqb_cell (c_pass_outcome e) "Complete".

Definition successful_pass_counts_by_team (df : DataFrame)
  : result (gmap Z nat) :=
  if no_team_events df then Ok ∅
  else
    passes ← where_ df ["type_name"] (is_type "Pass");
    if df_empty passes then Ok ∅
    else
      successful ←
        (if has_col passes "pass_outcome"
         then where_ passes ["pass_outcome"; "pass_outcome"] is_successful
         else Ok passes);
      count_by_team successful.

Definition shot_counts_by_team (df : DataFrame) : result (gmap Z nat) :=
  if no_team_events df then Ok ∅
  else
    shots ← where_ df ["type_name"] (is_type "Shot");
    count_by_team shots.

Definition shots_on_target_by_team (df : DataFrame) : result (gmap Z nat) :=
  if no_team_events df then Ok ∅
  else
    shots ← where_ df ["type_name"] (is_type "Shot");
    if df_empty shots then Ok ∅
    else if negb (has_col shots "shot_outcome") then shot_counts_by_team df
    else
      on_target ←
        where_ shots ["shot_outcome"]
          (λ e, isin (c_shot_outcome e) ["Saved"; "Goal"]);
      count_by_team on_target.

(** [{tid: 0 for tid in series.unique()}].  A NaN among the unique values
    would be one more key of the Python dictionary; no team id ever equals
    it, and it is left out of the map. *)
Definition zero_by_team (l : list (option Z)) : gmap Z nat :=
  list_to_map ((λ tid, (tid, 0%nat)) <$> remove_dups (dropna l)).

Definition goals_by_team (df : DataFrame) : result (gmap Z nat) :=
  if no_team_events df then Ok ∅
  else
    shots ← where_ df ["type_name"] (is_type "Shot");
    if df_empty shots || negb (has_col shots "shot_outcome") then
      tids ← getitem shots "team_id" c_team_id; Ok (zero_by_team tids)
    else
      goals ← where_ shots ["shot_outcome"]
                (λ e, eqb_cell (c_shot_outcome e) "Goal");
      count_by_team goals.

Record position := Position {
  pos_avg_x : number;
  pos_avg_y : number
}.

Definition has_xy (e : event) : bool := notna (c_x e) && notna (c_y e).

(** The loop of [average_position_by_team] over the team ids of [valid];
    the columns it reads have all been read before it. *)
Definition team_position (valid : list event) (tid : Z) : position :=
  let team_events := filter (λ e, eqb_cell (c_team_id e) tid = true) valid in
  {| pos_avg_x := mean (c_x <$> team_events);
     pos_avg_y := mean (c_y <$> team_events) |}.

Definition average_position_by_team (df : DataFrame)
  : result (gmap Z position) :=
  if df_empty df || negb (has_col df "team_id") then Ok ∅
  else
    valid ← where_ df ["x"; "y"] has_xy;
    if df_empty valid then Ok ∅
    else
      tids ← getitem valid "team_id" c_team_id;
      Ok (foldl (λ out tid, <[tid := team_position (rows valid) tid]> out)
            ∅ (remove_dups (dropna tids))).

Definition final_third_entries_by_team (df : DataFrame)
  : result (gmap Z nat) :=
  if df_empty df || negb (has_col df "team_id") || negb (has_col df "x")
  then Ok ∅
  else
    valid ← where_ df ["x"; "x"] (λ e, notna (c_x e) && ge_cell (c_x e) 80);
    count_by_team valid.

(** ** features/spatial.py *)

Record attack_distribution := AttackDistribution {
  left_flank_attacks_pct : option Q;
  center_attacks_pct : option Q;
  right_flank_attacks_pct : option Q;
  attacking_half_actions : nat;
  final_third_dominance : option number
}.

Definition no_attacks : attack_distribution :=
  {| left_flank_attacks_pct := None; center_attacks_pct := None;
     right_flank_attacks_pct := None; attacking_half_actions := 0;
     final_third_dominance := None |}.

Definition len (df : DataFrame) : nat := length (rows df).

Definition attacking_types : list string := ["Pass"; "Carry"; "Dribble"; "Shot"].

Definition attack_distribution_by_zone (events_df : DataFrame) (team_id : Z)
  : result attack_distribution :=
  team_events ← where_ events_df ["team_id"]
                  (λ e, eqb_cell (c_team_id e) team_id);
  attacking_events ←
    where_ team_events ["type_name"; "x"; "y"]
      (λ e, isin (c_type_name e) attacking_types
            && notna (c_x e) && notna (c_y e));
  if bool_decide (len attacking_events = 0%nat) then Ok no_attacks
  else
    attacking_half ← where_ attacking_events ["x"] (λ e, gt_cell (c_x e) 60);
    let attacking_half_count := len attacking_half in
    if bool_decide (attacking_half_count = 0%nat) then Ok no_attacks
    else
      left ← where_ attacking_half ["y"] (λ e, lt_cell (c_y e) (2667 # 100));
      mid ← where_ attacking_half ["y"; "y"]
              (λ e, ge_cell (c_y e) (2667 # 100)
                    && le_cell (c_y e) (5333 # 100));
      right ← where_ attacking_half ["y"] (λ e, gt_cell (c_y e) (5333 # 100));
      let left_flank := len left in
      let center := len mid in
      let right_flank := len right in
      let total := (left_flank + center + right_flank)%nat in
      let pct (k : nat) : option Q :=
        if bool_decide (0 < total)%nat then Some (Qnat k / Qnat total)%Q
        else None in
      final_third ← where_ attacking_half ["x"] (λ e, gt_cell (c_x e) 80);
      ys ← getitem final_third "y" c_y;
      let final_third_dominance :=
        if bool_decide (0 < len final_third)%nat then
          Some (match series_max ys, series_min ys with
                | Some hi, Some lo => Num (py_min ((hi - lo) / 80) 1)
                | _, _ => NaN
                end)
        else None in
      Ok {| left_flank_attacks_pct := pct left_flank;
            center_attacks_pct := pct center;
            right_flank_attacks_pct := pct right_flank;
            attacking_half_actions := attacking_half_count;
            final_third_dominance := final_third_dominance |}.

Record defensive_activity := DefensiveActivity {
  high_press_actions : nat;
  low_block_actions : nat;
  possession_losses_attacking_third : nat
}.

Definition defensive_types : list string :=
  ["Pressure"; "Tackle"; "Interception"; "Block"; "Clearance"; "Duel"].

Definition loss_types : list string := ["Dispossessed"; "Miscontrol"].

Definition defensive_zone_activity (events_df : DataFrame) (team_id : Z)
  : result defensive_activity :=
  team_events ← where_ events_df ["team_id"]
                  (λ e, eqb_cell (c_team_id e) team_id);
  defensive_events ←
    where_ team_events ["type_name"; "x"]
      (λ e, isin (c_type_name e) defensive_types && notna (c_x e));
  high ← where_ defensive_events ["x"] (λ e, gt_cell (c_x e) 60);
  low ← where_ defensive_events ["x"] (λ e, lt_cell (c_x e) 40);
  losses ←
    (if has_col team_events "pass_outcome" then
       where_ team_events ["type_name"; "type_name"; "pass_outcome"; "x"]
         (λ e, (isin (c_type_name e) loss_types
                || (is_type "Pass" e && notna (c_pass_outcome e)))
               && notna (c_x e))
     else
       where_ team_events ["type_name"; "x"]
         (λ e, isin (c_type_name e) loss_types && notna (c_x e)));
  losses_attacking_third ← where_ losses ["x"] (λ e, gt_cell (c_x e) 80);
  Ok {| high_press_actions := len high;
        low_block_actions := len low;
        possession_losses_attacking_third := len losses_attacking_third |}.

Record pass_concentration := PassConcentration {
  pass_width_spread : option number;
  pass_depth_spread : option number;
  back_passes_pct : option Q
}.

Section Spatial.
(** [Series.std()], the sample standard deviation computed by pandas on
    floats (NaN for fewer than two values).  It is a square root, which
    the rationals do not have: it is a parameter of the embedding. *)
Variable std : list (option Q) → number.

Definition passing_concentration (events_df : DataFrame) (team_id : Z)
  : result pass_concentration :=
  team_passes ←
    where_ events_df ["team_id"; "type_name"; "x"; "y"; "end_x"]
      (λ e, eqb_cell (c_team_id e) team_id && is_type "Pass" e
            && notna (c_x e) && notna (c_y e) && notna (c_end_x e));
  if bool_decide (len team_passes = 0%nat) then
    Ok {| pass_width_spread := None; pass_depth_spread := None;
          back_passes_pct := None |}
  else
    ys ← getitem team_passes "y" c_y;
    xs ← getitem team_passes "x" c_x;
    backward ←
      where_ team_passes ["end_x"; "x"]
        (λ e, match c_end_x e, c_x e with
              | Some a, Some b => Qlt_bool a b
              | _, _ => false
              end);
    Ok {| pass_width_spread := Some (std ys);
          pass_depth_spread := Some (std xs);
          back_passes_pct :=
            if bool_decide (0 < len team_passes)%nat
            then Some (Qnat (len backward) / Qnat (len team_passes))%Q
            else None |}.
End Spatial.

(** ** features/aggregator.py *)

(** [df.drop_duplicates("team_id")]: the first row of every team id; NaN
    counts as one more id. *)
Fixpoint drop_duplicates_team_id (seen : list (option Z)) (l : list event)
  : list event :=
  match l with
  | [] => []
  | e :: l' =>
      if bool_decide (c_team_id e ∈ seen) then drop_duplicates_team_id seen l'
      else e :: drop_duplicates_team_id (c_team_id e :: seen) l'
  end.

Definition team_label (tid : Z) : string := "Team_" +:+ pretty tid.

Definition _team_id_to_name_map (df : DataFrame) : result (gmap Z string) :=
  if df_empty df || negb (has_col df "team_id") then Ok ∅
  else
    let name_col := has_col df "team_name" in
    Ok (foldl (λ out row,
                 match c_team_id row with
                 | Some tid =>
                     <[tid := match c_team_name row with
                              | Some name => if name_col then name
                                             else team_label tid
                              | None => team_label tid
                              end]> out
                 | None => out
                 end)
          ∅ (drop_duplicates_team_id [] (rows df))).

Record team_metrics := TeamMetrics {
  team_id : Z;
  team_name : string;
  possession_share : Q;
  passes : nat;
  passes_successful : nat;
  pass_completion_pct : option Q;
  shots : nat;
  shots_on_target : nat;
  goals : nat;
  avg_x : option number;
  avg_y : option number;
  final_third_entries : nat
}.

Record segment_totals := Totals {
  total_passes : nat;
  total_shots : nat
}.

Record segment_result := Segment {
  segment : string;
  teams : list team_metrics;
  totals : segment_totals
}.

(** [d.get(tid, 0)] *)
Definition get0 (d : gmap Z nat) (tid : Z) : nat := default 0%nat (d !! tid).

(** The body of the loop of [compute_match_metrics]. *)
Definition team_record (teams_map : gmap Z string) (possession : gmap string Q)
    (pass_counts pass_success shot_counts shots_ot goals : gmap Z nat)
    (avg_pos : gmap Z position) (final_third : gmap Z nat) (tid : Z)
  : team_metrics :=
  let name := default (team_label tid) (teams_map !! tid) in
  let pct := default 0%Q (possession !! pretty tid) in
  let passes := get0 pass_counts tid in
  let passes_ok := get0 pass_success tid in
  let pass_pct :=
    if bool_decide (passes = 0%nat) then None
    else Some (float_mul (float_div (Qnat passes_ok) (Qnat passes)) 100) in
  let pos := avg_pos !! tid in
  {| team_id := tid;
     team_name := name;
     possession_share := py_round pct 4;
     passes := passes;
     passes_successful := passes_ok;
     pass_completion_pct := (λ p, py_round p 2) <$> pass_pct;
     shots := get0 shot_counts tid;
     shots_on_target := get0 shots_ot tid;
     goals := get0 goals tid;
     avg_x := Some (round_number (from_option pos_avg_x (Num 0) pos) 2);
     avg_y := Some (round_number (from_option pos_avg_y (Num 0) pos) 2);
     final_third_entries := get0 final_third tid |}.

Definition compute_match_metrics (df : DataFrame) (segment_label : string)
  : result segment_result :=
  teams_map ← _team_id_to_name_map df;
  possession ← possession_share_from_passes df;
  pass_counts ← pass_counts_by_team df;
  pass_success ← successful_pass_counts_by_team df;
  shot_counts ← shot_counts_by_team df;
  shots_ot ← shots_on_target_by_team df;
  goals ← goals_by_team df;
  avg_pos ← average_position_by_team df;
  final_third ← final_third_entries_by_team df;
  let team_ids := merge_sort Z.le (map_to_list teams_map).*1 in
  Ok {| segment := segment_label;
        teams := team_record teams_map possession pass_counts pass_success
                   shot_counts shots_ot goals avg_pos final_third
                 <$> team_ids;
        totals := {| total_passes := dict_sum pass_counts;
                     total_shots := dict_sum shot_counts |} |}.

(** [int(x)] on a float: truncation towards zero. *)
Definition py_int (q : Q) : Z :=
  if Qle_bool 0 q then Qfloor q else Qceiling q.

(** One element of the [segments] argument: [seg.get("period")] and
    [seg.get("last_n_minutes")]; an absent key and the value [None] read
    the same. *)
Record segment_request := SegmentRequest {
  req_period : option Z;
  req_last_n_minutes : option Q
}.

Record match_metrics := MatchMetrics {
  match_id : Z;
  segments : list segment_result
}.

Section Loading.

(** The table that [load_match_events] reads for a match.  The read of the
    file comes first in both functions and nothing else touches the file
    system, so the functions are given the table it yields. *)
Variable load_match_events : Z → DataFrame.

Definition get_match_metrics (match_id : Z) (period : option Z)
    (last_n_minutes : option Q) : result segment_result :=
  let df := load_match_events match_id in
  let '(df, segment_label) :=
    match period with
    | Some p => (filter_by_period df p, "period_" +:+ pretty p)
    | None => (df, "full_match")
    end in
  let '(df, segment_label) :=
    match last_n_minutes with
    | Some n =>
        let df := filter_last_n_minutes df n period in
        let segment_label := "last_" +:+ pretty (py_int n) +:+ "_min" in
        (df, match period with
             | Some p => "period_" +:+ pretty p +:+ "_" +:+ segment_label
             | None => segment_label
             end)
    | None => (df, segment_label)
    end in
  compute_match_metrics df segment_label.

(** The body of the loop of [get_match_metrics_multi_segment]; the suffix
    of the label is guarded by the truth value of [period], which is false
    for 0. *)
Definition segment_metrics (df_full : DataFrame) (seg : segment_request)
  : result segment_result :=
  let period := req_period seg in
  let last_n := req_last_n_minutes seg in
  let '(df, label) :=
    match period with
    | Some p => (filter_by_period df_full p, "period_" +:+ pretty p)
    | None => (df_full, "full_match")
    end in
  let '(df, label) :=
    match last_n with
    | Some n =>
        (filter_last_n_minutes df n period,
         "last_" +:+ pretty (py_int n) +:+ "_min"
         +:+ match period with
             | Some p => if bool_decide (p = 0) then "" else "_p" +:+ pretty p
             | None => ""
             end)
    | None => (df, label)
    end in
  compute_match_metrics df label.

Definition get_match_metrics_multi_segment (match_id : Z)
    (segments : option (list segment_request)) : result match_metrics :=
  let df_full := load_match_events match_id in
  full ← compute_match_metrics df_full "full_match";
  rest ← mapM (segment_metrics df_full) (default [] segments);
  Ok {| match_id := match_id; segments := full :: rest |}.

End Loading.

(** ** Vocabulary of the properties *)

(** The exponent that [round53] gives the last bit of the significand. *)
Definition sig_exp (v : Q) : Z := Z.max 0 (Z.log2 (Qfloor v) - 52).

(** Rounding of [v >= 0] to an integer of at most 53 significant bits:
    below [2^53] to the nearest integer, above to the nearest multiple of
    the power of two that leaves 53 bits.  With [v = q * 2^1074] this is
    the float nearest to [q], scaled by [2^1074]. *)
Definition round53 (v : Q) : Z :=
  let k := Z.max 0 (Z.log2 (Qfloor v) - 52) in
  round_half_even (v / inject_Z (2 ^ k)) * 2 ^ k.

(** The call raises [KeyError] for one of the columns [cs] that the table
    lacks. *)
Definition raises_missing {A} (cs : list string) (df : DataFrame)
    (r : result A) : Prop :=
  ∃ c, c ∈ cs ∧ (c ∉ columns df) ∧ r = KeyError c.

(** The columns that the functions of [spatial.py] read without a test. *)
Definition attack_columns : list string := ["team_id"; "type_name"; "x"; "y"].
Definition defence_columns : list string := ["team_id"; "type_name"; "x"].
Definition passing_columns : list string :=
  ["team_id"; "type_name"; "x"; "y"; "end_x"].

(** The floats: the rationals that [fl] leaves as they are. *)
Definition is_float (q : Q) : Prop := fl q = q.

(** [<=] on the rationals is decided by [Qle_bool]. *)
Global Instance Qle_decision : RelDecision Qle :=
  λ a b,
    match Qle_bool a b as c return Qle_bool a b = c → Decision (a <= b)%Q with
    | true => λ H, left (proj1 (Qle_bool_iff a b) H)
    | false => λ H,
        right (λ H', eq_ind true (λ c : bool, if c then True else False) I false
                       (eq_trans (eq_sym (proj2 (Qle_bool_iff a b) H')) H))
    end eq_refl.

(** The elapsed seconds of a row. *)
Definition elapsed (e : event) : Q := _timestamp_to_seconds (c_timestamp e).

(** The reference period of [filter_last_n_minutes]: the given period, or
    the largest period present in the table. *)
Definition reference_period (df : DataFrame) (period : option Z) (ref : Z)
  : Prop :=
  match period with
  | Some p => ref = p
  | None =>
      (∃ e, e ∈ rows df ∧ c_period e = Some ref) ∧
      ∀ e q, e ∈ rows df → c_period e = Some q → (q ≤ ref)%Z
  end.

(** [M] is the largest elapsed time observed in period [ref]. *)
Definition max_elapsed (df : DataFrame) (ref : Z) (M : Q) : Prop :=
  (∃ e, e ∈ rows df ∧ c_period e = Some ref ∧ elapsed e == M) ∧
  ∀ e, e ∈ rows df → c_period e = Some ref → (elapsed e <= M)%Q.

(** The entry of a count in a dictionary of counts: values that do not
    occur are no keys. *)
Definition counted (n : nat) : option nat :=
  match n with
  | O => None
  | S _ => Some n
  end.

(** How often the team id [t] occurs in a column. *)
Definition count_team (l : list (option Z)) (t : Z) : nat :=
  length (filter (λ o, o = Some t) l).

(** The number of rows of team [t] that satisfy [P]. *)
Definition team_rows (P : event → bool) (l : list event) (t : Z) : nat :=
  length (filter (λ e, P e && eqb_cell (c_team_id e) t = true) l).

(** The rows counted by [successful_pass_counts_by_team],
    [shots_on_target_by_team] and [goals_by_team]. *)
Definition successful_pass (df : DataFrame) (e : event) : bool :=
  is_type "Pass" e && (negb (has_col df "pass_outcome") || is_successful e).

Definition on_target_shot (df : DataFrame) (e : event) : bool :=
  is_type "Shot" e
  && (negb (has_col df "shot_outcome")
      || isin (c_shot_outcome e) ["Saved"; "Goal"]).

Definition goal_shot (e : event) : bool :=
  is_type "Shot" e && eqb_cell (c_shot_outcome e) "Goal".

(** [sum(shares.values())] *)
Definition share_sum (m : gmap string Q) : Q :=
  map_fold (λ _ v acc, v + acc)%Q 0%Q m.

(** ** Example tables *)

Definition row (i : nat) (p : Z) (ts ty : string) (t : option Z)
    (xy : option (Q * Q)) : event :=
  {| c_label := i; c_period := Some p; c_timestamp := Some ts;
     c_type_name := Some ty; c_team_id := t; c_team_name := None;
     c_x := fst <$> xy; c_y := snd <$> xy; c_end_x := None;
     c_pass_outcome := None; c_shot_outcome := None; c_seconds := None |}.

Definition with_shot_outcome (o : string) (e : event) : event :=
  {| c_label := c_label e; c_period := c_period e;
     c_timestamp := c_timestamp e; c_type_name := c_type_name e;
     c_team_id := c_team_id e; c_team_name := c_team_name e;
     c_x := c_x e; c_y := c_y e; c_end_x := c_end_x e;
     c_pass_outcome := c_pass_outcome e; c_shot_outcome := Some o;
     c_seconds := c_seconds e |}.

Definition with_pass_outcome (o : string) (e : event) : event :=
  {| c_label := c_label e; c_period := c_period e;
     c_timestamp := c_timestamp e; c_type_name := c_type_name e;
     c_team_id := c_team_id e; c_team_name := c_team_name e;
     c_x := c_x e; c_y := c_y e; c_end_x := c_end_x e;
     c_pass_outcome := Some o; c_shot_outcome := c_shot_outcome e;
     c_seconds := c_seconds e |}.

(** A second period whose last event is at 40:00. *)
Definition last_minutes_table : DataFrame :=
  {| columns := ["period"; "timestamp"; "type_name"; "team_id"];
     rows := [row 0 1 "00:44:10.000" "Pass" (Some 1) None;
              row 1 2 "00:34:59.000" "Pass" (Some 1) None;
              row 2 2 "00:35:00.000" "Pass" (Some 2) None;
              row 3 2 "00:40:00.000" "Shot" (Some 1) None] |}.

(** A first period that ends a millisecond after 45:00. *)
Definition rounding_table : DataFrame :=
  {| columns := ["period"; "timestamp"; "type_name"; "team_id"];
     rows := [row 0 1 "00:10:00.000" "Pass" (Some 1) None;
              row 1 1 "00:30:00.001" "Pass" (Some 1) None;
              row 2 1 "00:45:00.001" "Shot" (Some 2) None] |}.

(** Two events around the end of the first 4.1 minutes. *)
Definition first_minutes_table : DataFrame :=
  {| columns := ["period"; "timestamp"; "type_name"; "team_id"];
     rows := [row 0 1 "00:04:05.000" "Pass" (Some 1) None;
              row 1 1 "00:04:06.000" "Pass" (Some 1) None] |}.

(** Three passes of team 1, two of team 2, a goal of team 1. *)
Definition match_table : DataFrame :=
  {| columns := ["period"; "timestamp"; "type_name"; "team_id"; "x"; "y";
                 "end_x"; "shot_outcome"];
     rows := [row 0 1 "00:01:00.000" "Pass" (Some 1) (Some (50, 40)%Q);
              row 1 1 "00:02:00.000" "Pass" (Some 1) (Some (70, 10)%Q);
              row 2 1 "00:03:00.000" "Pass" (Some 1) (Some (90, 40)%Q);
              row 3 1 "00:04:00.000" "Pass" (Some 2) (Some (30, 20)%Q);
              row 4 1 "00:05:00.000" "Pass" (Some 2) (Some (65, 60)%Q);
              with_shot_outcome "Goal"
                (row 5 1 "00:06:00.000" "Shot" (Some 1) (Some (100, 70)%Q))] |}.

(** One shot each, a goal for team 1 and a save for team 2. *)
Definition goals_table : DataFrame :=
  {| columns := ["team_id"; "type_name"; "shot_outcome"];
     rows := [with_shot_outcome "Goal"
                (row 0 1 "00:10:00.000" "Shot" (Some 1) None);
              with_shot_outcome "Saved"
                (row 1 1 "00:20:00.000" "Shot" (Some 2) None)] |}.

(** The same shots without a shot_outcome column. *)
Definition shots_table : DataFrame :=
  {| columns := ["team_id"; "type_name"];
     rows := [row 0 1 "00:10:00.000" "Shot" (Some 1) None;
              row 1 1 "00:20:00.000" "Shot" (Some 2) None] |}.

(** Team 1 has no located event. *)
Definition unlocated_table : DataFrame :=
  {| columns := ["team_id"; "type_name"; "x"; "y"];
     rows := [row 0 1 "00:10:00.000" "Pass" (Some 1) None;
              row 1 1 "00:20:00.000" "Pass" (Some 2) (Some (50, 50)%Q)] |}.

(** Three passes of team 1, one of them complete. *)
Definition passes_table : DataFrame :=
  {| columns := ["team_id"; "type_name"; "x"; "y"; "pass_outcome"];
     rows := [row 0 1 "00:10:00.000" "Pass" (Some 1) (Some (50, 50)%Q);
              with_pass_outcome "Incomplete"
                (row 1 1 "00:11:00.000" "Pass" (Some 1) (Some (50, 50)%Q));
              with_pass_outcome "Incomplete"
                (row 2 1 "00:12:00.000" "Pass" (Some 1) (Some (50, 50)%Q))] |}.

(** 160 passes of team 1, 93 of them complete. *)
Definition many_passes_table : DataFrame :=
  {| columns := ["team_id"; "type_name"; "x"; "y"; "pass_outcome"];
     rows :=
       ((λ i, row i 1 "00:10:00.000" "Pass" (Some 1) (Some (50, 50)%Q))
          <$> seq 0 93)
       ++ ((λ i, with_pass_outcome "Incomplete"
                   (row i 1 "00:20:00.000" "Pass" (Some 1) (Some (50, 50)%Q)))
             <$> seq 93 67) |}.

(** A table without location columns. *)
Definition no_location_table : DataFrame :=
  {| columns := ["team_id"; "type_name"];
     rows := [row 0 1 "00:10:00.000" "Pass" (Some 1) None] |}.

(** A table without a team_id column, and a pass of no team. *)
Definition no_team_column_table : DataFrame :=
  {| columns := ["type_name"];
     rows := [row 0 1 "00:10:00.000" "Pass" None None] |}.

Definition teamless_pass_table : DataFrame :=
  {| columns := ["team_id"; "type_name"];
     rows := [row 0 1 "00:10:00.000" "Pass" None None] |}.

Definition segment_of (r : result segment_result) : segment_result :=
  match r with
  | Ok seg => seg
  | KeyError _ =>
      {| segment := ""; teams := [];
         totals := {| total_passes := 0; total_shots := 0 |} |}
  end.

Definition match_segment : segment_result :=
  Eval vm_compute in segment_of (compute_match_metrics match_table "full_match").

Definition unlocated_segment : segment_result :=
  Eval vm_compute in
    segment_of (compute_match_metrics unlocated_table "full_match").

Definition passes_segment : segment_result :=
  Eval vm_compute in
    segment_of (compute_match_metrics passes_table "full_match").

Definition many_passes_segment : segment_result :=
  Eval vm_compute in
    segment_of (compute_match_metrics many_passes_table "full_match").

Definition first_team (seg : segment_result) : team_metrics :=
  match teams seg with
  | r :: _ => r
  | [] => TeamMetrics 0 "" 0 0 0 None 0 0 0 None None 0
  end.

Definition match_attacks : attack_distribution :=
  Eval vm_compute in
    match attack_distribution_by_zone match_table 1 with
    | Ok r => r
    | KeyError _ => no_attacks
    end.

(** ** Vocabulary of the further properties *)

(** A string of decimal digits. *)
Fixpoint all_digits (s : string) : bool :=
  match s with
  | EmptyString => true
  | String c s' => is_digit c && all_digits s'
  end.

(** A string that does not begin with the character [c] ... *)
Definition no_head (c : ascii) (s : string) : bool :=
  match s with
  | String c' _ => negb (bool_decide (c' = c))
  | EmptyString => true
  end.

(** ... or with a digit. *)
Definition no_digit_head (s : string) : bool :=
  match s with
  | String c _ => negb (is_digit c)
  | EmptyString => true
  end.

(** The cutoff of [filter_last_n_minutes] for the rows [evs] of the
    reference period: none when the period is empty. *)
Definition last_cutoff (evs : list event) (n : Q) : option Q :=
  match elapsed <$> evs with
  | [] => None
  | v :: vs =>
      Some (float_sub (py_max (foldl py_max v vs) (45 * 60)) (float_mul n 60))
  end.

(** The rows of period [p]. *)
Definition period_rows (df : DataFrame) (p : Z) : list event :=
  filter (λ e, c_period e = Some p) (rows df).

(** The number of Pass rows that have a team id. *)
Definition team_passes (df : DataFrame) : nat :=
  length (filter (λ e, is_type "Pass" e && notna (c_team_id e) = true)
            (rows df)).

(** The value of a call that returns, [d] for one that raises. *)
Definition value_or {A} (d : A) (r : result A) : A :=
  match r with
  | Ok a => a
  | KeyError _ => d
  end.

(** ** Further example tables *)

(** A first period with stoppage time. *)
Definition long_period_table : DataFrame :=
  {| columns := ["period"; "timestamp"; "type_name"; "team_id"];
     rows := [row 0 1 "00:44:00.000" "Pass" (Some 1) None;
              row 1 1 "00:46:30.000" "Shot" (Some 2) None;
              row 2 1 "no time" "Pass" (Some 2) None] |}.

Definition with_end_x (v : Q) (e : event) : event :=
  {| c_label := c_label e; c_period := c_period e;
     c_timestamp := c_timestamp e; c_type_name := c_type_name e;
     c_team_id := c_team_id e; c_team_name := c_team_name e;
     c_x := c_x e; c_y := c_y e; c_end_x := Some v;
     c_pass_outcome := c_pass_outcome e; c_shot_outcome := c_shot_outcome e;
     c_seconds := c_seconds e |}.

(** Defensive actions and passes of team 1. *)
Definition defence_table : DataFrame :=
  {| columns := ["type_name"; "team_id"; "x"; "y"; "end_x"];
     rows := [row 0 1 "00:01:00.000" "Pressure" (Some 1) (Some (70, 40)%Q);
              row 1 1 "00:02:00.000" "Tackle" (Some 1) (Some (30, 20)%Q);
              row 2 1 "00:03:00.000" "Block" (Some 1) (Some (50, 20)%Q);
              with_end_x 40 (row 3 1 "00:04:00.000" "Pass" (Some 1)
                               (Some (50, 20)%Q));
              with_end_x 60 (row 4 1 "00:05:00.000" "Pass" (Some 1)
                               (Some (50, 30)%Q))] |}.

(** The passes that [passing_concentration] looks at. *)
Definition qualifying_pass (tid : Z) (e : event) : bool :=
  eqb_cell (c_team_id e) tid && is_type "Pass" e
  && notna (c_x e) && notna (c_y e) && notna (c_end_x e).

(** The name that [_team_id_to_name_map] reads off a row of team [tid]. *)
Definition row_team_name (name_col : bool) (row : event) (tid : Z) : string :=
  match c_team_name row with
  | Some name => if name_col then name else team_label tid
  | None => team_label tid
  end.

(** The table a segment is computed from: the events of the period, then
    the last minutes of it. *)
Definition segment_table (df : DataFrame) (period : option Z)
    (last_n : option Q) : DataFrame :=
  let df' := match period with Some p => filter_by_period df p | None => df end in
  match last_n with
  | Some n => filter_last_n_minutes df' n period
  | None => df'
  end.

Definition match_requests : list segment_request :=
  [ {| req_period := Some 1; req_last_n_minutes := None |};
    {| req_period := Some 1; req_last_n_minutes := Some 42%Q |} ].

Definition match_multi : match_metrics :=
  Eval vm_compute in
    match get_match_metrics_multi_segment (λ _, match_table) 7
            (Some match_requests) with
    | Ok r => r
    | KeyError _ => {| match_id := 0; segments := [] |}
    end.

(* ================================================================= *)
(** * Properties *)

Lemma Qle_bool_true a b : Qle_bool a b = true ↔ (a <= b)%Q.
Proof. apply Qle_bool_iff. Qed.

(** ** Rounding to the nearest float *)

Lemma round_half_even_bounds q :
  Qfloor q <= round_half_even q <= Qfloor q + 1.
Proof. unfold round_half_even. destruct (_ ?= _)%Q; [destruct (Z.even _)|..]; lia. Qed.

Lemma round_half_even_Z z : round_half_even (inject_Z z) = z.
Proof.
  unfold round_half_even. rewrite Qfloor_Z.
  destruct (Qcompare_spec (inject_Z z - inject_Z z) (1 # 2)) as [H|H|H];
    [lra|done|lra].
Qed.

Global Instance round_half_even_proper : Proper (Qeq ==> eq) round_half_even.
Proof.
  intros a b Hab. unfold round_half_even.
  rewrite (Qfloor_comp a b Hab).
  assert ((a - inject_Z (Qfloor b) ?= 1 # 2) = (b - inject_Z (Qfloor b) ?= 1 # 2))%Q
    as -> by (by rewrite Hab).
  done.
Qed.

Lemma round_half_even_mono a b :
  (a <= b)%Q → round_half_even a <= round_half_even b.
Proof.
  intros Hab. pose proof (Qfloor_resp_le a b Hab) as Hf.
  pose proof (round_half_even_bounds a) as Ba.
  pose proof (round_half_even_bounds b) as Bb.
  destruct (Z.eq_dec (Qfloor a) (Qfloor b)) as [Heq|Hne]; [|lia].
  unfold round_half_even in *. rewrite <-Heq in *.
  destruct (Qcompare_spec (a - inject_Z (Qfloor a)) (1 # 2)) as [Ha|Ha|Ha];
    destruct (Qcompare_spec (b - inject_Z (Qfloor a)) (1 # 2)) as [Hb|Hb|Hb];
    try lia; try lra; destruct (Z.even _); lia.
Qed.

Lemma pow2_pos k : 0 <= k → (0 < inject_Z (2 ^ k))%Q.
Proof.
  intros Hk. change 0%Q with (inject_Z 0). rewrite <-Zlt_Qlt.
  by apply Z.pow_pos_nonneg.
Qed.

Lemma inject_Z_pow2_div c j :
  0 <= j → (inject_Z (c * 2 ^ j) / inject_Z (2 ^ j) == inject_Z c)%Q.
Proof.
  intros Hj. pose proof (pow2_pos j Hj). rewrite inject_Z_mult. field. lra.
Qed.

Lemma round53_unfold v :
  round53 v = round_half_even (v / inject_Z (2 ^ sig_exp v)) * 2 ^ sig_exp v.
Proof. done. Qed.

Lemma sig_exp_nonneg v : 0 <= sig_exp v.
Proof. unfold sig_exp. lia. Qed.

Lemma Qfloor_nonneg v : (0 <= v)%Q → 0 <= Qfloor v.
Proof. intros H. apply (Qfloor_resp_le 0 v) in H. done. Qed.

Lemma significand_upper v :
  (0 <= v)%Q → round_half_even (v / inject_Z (2 ^ sig_exp v)) <= 2 ^ 53.
Proof.
  intros Hv. pose proof (Qfloor_nonneg v Hv) as Hf.
  pose proof (sig_exp_nonneg v) as Hk.
  assert (Qfloor v + 1 <= 2 ^ (sig_exp v + 53)) as Hlt.
  { destruct (Z.eq_dec (Qfloor v) 0) as [->|Hne].
    - assert (0 < 2 ^ (sig_exp v + 53)) by (apply Z.pow_pos_nonneg; lia). lia.
    - assert (Qfloor v < 2 ^ (sig_exp v + 53)); [|lia].
      apply Z.log2_lt_pow2; [lia|]. unfold sig_exp. lia. }
  rewrite <-(round_half_even_Z (2 ^ 53)). apply round_half_even_mono.
  apply Qle_shift_div_r; [by apply pow2_pos|].
  rewrite <-inject_Z_mult, <-Z.pow_add_r by lia.
  rewrite (Z.add_comm 53). apply Qle_trans with (inject_Z (Qfloor v + 1)).
  - apply Qlt_le_weak, Qlt_floor.
  - by rewrite <-Zle_Qle.
Qed.

Lemma significand_lower v :
  (0 <= v)%Q → 1 <= sig_exp v →
  2 ^ 52 <= round_half_even (v / inject_Z (2 ^ sig_exp v)).
Proof.
  intros Hv Hk. pose proof (Qfloor_nonneg v Hv) as Hf.
  assert (sig_exp v = Z.log2 (Qfloor v) - 52) as Hk' by (unfold sig_exp in *; lia).
  assert (0 < Qfloor v) as Hpos.
  { destruct (Z.eq_dec (Qfloor v) 0) as [H0|]; [|lia].
    rewrite H0 in Hk'. simpl in Hk'. lia. }
  pose proof (proj1 (Z.log2_spec _ Hpos)) as Hlog.
  replace (Z.log2 (Qfloor v)) with (52 + sig_exp v) in Hlog by lia.
  rewrite Z.pow_add_r in Hlog by lia.
  rewrite <-(round_half_even_Z (2 ^ 52)). apply round_half_even_mono.
  apply Qle_shift_div_l; [apply pow2_pos; lia|].
  rewrite <-inject_Z_mult. apply Qle_trans with (inject_Z (Qfloor v)).
  - by rewrite <-Zle_Qle.
  - apply Qfloor_le.
Qed.

Lemma significand_nonneg v :
  (0 <= v)%Q → 0 <= round_half_even (v / inject_Z (2 ^ sig_exp v)).
Proof.
  intros Hv. rewrite <-(round_half_even_Z 0). apply round_half_even_mono.
  apply Qle_shift_div_l; [apply pow2_pos, sig_exp_nonneg|].
  change (inject_Z 0) with 0%Q. by rewrite Qmult_0_l.
Qed.

Lemma round53_nonneg v : (0 <= v)%Q → 0 <= round53 v.
Proof.
  intros Hv. rewrite round53_unfold. apply Z.mul_nonneg_nonneg.
  - by apply significand_nonneg.
  - apply Z.pow_nonneg. lia.
Qed.

Lemma sig_exp_mono a b : (0 <= a)%Q → (a <= b)%Q → sig_exp a <= sig_exp b.
Proof.
  intros Ha Hab. unfold sig_exp.
  pose proof (Z.log2_le_mono _ _ (Qfloor_resp_le a b Hab)). lia.
Qed.

Lemma round53_mono a b : (0 <= a)%Q → (a <= b)%Q → round53 a <= round53 b.
Proof.
  intros Ha Hab. assert (0 <= b)%Q as Hb by lra.
  pose proof (sig_exp_mono a b Ha Hab) as Hk.
  pose proof (sig_exp_nonneg a) as Hka.
  rewrite !round53_unfold.
  destruct (Z.eq_dec (sig_exp a) (sig_exp b)) as [Heq|Hne].
  - rewrite <-Heq. apply Z.mul_le_mono_nonneg_r; [apply Z.pow_nonneg; lia|].
    apply round_half_even_mono. pose proof (pow2_pos _ Hka).
    apply Qle_shift_div_l; [done|].
    assert (a / inject_Z (2 ^ sig_exp a) * inject_Z (2 ^ sig_exp a) == a)%Q
      as -> by (field; lra). done.
  - pose proof (significand_upper a Ha) as Hu.
    pose proof (significand_lower b Hb ltac:(lia)) as Hl.
    pose proof (significand_nonneg a Ha) as H0.
    apply Z.le_trans with (2 ^ 53 * 2 ^ sig_exp a).
    { apply Z.mul_le_mono_nonneg_r; [apply Z.pow_nonneg; lia|done]. }
    apply Z.le_trans with (2 ^ 52 * 2 ^ sig_exp b).
    + rewrite <-!Z.pow_add_r by lia. apply Z.pow_le_mono_r; lia.
    + apply Z.mul_le_mono_nonneg_r; [apply Z.pow_nonneg; lia|done].
Qed.

Lemma round53_fix m k :
  0 <= m <= 2 ^ 53 → 0 <= k →
  round53 (inject_Z (m * 2 ^ k)) = m * 2 ^ k.
Proof.
  intros [Hm0 Hm] Hk. rewrite round53_unfold.
  unfold sig_exp. rewrite Qfloor_Z.
  destruct (Z.eq_dec m 0) as [->|Hne].
  { rewrite Z.mul_0_l. simpl. done. }
  rewrite Z.log2_mul_pow2 by lia.
  assert (Z.log2 m <= 53) as Hlog.
  { rewrite <-(Z.log2_pow2 53) by lia. by apply Z.log2_le_mono. }
  destruct (Z.eq_dec (Z.log2 m) 53) as [H53|H53].
  - assert (m = 2 ^ 53) as ->.
    { pose proof (proj1 (Z.log2_spec m ltac:(lia))). rewrite H53 in *. lia. }
    replace (Z.max 0 (k + Z.log2 (2 ^ 53) - 52)) with (k + 1)
      by (rewrite Z.log2_pow2; lia).
    replace (2 ^ 53 * 2 ^ k) with (2 ^ 52 * 2 ^ (k + 1))
      by (rewrite <-!Z.pow_add_r by lia; f_equal; lia).
    by rewrite inject_Z_pow2_div, round_half_even_Z by lia.
  - set (k' := Z.max 0 (k + Z.log2 m - 52)).
    assert (0 <= k' <= k) as Hk' by lia.
    replace (m * 2 ^ k) with (m * 2 ^ (k - k') * 2 ^ k').
    + by rewrite inject_Z_pow2_div, round_half_even_Z by lia.
    + rewrite <-Z.mul_assoc, <-Z.pow_add_r by lia. do 2 f_equal. lia.
Qed.

Lemma round53_idem v :
  (0 <= v)%Q → round53 (inject_Z (round53 v)) = round53 v.
Proof.
  intros Hv. rewrite (round53_unfold v). apply round53_fix.
  - split; [by apply significand_nonneg|by apply significand_upper].
  - apply sig_exp_nonneg.
Qed.

Global Instance round53_proper : Proper (Qeq ==> eq) round53.
Proof.
  intros a b Hab. unfold round53. rewrite (Qfloor_comp a b Hab).
  apply (f_equal (λ z, z * _)). apply round_half_even_proper.
  by rewrite Hab.
Qed.

Lemma scale_pos : (0 < inject_Z (2 ^ 1074))%Q.
Proof. by apply pow2_pos. Qed.

Lemma Qldexp_spec q e a b :
  0 <= a → 0 <= b → e = a - b →
  (Qldexp q e == q * inject_Z (2 ^ a) / inject_Z (2 ^ b))%Q.
Proof.
  intros Ha Hb ->. unfold Qldexp.
  pose proof (pow2_pos a Ha). pose proof (pow2_pos b Hb).
  destruct (Z.leb_spec 0 (a - b)) as [Hle|Hlt].
  - pose proof (pow2_pos (a - b) Hle).
    replace a with ((a - b) + b) at 2 by lia.
    rewrite Z.pow_add_r, inject_Z_mult by lia. field. lra.
  - pose proof (pow2_pos (- (a - b)) ltac:(lia)).
    replace b with (- (a - b) + a) at 2 by lia.
    rewrite Z.pow_add_r, inject_Z_mult by lia. field. lra.
Qed.

(** [fl_abs] rounds the number scaled by [2^1074] to 53 bits. *)
Lemma fl_abs_round53 q :
  (fl_abs q == inject_Z (round53 (q * inject_Z (2 ^ 1074)))
               / inject_Z (2 ^ 1074))%Q.
Proof.
  unfold fl_abs, float_exp. rewrite round53_unfold.
  fold (sig_exp (q * inject_Z (2 ^ 1074))).
  set (k := sig_exp (q * inject_Z (2 ^ 1074))).
  assert (0 <= k) as Hk by apply sig_exp_nonneg.
  rewrite (Qldexp_spec _ (k - 1074) k 1074) by lia.
  rewrite (round_half_even_proper (Qldexp q (- (k - 1074)))
             (q * inject_Z (2 ^ 1074) / inject_Z (2 ^ k))%Q)
    by (apply Qldexp_spec; lia).
  by rewrite inject_Z_mult.
Qed.

Lemma fl_nonneg_eq q :
  (0 <= q)%Q →
  (fl q == inject_Z (round53 (q * inject_Z (2 ^ 1074))) / inject_Z (2 ^ 1074))%Q.
Proof.
  intros Hq. unfold fl. rewrite Qred_correct.
  rewrite (proj2 (Qle_bool_iff 0 q) Hq). apply fl_abs_round53.
Qed.

Lemma round53_0 : round53 0 = 0.
Proof. by vm_compute. Qed.

Lemma fl_nonpos_eq q :
  (q <= 0)%Q →
  (fl q == - (inject_Z (round53 (- q * inject_Z (2 ^ 1074)))
              / inject_Z (2 ^ 1074)))%Q.
Proof.
  intros Hq. unfold fl. rewrite Qred_correct.
  destruct (Qle_bool 0 q) eqn:Hb; rewrite fl_abs_round53;
    [|apply Qeq_refl].
  apply Qle_bool_iff in Hb. assert (q == 0)%Q as H0 by lra.
  assert (q * inject_Z (2 ^ 1074) == 0)%Q as -> by (rewrite H0; ring).
  assert (- q * inject_Z (2 ^ 1074) == 0)%Q as -> by (rewrite H0; ring).
  rewrite round53_0. done.
Qed.

Lemma fl_proper a b : (a == b)%Q → fl a = fl b.
Proof.
  intros Hab. unfold fl. apply Qred_complete.
  rewrite (Qleb_comp 0%Q 0%Q (Qeq_refl 0%Q) a b Hab).
  destruct (Qle_bool 0 b); rewrite !fl_abs_round53.
  - assert (round53 (a * inject_Z (2 ^ 1074))
            = round53 (b * inject_Z (2 ^ 1074))) as ->
      by (apply round53_proper; by rewrite Hab).
    apply Qeq_refl.
  - assert (round53 (- a * inject_Z (2 ^ 1074))
            = round53 (- b * inject_Z (2 ^ 1074))) as ->
      by (apply round53_proper; by rewrite Hab).
    apply Qeq_refl.
Qed.

Lemma fl_Qred q : Qred (fl q) = fl q.
Proof. unfold fl. apply Qred_complete, Qred_correct. Qed.

Lemma fl_eq a b : (fl a == fl b)%Q → fl a = fl b.
Proof. intros H. rewrite <-(fl_Qred a), <-(fl_Qred b). by apply Qred_complete. Qed.

Lemma scaled_nonneg q : (0 <= q)%Q → (0 <= q * inject_Z (2 ^ 1074))%Q.
Proof. intros H. pose proof scale_pos. by apply Qmult_le_0_compat; [|lra]. Qed.

Lemma fl_nonneg q : (0 <= q)%Q → (0 <= fl q)%Q.
Proof.
  intros Hq. rewrite (fl_nonneg_eq q Hq).
  apply Qle_shift_div_l; [apply scale_pos|]. rewrite Qmult_0_l.
  change 0%Q with (inject_Z 0). rewrite <-Zle_Qle.
  by apply round53_nonneg, scaled_nonneg.
Qed.

Lemma fl_nonpos q : (q <= 0)%Q → (fl q <= 0)%Q.
Proof.
  intros Hq. rewrite (fl_nonpos_eq q Hq).
  assert (0 <= inject_Z (round53 (- q * inject_Z (2 ^ 1074)))
               / inject_Z (2 ^ 1074))%Q; [|lra].
  apply Qle_shift_div_l; [apply scale_pos|]. rewrite Qmult_0_l.
  change 0%Q with (inject_Z 0). rewrite <-Zle_Qle.
  apply round53_nonneg, scaled_nonneg. lra.
Qed.

Lemma fl_mono a b : (a <= b)%Q → (fl a <= fl b)%Q.
Proof.
  intros Hab. pose proof scale_pos as Hs.
  destruct (Qlt_le_dec a 0) as [Ha|Ha]; destruct (Qlt_le_dec b 0) as [Hb|Hb].
  - rewrite (fl_nonpos_eq a), (fl_nonpos_eq b) by lra.
    apply Qopp_le_compat.
    apply Qmult_le_compat_r; [|apply Qlt_le_weak, Qinv_lt_0_compat, Hs].
    rewrite <-Zle_Qle. apply round53_mono.
    + apply scaled_nonneg. lra.
    + apply Qmult_le_compat_r; lra.
  - apply Qle_trans with 0%Q; [apply fl_nonpos; lra|by apply fl_nonneg].
  - lra.
  - rewrite (fl_nonneg_eq a), (fl_nonneg_eq b) by lra.
    apply Qmult_le_compat_r; [|apply Qlt_le_weak, Qinv_lt_0_compat, Hs].
    rewrite <-Zle_Qle. apply round53_mono.
    + by apply scaled_nonneg.
    + apply Qmult_le_compat_r; lra.
Qed.

Lemma fl_opp q : (fl (- q) == - fl q)%Q.
Proof.
  destruct (Qlt_le_dec q 0) as [Hq|Hq].
  - rewrite (fl_nonneg_eq (- q)), (fl_nonpos_eq q) by lra. ring.
  - rewrite (fl_nonpos_eq (- q)), (fl_nonneg_eq q) by lra.
    assert (- - q * inject_Z (2 ^ 1074) == q * inject_Z (2 ^ 1074))%Q as ->
      by ring. done.
Qed.

Lemma fl_fix_nonneg v :
  (0 <= v)%Q →
  (fl (inject_Z (round53 v) / inject_Z (2 ^ 1074))
   == inject_Z (round53 v) / inject_Z (2 ^ 1074))%Q.
Proof.
  intros Hv. pose proof scale_pos as Hs.
  pose proof (round53_nonneg v Hv) as Hr.
  rewrite fl_nonneg_eq.
  - assert (inject_Z (round53 v) / inject_Z (2 ^ 1074) * inject_Z (2 ^ 1074)
            == inject_Z (round53 v))%Q as -> by (field; lra).
    by rewrite round53_idem.
  - apply Qle_shift_div_l; [done|]. rewrite Qmult_0_l.
    change 0%Q with (inject_Z 0). by rewrite <-Zle_Qle.
Qed.

Lemma fl_idem q : fl (fl q) = fl q.
Proof.
  apply fl_eq. destruct (Qlt_le_dec q 0) as [Hq|Hq].
  - rewrite (fl_proper _ _ (fl_nonpos_eq q ltac:(lra))).
    rewrite fl_opp, fl_fix_nonneg; [by rewrite <-fl_nonpos_eq by lra|].
    apply scaled_nonneg. lra.
  - rewrite (fl_proper _ _ (fl_nonneg_eq q Hq)).
    rewrite fl_fix_nonneg by (by apply scaled_nonneg).
    by rewrite <-fl_nonneg_eq.
Qed.

Lemma fl_Z z : Z.abs z <= 2 ^ 53 → (fl (inject_Z z) == inject_Z z)%Q.
Proof.
  intros Hz. pose proof scale_pos as Hs.
  assert (∀ m, 0 <= m <= 2 ^ 53 → (fl (inject_Z m) == inject_Z m)%Q) as Hpos.
  { intros m Hm. rewrite fl_nonneg_eq
      by (change 0%Q with (inject_Z 0); rewrite <-Zle_Qle; lia).
    rewrite <-inject_Z_mult, round53_fix by lia.
    rewrite inject_Z_mult. field. lra. }
  destruct (Z.le_gt_cases 0 z) as [H0|H0]; [apply Hpos; lia|].
  assert (inject_Z z == - inject_Z (- z))%Q as Hopp
    by (rewrite inject_Z_opp; ring).
  rewrite (fl_proper _ _ Hopp), fl_opp, Hpos by lia. by rewrite Hopp.
Qed.

Lemma fl_0 : fl 0 = 0%Q.
Proof. by vm_compute. Qed.

Lemma fl_is_float q : is_float (fl q).
Proof. apply fl_idem. Qed.

Lemma float_add_proper a a' b b' :
  (a == a')%Q → (b == b')%Q → float_add a b = float_add a' b'.
Proof.
  intros Ha Hb. unfold float_add.
  by rewrite (fl_proper a a' Ha), (fl_proper b b' Hb).
Qed.

Lemma float_sub_proper a a' b b' :
  (a == a')%Q → (b == b')%Q → float_sub a b = float_sub a' b'.
Proof.
  intros Ha Hb. unfold float_sub.
  by rewrite (fl_proper a a' Ha), (fl_proper b b' Hb).
Qed.

Lemma float_mul_proper a a' b b' :
  (a == a')%Q → (b == b')%Q → float_mul a b = float_mul a' b'.
Proof.
  intros Ha Hb. unfold float_mul.
  by rewrite (fl_proper a a' Ha), (fl_proper b b' Hb).
Qed.

Lemma float_div_proper a a' b b' :
  (a == a')%Q → (b == b')%Q → float_div a b = float_div a' b'.
Proof.
  intros Ha Hb. unfold float_div.
  by rewrite (fl_proper a a' Ha), (fl_proper b b' Hb).
Qed.

Lemma fl_60 : fl 60 = 60%Q.
Proof. by vm_compute. Qed.

(** The float operations of the cutoffs are monotone. *)
Lemma float_mul_60_mono a a' :
  (a <= a')%Q → (float_mul a 60 <= float_mul a' 60)%Q.
Proof.
  intros Ha. unfold float_mul. rewrite fl_60. apply fl_mono.
  pose proof (fl_mono a a' Ha). lra.
Qed.

Lemma float_sub_anti_r a b b' :
  (b <= b')%Q → (float_sub a b' <= float_sub a b)%Q.
Proof.
  intros Hb. unfold float_sub. apply fl_mono.
  pose proof (fl_mono b b' Hb). lra.
Qed.

Lemma float_sub_mono_l a a' b :
  (a <= a')%Q → (float_sub a b <= float_sub a' b)%Q.
Proof.
  intros Ha. unfold float_sub. apply fl_mono.
  pose proof (fl_mono a a' Ha). lra.
Qed.

Lemma float_mul_60_nonneg a : (0 <= a)%Q → (0 <= float_mul a 60)%Q.
Proof.
  intros Ha. unfold float_mul. rewrite fl_60. apply fl_nonneg.
  pose proof (fl_nonneg a Ha). lra.
Qed.

(** Subtracting a float that is not negative from a float does not give
    more. *)
Lemma float_sub_le a b :
  (fl a == a)%Q → (0 <= b)%Q → (float_sub a b <= a)%Q.
Proof.
  intros Ha Hb. unfold float_sub.
  apply Qle_trans with (fl a); [|rewrite Ha; apply Qle_refl].
  rewrite <-(fl_idem a) at 2.
  apply fl_mono. pose proof (fl_nonneg b Hb). lra.
Qed.

Global Opaque fl.

(** Every number that [_timestamp_to_seconds] returns is a float. *)
Lemma timestamp_to_seconds_float (ts : option string) :
  is_float (_timestamp_to_seconds ts).
Proof.
  destruct ts as [s|]; simpl; [|apply fl_0].
  destruct (re_match s) as [[[[g1 g2] g3] g4]|]; [|apply fl_0].
  destruct g4; apply fl_is_float.
Qed.

(** ** Time windows *)

Lemma has_col_with_rows df rs c : has_col (with_rows df rs) c = has_col df c.
Proof. reflexivity. Qed.

Lemma filter_twice {A} (P : A → Prop) `{!∀ a, Decision (P a)} (l : list A) :
  filter P (filter P l) = filter P l.
Proof.
  induction l as [|a l IH]; [done|].
  rewrite filter_cons. case_decide as Ha; [|done].
  rewrite filter_cons, decide_True by done. by rewrite IH.
Qed.

(** C6. [filter_by_period] is idempotent: filtering an already filtered
    table by the same period returns the identical table (same columns,
    same rows with the same index labels, in the same order). *)
Theorem filter_by_period_idempotent (df : DataFrame) (p : Z) :
  filter_by_period (filter_by_period df p) p = filter_by_period df p.
Proof.
  unfold filter_by_period.
  destruct (has_col df "period") eqn:Hc; simpl; rewrite ?Hc; simpl; [|done].
  rewrite has_col_with_rows, Hc. simpl.
  unfold with_rows. simpl. f_equal. apply filter_twice.
Qed.

(** Without a period column the table is returned unchanged. *)
Lemma filter_by_period_no_column (df : DataFrame) (p : Z) :
  has_col df "period" = false → filter_by_period df p = df.
Proof. unfold filter_by_period. by intros ->. Qed.

Lemma filter_by_period_rows (df : DataFrame) (p : Z) e :
  has_col df "period" = true →
  e ∈ rows (filter_by_period df p) ↔ e ∈ rows df ∧ c_period e = Some p.
Proof.
  unfold filter_by_period. intros ->. simpl.
  rewrite list_elem_of_filter. unfold eqb_cell.
  rewrite bool_decide_eq_true. tauto.
Qed.

Lemma py_max_Qmax a b : py_max a b == Qmax a b.
Proof.
  unfold py_max. destruct (Qle_bool b a) eqn:H.
  - apply Qle_bool_true in H. symmetry. by apply Q.max_l.
  - symmetry. apply Q.max_r. apply Qlt_le_weak, Qnot_le_lt.
    intros H'. apply Qle_bool_true in H'. congruence.
Qed.

Lemma py_max_cases a b :
  (py_max a b = a ∧ (b <= a)%Q) ∨ (py_max a b = b ∧ (a <= b)%Q).
Proof.
  unfold py_max. destruct (Qle_bool b a) eqn:H.
  - left. split; [done|]. by apply Qle_bool_true.
  - right. split; [done|]. apply Qlt_le_weak, Qnot_le_lt.
    intros H'. apply Qle_bool_true in H'. congruence.
Qed.

Lemma py_max_l a b : (a <= py_max a b)%Q.
Proof. destruct (py_max_cases a b) as [[-> _]|[-> H]]; [apply Qle_refl|done]. Qed.

Lemma py_max_r a b : (b <= py_max a b)%Q.
Proof. destruct (py_max_cases a b) as [[-> H]|[-> _]]; [done|apply Qle_refl]. Qed.

Lemma foldl_py_max_init (vs : list Q) (v : Q) : (v <= foldl py_max v vs)%Q.
Proof.
  revert v. induction vs as [|w vs IH]; intros v; simpl; [apply Qle_refl|].
  eapply Qle_trans; [apply (py_max_l v w)|apply IH].
Qed.

Lemma foldl_py_max_upper (vs : list Q) (v u : Q) :
  u ∈ vs → (u <= foldl py_max v vs)%Q.
Proof.
  revert v. induction vs as [|w vs IH]; intros v Hu; simpl.
  - by apply elem_of_nil in Hu.
  - apply elem_of_cons in Hu as [->|Hu]; [|by apply IH].
    eapply Qle_trans; [apply (py_max_r v w)|apply foldl_py_max_init].
Qed.

Lemma foldl_py_max_elem (vs : list Q) (v : Q) : foldl py_max v vs ∈ v :: vs.
Proof.
  revert v. induction vs as [|w vs IH]; intros v; simpl; [left|].
  specialize (IH (py_max v w)).
  apply elem_of_cons in IH as [IH|IH]; [|by do 2 right].
  rewrite IH. destruct (py_max_cases v w) as [[-> _]|[-> _]]; [left|right; left].
Qed.

Lemma series_max_spec (l : list (option Q)) (m : Q) :
  series_max l = Some m →
  Some m ∈ l ∧ ∀ u, Some u ∈ l → (u <= m)%Q.
Proof.
  unfold series_max. destruct (dropna l) as [|v vs] eqn:Hl; [done|].
  intros [= <-].
  assert (∀ u, Some u ∈ l ↔ u ∈ v :: vs) as Hin.
  { intros u. rewrite <-Hl. unfold dropna. rewrite list_elem_of_omap.
    split; [by exists (Some u)|]. intros (o & Ho & Heq). by simplify_eq/=. }
  split.
  - apply Hin, foldl_py_max_elem.
  - intros u [->|Hu]%Hin%elem_of_cons;
      [apply foldl_py_max_init|by apply foldl_py_max_upper].
Qed.

Lemma series_max_None (l : list (option Q)) :
  series_max l = None → ∀ u, Some u ∉ l.
Proof.
  unfold series_max. destruct (dropna l) as [|v vs] eqn:Hl; [|done].
  intros _ u Hu.
  assert (u ∈ dropna l) as Hd by (apply list_elem_of_omap; by exists (Some u)).
  rewrite Hl in Hd. by apply elem_of_nil in Hd.
Qed.

Lemma foldl_Zmax_init (l : list Z) (a : Z) : (a ≤ foldl Z.max a l)%Z.
Proof.
  revert a. induction l as [|b l IH]; intros a; simpl; [lia|].
  specialize (IH (Z.max a b)). lia.
Qed.

Lemma foldl_Zmax_upper (l : list Z) (a q : Z) :
  q ∈ l → (q ≤ foldl Z.max a l)%Z.
Proof.
  revert a. induction l as [|b l IH]; intros a Hq; simpl.
  - by apply elem_of_nil in Hq.
  - apply elem_of_cons in Hq as [->|Hq]; [|by apply IH].
    pose proof (foldl_Zmax_init l (Z.max a b)). lia.
Qed.

Lemma foldl_Zmax_elem (l : list Z) (a : Z) : foldl Z.max a l ∈ a :: l.
Proof.
  revert a. induction l as [|b l IH]; intros a; simpl; [left|].
  specialize (IH (Z.max a b)).
  apply elem_of_cons in IH as [IH|IH]; [|by do 2 right].
  rewrite IH. destruct (Z.max_spec a b) as [[_ ->]|[_ ->]]; [right; left|left].
Qed.

Lemma elem_of_present_periods (df : DataFrame) (q : Z) :
  q ∈ present_periods df ↔ ∃ e, e ∈ rows df ∧ c_period e = Some q.
Proof.
  unfold present_periods, dropna.
  rewrite merge_sort_Permutation, elem_of_remove_dups, list_elem_of_omap.
  split.
  - intros (o & (e & -> & He)%list_elem_of_fmap & Ho). by exists e.
  - intros (e & He & Hq). exists (Some q). split; [|done].
    apply list_elem_of_fmap. by exists e.
Qed.

Lemma rows_assign_seconds df : rows (assign_seconds df) = set_seconds <$> rows df.
Proof. reflexivity. Qed.

Lemma present_periods_assign_seconds (df : DataFrame) :
  present_periods (assign_seconds df) = present_periods df.
Proof.
  unfold present_periods. rewrite rows_assign_seconds, <-list_fmap_compose.
  reflexivity.
Qed.

Lemma clear_set_seconds e : clear_seconds (set_seconds e) = clear_seconds e.
Proof. reflexivity. Qed.

(** Dropping the scratch column leaves the rows of a table that has none
    as they are. *)
Lemma clear_seconds_id e : c_seconds e = None → clear_seconds e = e.
Proof. destruct e. simpl. by intros ->. Qed.

Lemma clear_seconds_fmap_id (l : list event) :
  (∀ e, e ∈ l → c_seconds e = None) → clear_seconds <$> l = l.
Proof.
  induction l as [|e l IH]; intros H; [done|].
  rewrite fmap_cons, clear_seconds_id by (apply H; left).
  rewrite IH; [done|]. intros e' ?. apply H. by right.
Qed.

Lemma filter_set_seconds (P P' : event → Prop)
    `{!∀ e, Decision (P e)} `{!∀ e, Decision (P' e)} (l : list event) :
  (∀ e, P (set_seconds e) ↔ P' e) →
  clear_seconds <$> filter P (set_seconds <$> l)
  = clear_seconds <$> filter P' l.
Proof.
  intros HP. induction l as [|e l IH]; [done|].
  rewrite fmap_cons, !filter_cons.
  destruct (decide (P (set_seconds e))) as [H1|H1];
    destruct (decide (P' e)) as [H2|H2]; try (apply HP in H1; done);
    try (apply HP in H2; done); [|done].
  rewrite !fmap_cons, clear_set_seconds. by f_equal.
Qed.

Lemma columns_drop_assign (df : DataFrame) :
  columns (drop_seconds (assign_seconds df))
  = filter (λ c, c ≠ "_seconds") (columns df).
Proof.
  unfold drop_seconds, assign_seconds. simpl.
  destruct (has_col df "_seconds"); [done|].
  rewrite filter_app. simpl. rewrite filter_cons, decide_False by (by intros []).
  by rewrite filter_nil, app_nil_r.
Qed.

Lemma has_col_true df c : has_col df c = true ↔ c ∈ columns df.
Proof. unfold has_col. apply bool_decide_eq_true. Qed.

Lemma has_col_false df c : has_col df c = false ↔ c ∉ columns df.
Proof. unfold has_col. apply bool_decide_eq_false. Qed.

(** The period that [filter_last_n_minutes] selects is the reference
    period. *)
Lemma use_period_reference (df : DataFrame) period ref p0 ps :
  present_periods df = p0 :: ps →
  reference_period df period ref →
  match period with Some p => p | None => foldl Z.max p0 ps end = ref.
Proof.
  intros Hps Href. destruct period as [p|]; [done|].
  destruct Href as [Hin Hmax].
  apply elem_of_present_periods in Hin. rewrite Hps in Hin.
  pose proof (foldl_Zmax_elem ps p0) as Hel. rewrite <-Hps in Hel.
  apply elem_of_present_periods in Hel as (e & He & Hp).
  specialize (Hmax _ _ He Hp).
  assert (ref ≤ foldl Z.max p0 ps)%Z; [|lia].
  apply elem_of_cons in Hin as [->|Hin];
    [apply foldl_Zmax_init|by apply foldl_Zmax_upper].
Qed.

(** ** Timestamps *)

Lemma span_digits_app (d r : string) :
  all_digits d = true → no_digit_head r = true →
  span_digits (d +:+ r) = (d, r).
Proof.
  intros Hd Hr. induction d as [|c d IH]; simpl.
  - destruct r as [|c r]; [done|]. simpl in *.
    apply negb_true_iff in Hr. by rewrite Hr.
  - simpl in Hd. apply andb_true_iff in Hd as [Hc Hd].
    by rewrite Hc, (IH Hd).
Qed.

Lemma span_digits_all_digits (s : string) : all_digits (span_digits s).1 = true.
Proof.
  induction s as [|c s IH]; [done|]. simpl.
  destruct (is_digit c) eqn:Hc; [|done].
  destruct (span_digits s) as [d r]. simpl in *. by rewrite Hc, IH.
Qed.

Lemma is_digit_value (c : ascii) :
  is_digit c = true → (0 ≤ Z.of_nat (nat_of_ascii c) - 48 ≤ 9)%Z.
Proof.
  unfold is_digit. intros [H1 H2]%andb_true_iff.
  apply Nat.leb_le in H1, H2. lia.
Qed.

Lemma int_acc_nonneg (s : string) (acc : Z) :
  all_digits s = true → (0 ≤ acc)%Z → (0 ≤ int_acc acc s)%Z.
Proof.
  revert acc. induction s as [|c s IH]; intros acc Hs Hacc; [done|].
  simpl in *. apply andb_true_iff in Hs as [Hc Hs].
  apply IH; [done|]. pose proof (is_digit_value c Hc). lia.
Qed.

Lemma int_nonneg (s : string) : all_digits s = true → (0 ≤ int s)%Z.
Proof. intros. by apply int_acc_nonneg. Qed.

Lemma ljust3_all_digits (s : string) :
  all_digits s = true → all_digits (ljust3 s) = true.
Proof.
  destruct s as [|a [|b [|c s]]]; cbn [ljust3 all_digits]; intros H;
    repeat match goal with
           | Hx : _ && _ = true |- _ => apply andb_true_iff in Hx as [? ?]
           end;
    repeat first [assumption | reflexivity | apply andb_true_iff; split].
Qed.

Lemma re_match_all_digits (s g1 g2 g3 g4 : string) :
  re_match s = Some (g1, g2, g3, g4) →
  all_digits g1 = true ∧ all_digits g2 = true ∧ all_digits g3 = true
  ∧ all_digits g4 = true.
Proof.
  unfold re_match.
  pose proof (span_digits_all_digits s) as H1.
  destruct (span_digits s) as [d1 r1]. simpl in H1.
  destruct d1 as [|c1 d1]; [done|]. destruct r1 as [|a1 r1]; [done|].
  destruct (decide (a1 = ":"%char)) as [->|Hne].
  2:{ destruct a1 as [[] [] [] [] [] [] [] []]; done. }
  pose proof (span_digits_all_digits r1) as H2.
  destruct (span_digits r1) as [d2 r2]. simpl in H2.
  destruct d2 as [|c2 d2]; [done|]. destruct r2 as [|a2 r2]; [done|].
  destruct (decide (a2 = ":"%char)) as [->|Hne].
  2:{ destruct a2 as [[] [] [] [] [] [] [] []]; done. }
  pose proof (span_digits_all_digits r2) as H3.
  destruct (span_digits r2) as [d3 r3]. simpl in H3.
  destruct d3 as [|c3 d3]; [done|].
  match goal with
  | |- context [span_digits ?r] =>
      pose proof (span_digits_all_digits r) as H4;
      destruct (span_digits r) as [d4 r4]
  end.
  simpl in H4. by intros [= <- <- <- <-].
Qed.

Lemma timestamp_to_seconds_no_digit (s : string) :
  no_digit_head s = true → _timestamp_to_seconds (Some s) = 0%Q.
Proof.
  intros Hs. simpl. unfold re_match.
  destruct s as [|c s]; [done|]. simpl in *.
  apply negb_true_iff in Hs. by rewrite Hs.
Qed.

Lemma re_match_wellformed (h m s tail : string) :
  all_digits h = true → all_digits m = true → all_digits s = true →
  h ≠ "" → m ≠ "" → s ≠ "" → no_digit_head tail = true →
  re_match (h +:+ ":" +:+ m +:+ ":" +:+ s +:+ tail)
  = Some (h, m, s,
          (span_digits match tail with String "." r => r | _ => tail end).1).
Proof.
  intros Hh Hm Hs Nh Nm Ns Ht. unfold re_match.
  rewrite (span_digits_app h) by done.
  destruct h as [|ch h]; [done|].
  change (":" +:+ m +:+ ":" +:+ s +:+ tail)
    with (String ":" (m +:+ ":" +:+ s +:+ tail)). cbv beta iota.
  rewrite (span_digits_app m) by done.
  destruct m as [|cm m]; [done|].
  change (":" +:+ s +:+ tail) with (String ":" (s +:+ tail)). cbv beta iota.
  rewrite (span_digits_app s) by done.
  destruct s as [|cs s]; [done|]. cbv beta iota.
  by destruct (span_digits _).
Qed.

(** The elapsed seconds of a timestamp [H:M:S.F]: the float sum of the
    whole seconds and of the milliseconds divided by 1000. *)
Lemma timestamp_to_seconds_parts (h m s frac rest : string) :
  all_digits h = true → all_digits m = true → all_digits s = true →
  h ≠ "" → m ≠ "" → s ≠ "" →
  all_digits frac = true → no_digit_head rest = true →
  _timestamp_to_seconds
    (Some (h +:+ ":" +:+ m +:+ ":" +:+ s +:+ "." +:+ frac +:+ rest))
  = float_add (inject_Z (int h * 3600 + int m * 60 + int s))
      (float_div (inject_Z (int (ljust3 frac))) 1000).
Proof.
  intros Hh Hm Hs Nh Nm Ns Hf Hr. unfold _timestamp_to_seconds.
  rewrite (re_match_wellformed h m s ("." +:+ frac +:+ rest)) by done.
  change ("." +:+ frac +:+ rest) with (String "." (frac +:+ rest)).
  cbv beta iota. rewrite (span_digits_app frac rest) by done.
  cbn [fst]. destruct frac as [|c frac]; [|reflexivity].
  change (int (ljust3 "")) with 0%Z.
  assert (float_div (inject_Z 0) 1000 = 0%Q) as -> by (by vm_compute).
  unfold float_add. rewrite fl_0.
  rewrite (fl_proper (fl _ + 0) (fl (inject_Z (int h * 3600 + int m * 60 + int s))))
    by ring.
  by rewrite fl_idem.
Qed.

(** C1. On a table with period and timestamp columns whose reference
    period [ref] (the given period, or the largest period present) is not
    empty and has largest elapsed time [M], [filter_last_n_minutes df n
    period] keeps exactly the rows of period [ref] whose elapsed seconds
    are at least the cutoff [max(M, 45*60) - n*60], in the order of the
    table; the subtraction and the product are the float operations of the
    code, and the cutoff is exactly [max(M, 45*60) - n*60] whenever those
    two operations are exact, as they are for whole minutes.  The elapsed
    seconds of a row are 0 when its timestamp is missing
    or does not match the pattern, and the float [H*3600 + M*60 + S +
    F/1000] for a timestamp [H:M:S.F].  In particular with [n = 10] and [M]
    = 40 minutes the cutoff is 35 minutes, a row at 00:35:00.000 is kept
    and a row at 00:34:59.000 is not. *)
Theorem filter_last_n_minutes_spec (df : DataFrame) (n : Q)
    (period : option Z) (ref : Z) (M : Q) :
  "period" ∈ columns df → "timestamp" ∈ columns df →
  reference_period df period ref →
  max_elapsed df ref M →
  let cutoff := float_sub (Qmax M (45 * 60)) (float_mul n 60) in
  let out := filter_last_n_minutes df n period in
  columns out = filter (λ c, c ≠ "_seconds") (columns df) ∧
  rows out =
    clear_seconds <$>
      filter (λ e, c_period e = Some ref ∧ (cutoff <= elapsed e)%Q) (rows df) ∧
  (∀ e, e ∈ rows df →
     (c_timestamp e = None → elapsed e = 0%Q) ∧
     (∀ ts, c_timestamp e = Some ts → re_match ts = None →
            elapsed e = 0%Q) ∧
     (∀ h m s frac rest,
        all_digits h = true → all_digits m = true → all_digits s = true →
        h ≠ "" → m ≠ "" → s ≠ "" →
        all_digits frac = true → no_digit_head rest = true →
        c_timestamp e
        = Some (h +:+ ":" +:+ m +:+ ":" +:+ s +:+ "." +:+ frac +:+ rest) →
        elapsed e
        = float_add (inject_Z (int h * 3600 + int m * 60 + int s))
            (float_div (inject_Z (int (ljust3 frac))) 1000))) ∧
  (fl (fl n * 60) == n * 60 →
   fl (Qmax M (45 * 60) - n * 60) == Qmax M (45 * 60) - n * 60 →
   cutoff == Qmax M (45 * 60) - n * 60)%Q ∧
  (n == 10 → M == 40 * 60 →
   cutoff == 35 * 60 ∧
   ∀ e, e ∈ rows df → c_period e = Some ref →
     (c_timestamp e = Some "00:35:00.000" → clear_seconds e ∈ rows out) ∧
     (c_timestamp e = Some "00:34:59.000" → clear_seconds e ∉ rows out) ∧
     (elapsed e == 35 * 60 → clear_seconds e ∈ rows out) ∧
     (elapsed e == 34 * 60 + 59 → clear_seconds e ∉ rows out))%Q.
Proof.
  intros Hp Ht Href [(e0 & He0 & Hp0 & HM0) Hub] cutoff out.
  assert (columns out = filter (λ c, c ≠ "_seconds") (columns df) ∧
          rows out = clear_seconds <$>
            filter (λ e, c_period e = Some ref ∧ (cutoff <= elapsed e)%Q)
              (rows df)) as [Hcols Hrows].
  { subst out. unfold filter_last_n_minutes.
    apply has_col_true in Hp as Hp', Ht as Ht'. rewrite Hp', Ht'. simpl.
    rewrite present_periods_assign_seconds.
    destruct (present_periods df) as [|p0 ps] eqn:Hps.
    { assert (ref ∈ present_periods df) as Hin
        by (apply elem_of_present_periods; eauto).
      rewrite Hps in Hin. by apply elem_of_nil in Hin. }
    rewrite (use_period_reference df period ref p0 ps Hps Href).
    assert (set_seconds e0 ∈
              filter (λ e, eqb_cell (c_period e) ref = true)
                (set_seconds <$> rows df)) as Hne.
    { apply list_elem_of_filter. split.
      - unfold eqb_cell. by apply bool_decide_eq_true.
      - by apply list_elem_of_fmap_2. }
    assert (df_empty (with_rows (assign_seconds df)
              (filter (λ e, eqb_cell (c_period e) ref = true)
                 (set_seconds <$> rows df))) = false) as ->.
    { unfold df_empty. simpl.
      destruct (filter _ _) as [|r rs]; [by apply elem_of_nil in Hne|].
      destruct (has_col df "_seconds"); destruct (columns df);
        try done. by apply elem_of_nil in Hp. }
    simpl.
    destruct (series_max _) as [m|] eqn:Hmax.
    2:{ exfalso. apply (series_max_None _ Hmax (elapsed e0)).
        apply list_elem_of_fmap. by exists (set_seconds e0). }
    apply series_max_spec in Hmax as [Hm Hmub].
    assert (m == M) as HmM.
    { apply Qle_antisym.
      - apply list_elem_of_fmap in Hm as (e' & Hs & He').
        apply list_elem_of_filter in He' as [Hpe He'].
        apply list_elem_of_fmap in He' as (e'' & -> & He'').
        simpl in Hs. injection Hs as ->.
        apply Hub; [done|]. unfold eqb_cell in Hpe.
        by apply bool_decide_eq_true in Hpe.
      - rewrite <-HM0. apply Hmub.
        apply list_elem_of_fmap. by exists (set_seconds e0). }
    split.
    - unfold with_rows. apply (columns_drop_assign df).
    - simpl. apply filter_set_seconds. intros e. simpl.
      unfold eqb_cell. rewrite andb_true_iff, bool_decide_eq_true.
      rewrite Qle_bool_true. fold (elapsed e). subst cutoff.
      rewrite (float_sub_proper (py_max m (45 * 60)) (Qmax M (45 * 60))
                 (float_mul n 60) (float_mul n 60)); [done| |done].
      by rewrite py_max_Qmax, HmM. }
  split; [done|]. split; [done|]. split.
  { intros e He. unfold elapsed. split; [by intros ->|]. split.
    - intros ts -> Hnone. simpl. by rewrite Hnone.
    - intros h m s frac rest Hh Hm Hs Nh Nm Ns Hf Hr ->.
      by apply timestamp_to_seconds_parts. }
  split.
  { intros Hmul Hsub. subst cutoff. unfold float_sub, float_mul.
    rewrite fl_60, fl_idem.
    assert (fl (Qmax M (45 * 60)) == Qmax M (45 * 60))%Q as HA.
    { destruct (Q.max_spec M (45 * 60)%Q) as [[_ Hmx]|[_ Hmx]].
      - rewrite (fl_proper _ _ Hmx), Hmx. by vm_compute.
      - rewrite (fl_proper _ _ Hmx), Hmx, <-(fl_proper _ _ HM0), <-HM0.
        unfold elapsed.
        by rewrite (timestamp_to_seconds_float (c_timestamp e0)). }
    rewrite (fl_proper (fl (Qmax M (45 * 60)) - fl (fl n * 60))
               (Qmax M (45 * 60) - n * 60)%Q); [done|].
    by rewrite HA, Hmul. }
  intros Hn HM.
  assert (cutoff = 35 * 60)%Q as Hcut.
  { subst cutoff.
    rewrite (float_sub_proper (Qmax M (45 * 60)) (45 * 60)%Q
               (float_mul n 60) (float_mul 10 60)).
    - by vm_compute.
    - rewrite HM. by vm_compute.
    - rewrite (float_mul_proper n 10 60 60 Hn (Qeq_refl _)).
      apply Qeq_refl. }
  assert (∀ e, e ∈ rows df → c_period e = Some ref →
            (elapsed e == 35 * 60 → clear_seconds e ∈ rows out) ∧
            (elapsed e == 34 * 60 + 59 → clear_seconds e ∉ rows out))%Q as Hex.
  { intros e He Hpe. split.
    - intros Hel. rewrite Hrows. apply list_elem_of_fmap_2.
      apply list_elem_of_filter. split; [|done]. split; [done|].
      rewrite Hcut, Hel. apply Qle_refl.
    - intros Hel Hin. rewrite Hrows in Hin.
      apply list_elem_of_fmap in Hin as (e' & Heq & He').
      apply list_elem_of_filter in He' as [[_ Hle] _].
      assert (elapsed e' = elapsed e) as Hee.
      { pose proof (f_equal c_timestamp Heq) as Hts. simpl in Hts.
        unfold elapsed. by rewrite Hts. }
      rewrite Hee, Hcut, Hel in Hle. revert Hle. by vm_compute. }
  split; [by rewrite Hcut|]. intros e He Hpe.
  destruct (Hex e He Hpe) as [Hin Hout].
  split; [|split; [|done]].
  - intros Hts. apply Hin. unfold elapsed. rewrite Hts. by vm_compute.
  - intros Hts. apply Hout. unfold elapsed. rewrite Hts. by vm_compute.
Qed.

Lemma eqb_cell_true `{EqDecision A} (o : option A) (v : A) :
  eqb_cell o v = true ↔ o = Some v.
Proof. unfold eqb_cell. apply bool_decide_eq_true. Qed.

(** ** Dictionaries of counts *)

Lemma default_counted n : default 0%nat (counted n) = n.
Proof. by destruct n. Qed.

Lemma counted_Some n k : counted n = Some k → k = n ∧ (0 < n)%nat.
Proof. destruct n; [done|]. intros [= <-]. split; [done|lia]. Qed.

Lemma counted_None n : counted n = None ↔ n = 0%nat.
Proof. by destruct n. Qed.

Lemma value_counts_lookup (l : list (option Z)) (t : Z) :
  value_counts l !! t = counted (count_team l t).
Proof.
  unfold count_team.
  induction l as [|[t'|] l IH]; simpl.
  - apply lookup_empty.
  - rewrite filter_cons. destruct (decide (t' = t)) as [->|Hne].
    + rewrite lookup_insert_eq, decide_True by done.
      by rewrite IH, default_counted.
    + rewrite lookup_insert_ne, decide_False by congruence. apply IH.
  - rewrite filter_cons, decide_False by done. apply IH.
Qed.

Lemma get0_value_counts (l : list (option Z)) (t : Z) :
  get0 (value_counts l) t = count_team l t.
Proof. unfold get0. by rewrite value_counts_lookup, default_counted. Qed.

Lemma count_team_fmap_filter (P : event → bool) (l : list event) (t : Z) :
  count_team (c_team_id <$> filter (λ e, P e = true) l) t = team_rows P l t.
Proof.
  unfold count_team, team_rows.
  induction l as [|e l IH]; [done|].
  rewrite (filter_cons (λ e, P e = true)),
    (filter_cons (λ e, P e && _ = true)).
  destruct (decide (P e = true)) as [HP|HP].
  - rewrite fmap_cons, filter_cons, HP. simpl.
    destruct (decide (c_team_id e = Some t)) as [Ht|Ht].
    + rewrite decide_True by (by apply eqb_cell_true).
      simpl. by rewrite IH.
    + rewrite decide_False by (by rewrite eqb_cell_true). apply IH.
  - rewrite decide_False; [apply IH|]. by intros [? _]%andb_true_iff.
Qed.

Lemma team_rows_mono (P P' : event → bool) (l : list event) (t : Z) :
  (∀ e, e ∈ l → P e = true → P' e = true) →
  (team_rows P l t ≤ team_rows P' l t)%nat.
Proof.
  unfold team_rows. induction l as [|e l IH]; intros Himp; [done|].
  assert (∀ e, e ∈ l → P e = true → P' e = true) as Himp'
    by (intros e' ?; apply Himp; by right).
  specialize (IH Himp'). rewrite !filter_cons.
  destruct (decide (P e && eqb_cell (c_team_id e) t = true)) as [H1|H1].
  - apply andb_true_iff in H1 as [HP Ht].
    rewrite decide_True
      by (apply andb_true_iff; split; [apply Himp; [left|done]|done]).
    simpl. lia.
  - case_decide; simpl; lia.
Qed.

Lemma team_rows_zero (P : event → bool) (l : list event) (t : Z) :
  (∀ e, e ∈ l → c_team_id e = Some t → P e = false) → team_rows P l t = 0%nat.
Proof.
  unfold team_rows. intros HP.
  induction l as [|e l IH]; [done|].
  rewrite filter_cons, decide_False.
  - apply IH. intros e' ?. apply HP. by right.
  - intros [H1 H2]%andb_true_iff. apply eqb_cell_true in H2.
    rewrite HP in H1; [done|left|done].
Qed.

Lemma team_rows_pos (P : event → bool) (l : list event) (t : Z) e :
  e ∈ l → c_team_id e = Some t → P e = true → (0 < team_rows P l t)%nat.
Proof.
  unfold team_rows. intros He Ht HP.
  assert (e ∈ filter (λ e, P e && eqb_cell (c_team_id e) t = true) l) as Hin.
  { apply list_elem_of_filter. split; [|done].
    apply andb_true_iff. split; [done|]. by apply eqb_cell_true. }
  destruct (filter _ l); [by apply elem_of_nil in Hin|simpl; lia].
Qed.

Lemma dict_sum_empty : dict_sum ∅ = 0%nat.
Proof. unfold dict_sum. apply map_fold_empty. Qed.

Lemma dict_sum_insert (m : gmap Z nat) (t : Z) (v : nat) :
  m !! t = None → dict_sum (<[t:=v]> m) = (v + dict_sum m)%nat.
Proof.
  intros Hm. unfold dict_sum.
  rewrite map_fold_insert_L; [done| |done]. intros. lia.
Qed.

Lemma dict_sum_update (m : gmap Z nat) (t : Z) (v : nat) :
  (dict_sum (<[t:=v]> m) + get0 m t = v + dict_sum m)%nat.
Proof.
  unfold get0. destruct (m !! t) as [n|] eqn:Hm; simpl.
  - rewrite <-(insert_delete_eq m), dict_sum_insert by apply lookup_delete_eq.
    rewrite <-(insert_delete_id m t n) at 2 by done.
    rewrite dict_sum_insert by apply lookup_delete_eq. lia.
  - rewrite dict_sum_insert by done. lia.
Qed.

Lemma dict_sum_value_counts (l : list (option Z)) :
  dict_sum (value_counts l) = length (dropna l).
Proof.
  induction l as [|[t|] l IH]; simpl.
  - apply dict_sum_empty.
  - pose proof (dict_sum_update (value_counts l) t
                  (S (get0 (value_counts l) t))) as H.
    unfold get0 in *. rewrite <-IH. lia.
  - apply IH.
Qed.

Lemma dict_sum_lookup_le (m : gmap Z nat) (t : Z) (v : nat) :
  m !! t = Some v → (v ≤ dict_sum m)%nat.
Proof.
  intros Hm. rewrite <-(insert_delete_id m t v) by done.
  rewrite dict_sum_insert by apply lookup_delete_eq. lia.
Qed.

(** ** Reading columns *)

Lemma bind_Ok {A B} (a : A) (k : A → result B) : (Ok a ≫= k) = k a.
Proof. reflexivity. Qed.

Lemma bind_KeyError {A B} (c : string) (k : A → result B) :
  (KeyError c ≫= k) = KeyError c.
Proof. reflexivity. Qed.

Lemma require_Ok (df : DataFrame) (cs : list string) :
  require df cs = Ok () ↔ ∀ c, c ∈ cs → c ∈ columns df.
Proof.
  induction cs as [|c cs IH]; simpl.
  - split; [|done]. intros _ c Hc. by apply elem_of_nil in Hc.
  - destruct (has_col df c) eqn:Hc.
    + apply has_col_true in Hc. rewrite IH. split.
      * intros H c' [->|?]%elem_of_cons; auto.
      * intros H c' ?. apply H. by right.
    + apply has_col_false in Hc. split; [done|].
      intros H. destruct Hc. apply H. left.
Qed.

Lemma where_Ok (df : DataFrame) (cs : list string) (p : event → bool) :
  (∀ c, c ∈ cs → c ∈ columns df) →
  where_ df cs p = Ok (with_rows df (filter (λ e, p e = true) (rows df))).
Proof. intros H. unfold where_. by rewrite (proj2 (require_Ok df cs) H). Qed.

Lemma where_inv (df df' : DataFrame) (cs : list string) (p : event → bool) :
  where_ df cs p = Ok df' →
  (∀ c, c ∈ cs → c ∈ columns df) ∧
  df' = with_rows df (filter (λ e, p e = true) (rows df)).
Proof.
  unfold where_. destruct (require df cs) as [[]|c] eqn:Hr; [|done].
  rewrite bind_Ok. intros [= <-]. split; [|done]. by apply require_Ok.
Qed.

Lemma where_KeyError (df : DataFrame) (cs : list string) (p : event → bool) c :
  where_ df cs p = KeyError c → c ∈ cs ∧ c ∉ columns df.
Proof.
  unfold where_. destruct (require df cs) as [[]|c'] eqn:Hr; [done|].
  rewrite bind_KeyError. intros [= ->].
  induction cs as [|c0 cs IH]; simpl in Hr; [done|].
  destruct (has_col df c0) eqn:Hc.
  - destruct (IH Hr). split; [by right|done].
  - injection Hr as ->. split; [left|by apply has_col_false].
Qed.

Lemma getitem_Ok {A} (df : DataFrame) (c : string) (proj : event → A) :
  c ∈ columns df → getitem df c proj = Ok (proj <$> rows df).
Proof. intros H. unfold getitem. by rewrite (proj2 (has_col_true df c) H). Qed.

Lemma no_team_events_false (df : DataFrame) :
  no_team_events df = false →
  df_empty df = false ∧ "team_id" ∈ columns df ∧ "type_name" ∈ columns df.
Proof.
  unfold no_team_events. intros H.
  apply orb_false_iff in H as [H Hty]. apply orb_false_iff in H as [He Hid].
  apply negb_false_iff, has_col_true in Hty, Hid. done.
Qed.

Lemma df_empty_with_rows (df : DataFrame) (rs : list event) :
  df_empty df = false → df_empty (with_rows df rs) = true → rs = [].
Proof.
  unfold df_empty. simpl. destruct (rows df), (columns df), rs; done.
Qed.

Lemma filter_filter_bool {A} (p q : A → bool) (l : list A) :
  filter (λ a, p a = true) (filter (λ a, q a = true) l)
  = filter (λ a, q a && p a = true) l.
Proof.
  induction l as [|a l IH]; [done|].
  rewrite (filter_cons (λ a, q a = true)), (filter_cons (λ a, q a && _ = true)).
  destruct (decide (q a = true)) as [Hq|Hq].
  - rewrite filter_cons, Hq. simpl.
    destruct (decide (p a = true)); by rewrite IH.
  - rewrite decide_False; [apply IH|]. by intros [? _]%andb_true_iff.
Qed.

Lemma team_rows_nil_filter (P Q : event → bool) (l : list event) (t : Z) :
  filter (λ e, P e = true) l = [] → team_rows (λ e, P e && Q e) l t = 0%nat.
Proof.
  intros Hnil. apply team_rows_zero. intros e He _.
  destruct (P e) eqn:HP; [|done].
  assert (e ∈ filter (λ e, P e = true) l) as Hin
    by (by apply list_elem_of_filter).
  rewrite Hnil in Hin. by apply elem_of_nil in Hin.
Qed.

(** The dictionary of counts of the rows that satisfy [P]. *)
Lemma count_by_team_filter (df : DataFrame) (P : event → bool) :
  "team_id" ∈ columns df →
  ∃ m, count_by_team (with_rows df (filter (λ e, P e = true) (rows df))) = Ok m
       ∧ ∀ t, m !! t = counted (team_rows P (rows df) t).
Proof.
  intros Hid. unfold count_by_team. rewrite getitem_Ok by done.
  rewrite bind_Ok. eexists. split; [done|]. intros t. simpl.
  by rewrite value_counts_lookup, count_team_fmap_filter.
Qed.

(** ** Counting metrics *)

Lemma typed_counts_lookup (df : DataFrame) (ty : string) :
  no_team_events df = false →
  ∃ m, (passes ← where_ df ["type_name"] (is_type ty); count_by_team passes)
       = Ok m
       ∧ ∀ t, m !! t = counted (team_rows (is_type ty) (rows df) t).
Proof.
  intros (Hne & Hid & Hty)%no_team_events_false.
  rewrite where_Ok by (by intros c ->%list_elem_of_singleton).
  rewrite bind_Ok. by apply count_by_team_filter.
Qed.

Lemma pass_counts_by_team_lookup (df : DataFrame) :
  ∃ m, pass_counts_by_team df = Ok m ∧
    ∀ t, m !! t =
      if no_team_events df then None
      else counted (team_rows (is_type "Pass") (rows df) t).
Proof.
  unfold pass_counts_by_team. destruct (no_team_events df) eqn:Hg.
  - exists ∅. split; [done|]. intros t. apply lookup_empty.
  - by apply typed_counts_lookup.
Qed.

Lemma shot_counts_by_team_lookup (df : DataFrame) :
  ∃ m, shot_counts_by_team df = Ok m ∧
    ∀ t, m !! t =
      if no_team_events df then None
      else counted (team_rows (is_type "Shot") (rows df) t).
Proof.
  unfold shot_counts_by_team. destruct (no_team_events df) eqn:Hg.
  - exists ∅. split; [done|]. intros t. apply lookup_empty.
  - by apply typed_counts_lookup.
Qed.

Lemma ball_receipts_by_team_lookup (df : DataFrame) :
  ∃ m, ball_receipts_by_team df = Ok m ∧
    ∀ t, m !! t =
      if no_team_events df then None
      else counted (team_rows (is_type "Ball Receipt") (rows df) t).
Proof.
  unfold ball_receipts_by_team. destruct (no_team_events df) eqn:Hg.
  - exists ∅. split; [done|]. intros t. apply lookup_empty.
  - by apply typed_counts_lookup.
Qed.

Lemma successful_pass_counts_by_team_lookup (df : DataFrame) :
  ∃ m, successful_pass_counts_by_team df = Ok m ∧
    ∀ t, m !! t =
      if no_team_events df then None
      else counted (team_rows (successful_pass df) (rows df) t).
Proof.
  unfold successful_pass_counts_by_team.
  destruct (no_team_events df) eqn:Hg.
  { exists ∅. split; [done|]. intros t. apply lookup_empty. }
  destruct (no_team_events_false df Hg) as (Hne & Hid & Hty).
  rewrite where_Ok by (by intros c ->%list_elem_of_singleton).
  rewrite bind_Ok.
  destruct (df_empty (with_rows df _)) eqn:Hemp.
  { apply df_empty_with_rows in Hemp; [|done].
    exists ∅. split; [done|]. intros t. rewrite lookup_empty.
    unfold successful_pass. by rewrite team_rows_nil_filter. }
  rewrite has_col_with_rows. unfold successful_pass.
  destruct (has_col df "pass_outcome") eqn:Hpo; simpl.
  - apply has_col_true in Hpo.
    rewrite where_Ok by (intros c Hc; simpl;
      repeat (apply elem_of_cons in Hc as [->|Hc]; [done|]);
      by apply elem_of_nil in Hc).
    rewrite bind_Ok. simpl. rewrite filter_filter_bool.
    by apply (count_by_team_filter df
                (λ e, is_type "Pass" e && is_successful e)).
  - destruct (count_by_team_filter df (is_type "Pass") Hid) as (m & -> & Hm).
    exists m. split; [done|]. intros t. rewrite Hm. f_equal.
    unfold team_rows. f_equal. apply list_filter_iff. intros e.
    by rewrite andb_true_r.
Qed.

Lemma shots_on_target_by_team_lookup (df : DataFrame) :
  ∃ m, shots_on_target_by_team df = Ok m ∧
    ∀ t, m !! t =
      if no_team_events df then None
      else counted (team_rows (on_target_shot df) (rows df) t).
Proof.
  unfold shots_on_target_by_team.
  destruct (no_team_events df) eqn:Hg.
  { exists ∅. split; [done|]. intros t. apply lookup_empty. }
  destruct (no_team_events_false df Hg) as (Hne & Hid & Hty).
  rewrite where_Ok by (by intros c ->%list_elem_of_singleton).
  rewrite bind_Ok.
  destruct (df_empty (with_rows df _)) eqn:Hemp.
  { apply df_empty_with_rows in Hemp; [|done].
    exists ∅. split; [done|]. intros t. rewrite lookup_empty.
    unfold on_target_shot. by rewrite team_rows_nil_filter. }
  rewrite has_col_with_rows. unfold on_target_shot.
  destruct (has_col df "shot_outcome") eqn:Hso; simpl.
  - apply has_col_true in Hso.
    rewrite where_Ok by (by intros c ->%list_elem_of_singleton).
    rewrite bind_Ok. simpl. rewrite filter_filter_bool.
    by apply (count_by_team_filter df
      (λ e, is_type "Shot" e && isin (c_shot_outcome e) ["Saved"; "Goal"])).
  - destruct (shot_counts_by_team_lookup df) as (m & -> & Hm).
    exists m. split; [done|]. intros t. rewrite Hm, Hg. f_equal.
    unfold team_rows. f_equal. apply list_filter_iff. intros e.
    by rewrite andb_true_r.
Qed.

Lemma zero_by_team_lookup (l : list (option Z)) (t : Z) :
  zero_by_team l !! t = if bool_decide (Some t ∈ l) then Some 0%nat else None.
Proof.
  unfold zero_by_team. case_bool_decide as Ht.
  - apply elem_of_list_to_map_1'.
    + intros y (t' & [= _ ->] & _)%list_elem_of_fmap. done.
    + apply list_elem_of_fmap. exists t. split; [done|].
      apply elem_of_remove_dups, list_elem_of_omap. by exists (Some t).
  - apply not_elem_of_list_to_map_1. intros Hin. apply Ht.
    apply list_elem_of_fmap in Hin as ([t' n] & -> & Hin).
    apply list_elem_of_fmap in Hin as (t'' & [= -> ->] & Hin).
    apply elem_of_remove_dups, list_elem_of_omap in Hin as (o & Ho & Heq).
    by simplify_eq/=.
Qed.

Lemma goals_by_team_lookup (df : DataFrame) :
  ∃ m, goals_by_team df = Ok m ∧
    ∀ t, m !! t =
      if no_team_events df then None
      else if has_col df "shot_outcome"
           then counted (team_rows goal_shot (rows df) t)
           else if bool_decide (0 < team_rows (is_type "Shot") (rows df) t)%nat
                then Some 0%nat else None.
Proof.
  unfold goals_by_team.
  destruct (no_team_events df) eqn:Hg.
  { exists ∅. split; [done|]. intros t. apply lookup_empty. }
  destruct (no_team_events_false df Hg) as (Hne & Hid & Hty).
  rewrite where_Ok by (by intros c ->%list_elem_of_singleton).
  rewrite bind_Ok, has_col_with_rows.
  set (shots := filter (λ e, is_type "Shot" e = true) (rows df)).
  assert (∀ t, bool_decide (Some t ∈ c_team_id <$> shots)
             = bool_decide (0 < team_rows (is_type "Shot") (rows df) t)%nat)
    as Hshots.
  { intros t. apply bool_decide_ext.
    rewrite <-count_team_fmap_filter. fold shots. unfold count_team.
    split.
    - intros Hin.
      assert (Some t ∈ filter (λ o, o = Some t) (c_team_id <$> shots)) as Hf
        by (by apply list_elem_of_filter).
      destruct (filter (λ o, o = Some t) (c_team_id <$> shots));
        [by apply elem_of_nil in Hf|simpl; lia].
    - intros Hlen.
      destruct (filter (λ o, o = Some t) (c_team_id <$> shots))
        as [|o os] eqn:Hf; [simpl in Hlen; lia|].
      assert (o ∈ filter (λ o, o = Some t) (c_team_id <$> shots)) as Ho
        by (rewrite Hf; left).
      by apply list_elem_of_filter in Ho as [-> ?]. }
  destruct (df_empty (with_rows df shots)) eqn:Hemp; simpl.
  { apply df_empty_with_rows in Hemp; [|done].
    rewrite getitem_Ok, bind_Ok by done. eexists. split; [done|].
    intros t. rewrite zero_by_team_lookup. simpl. rewrite Hshots.
    assert (team_rows (is_type "Shot") (rows df) t = 0%nat) as Hz.
    { rewrite <-count_team_fmap_filter. fold shots. by rewrite Hemp. }
    rewrite Hz.
    destruct (has_col df "shot_outcome"); [|done].
    unfold goal_shot. rewrite team_rows_nil_filter; done. }
  destruct (has_col df "shot_outcome") eqn:Hso; simpl.
  - apply has_col_true in Hso.
    rewrite where_Ok by (by intros c ->%list_elem_of_singleton).
    rewrite bind_Ok. simpl. subst shots. rewrite filter_filter_bool.
    by apply (count_by_team_filter df goal_shot).
  - rewrite getitem_Ok, bind_Ok by done. eexists. split; [done|].
    intros t. rewrite zero_by_team_lookup. simpl. by rewrite Hshots.
Qed.

(** ** Goals *)

Lemma no_team_events_rows (df : DataFrame) e :
  "team_id" ∈ columns df → "type_name" ∈ columns df → e ∈ rows df →
  no_team_events df = false.
Proof.
  intros Hid Hty He. unfold no_team_events.
  rewrite (proj2 (has_col_true df "team_id") Hid).
  rewrite (proj2 (has_col_true df "type_name") Hty).
  unfold df_empty. destruct (rows df); [by apply elem_of_nil in He|].
  destruct (columns df); [by apply elem_of_nil in Hid|done].
Qed.

(** C3, as the code has it.  On a table with team and type columns, a team
    [t] with at least one Shot event is a key of [goals_by_team] with value 0
    when the table has no shot_outcome column.  When the column is present
    the team is a key exactly when one of its shots has outcome Goal, and
    the value is the number of such shots: a team with shots and no goal is
    absent, and the aggregator reads it with the default 0. *)
Theorem goals_by_team_shooting_team (df : DataFrame) (t : Z) :
  "team_id" ∈ columns df → "type_name" ∈ columns df →
  (∃ e, e ∈ rows df ∧ c_team_id e = Some t ∧ c_type_name e = Some "Shot") →
  ∃ m, goals_by_team df = Ok m ∧
    (has_col df "shot_outcome" = false → m !! t = Some 0%nat) ∧
    (has_col df "shot_outcome" = true →
       m !! t = counted (team_rows goal_shot (rows df) t) ∧
       (is_Some (m !! t) ↔
        ∃ e, e ∈ rows df ∧ c_team_id e = Some t ∧ goal_shot e = true)) ∧
    get0 m t = (if has_col df "shot_outcome"
                then team_rows goal_shot (rows df) t else 0%nat).
Proof.
  intros Hid Hty (e & He & Ht & Hs).
  destruct (goals_by_team_lookup df) as (m & Hm & Hl).
  exists m. split; [done|].
  specialize (Hl t).
  rewrite (no_team_events_rows df e Hid Hty He) in Hl.
  assert (0 < team_rows (is_type "Shot") (rows df) t)%nat as Hpos.
  { apply (team_rows_pos _ _ _ e); [done..|]. by apply eqb_cell_true. }
  unfold get0. destruct (has_col df "shot_outcome").
  - split; [done|]. split; [|by rewrite Hl, default_counted].
    intros _. split; [done|]. rewrite Hl. split.
    + intros [k [-> Hk]%counted_Some]. unfold team_rows in Hk.
      destruct (filter _ (rows df)) as [|e' l'] eqn:Hf; [simpl in Hk; lia|].
      assert (e' ∈ filter (λ e, goal_shot e && eqb_cell (c_team_id e) t = true)
                     (rows df)) as Hin by (rewrite Hf; left).
      apply list_elem_of_filter in Hin as [[Hg Ht']%andb_true_iff Hin].
      apply eqb_cell_true in Ht'. by exists e'.
    + intros (e' & He' & Ht' & Hg).
      pose proof (team_rows_pos goal_shot _ _ e' He' Ht' Hg) as Hk.
      destruct (team_rows goal_shot (rows df) t); [lia|by eexists].
  - rewrite bool_decide_true in Hl by done.
    split; [done|]. split; [done|]. by rewrite Hl.
Qed.

(** ** The segment aggregator *)

Lemma bind_inv {A B} (r : result A) (k : A → result B) (b : B) :
  (r ≫= k) = Ok b → ∃ a, r = Ok a ∧ k a = Ok b.
Proof. destruct r as [a|c]; [by exists a|done]. Qed.

Lemma compute_match_metrics_inv (df : DataFrame) (label : string)
    (seg : segment_result) :
  compute_match_metrics df label = Ok seg →
  ∃ teams_map possession pass_counts pass_success shot_counts shots_ot goals
    avg_pos final_third,
    _team_id_to_name_map df = Ok teams_map ∧
    possession_share_from_passes df = Ok possession ∧
    pass_counts_by_team df = Ok pass_counts ∧
    successful_pass_counts_by_team df = Ok pass_success ∧
    shot_counts_by_team df = Ok shot_counts ∧
    shots_on_target_by_team df = Ok shots_ot ∧
    goals_by_team df = Ok goals ∧
    average_position_by_team df = Ok avg_pos ∧
    final_third_entries_by_team df = Ok final_third ∧
    segment seg = label ∧
    teams seg =
      (team_record teams_map possession pass_counts pass_success shot_counts
         shots_ot goals avg_pos final_third
       <$> merge_sort Z.le (map_to_list teams_map).*1) ∧
    totals seg = {| total_passes := dict_sum pass_counts;
                    total_shots := dict_sum shot_counts |}.
Proof.
  unfold compute_match_metrics. intros H.
  apply bind_inv in H as (teams_map & H1 & H).
  apply bind_inv in H as (possession & H2 & H).
  apply bind_inv in H as (pass_counts & H3 & H).
  apply bind_inv in H as (pass_success & H4 & H).
  apply bind_inv in H as (shot_counts & H5 & H).
  apply bind_inv in H as (shots_ot & H6 & H).
  apply bind_inv in H as (goals & H7 & H).
  apply bind_inv in H as (avg_pos & H8 & H).
  apply bind_inv in H as (final_third & H9 & H).
  injection H as <-.
  by exists teams_map, possession, pass_counts, pass_success, shot_counts,
    shots_ot, goals, avg_pos, final_third.
Qed.

Lemma counted_le (a b : nat) :
  (a ≤ b)%nat → (default 0 (counted a) ≤ default 0 (counted b))%nat.
Proof. by rewrite !default_counted. Qed.

(** C10. In every team record produced by [compute_match_metrics] the
    counts are consistent: successful passes are at most the passes, goals
    at most the shots on target, and those at most the shots, also when the
    pass_outcome or shot_outcome column is absent. *)
Theorem compute_match_metrics_counts_consistent (df : DataFrame)
    (label : string) (seg : segment_result) (r : team_metrics) :
  compute_match_metrics df label = Ok seg →
  r ∈ teams seg →
  (passes_successful r ≤ passes r)%nat ∧
  (goals r ≤ shots_on_target r)%nat ∧
  (shots_on_target r ≤ shots r)%nat.
Proof.
  intros Hseg Hr.
  apply compute_match_metrics_inv in Hseg
    as (tm & po & pc & ps & sc & so & go & ap & ft & _ & _ & Hpc & Hps & Hsc
        & Hso & Hgo & _ & _ & _ & Hteams & _).
  rewrite Hteams in Hr. apply list_elem_of_fmap in Hr as (tid & -> & _).
  simpl. unfold get0.
  destruct (pass_counts_by_team_lookup df) as (pc' & Hpc' & Lpc).
  rewrite Hpc in Hpc'. injection Hpc' as <-.
  destruct (successful_pass_counts_by_team_lookup df) as (ps' & Hps' & Lps).
  rewrite Hps in Hps'. injection Hps' as <-.
  destruct (shot_counts_by_team_lookup df) as (sc' & Hsc' & Lsc).
  rewrite Hsc in Hsc'. injection Hsc' as <-.
  destruct (shots_on_target_by_team_lookup df) as (so' & Hso' & Lso).
  rewrite Hso in Hso'. injection Hso' as <-.
  destruct (goals_by_team_lookup df) as (go' & Hgo' & Lgo).
  rewrite Hgo in Hgo'. injection Hgo' as <-.
  rewrite Lpc, Lps, Lsc, Lso, Lgo.
  destruct (no_team_events df); [simpl; lia|].
  split; [|split].
  - apply counted_le, team_rows_mono. unfold successful_pass.
    by intros e _ [? _]%andb_true_iff.
  - destruct (has_col df "shot_outcome") eqn:Hcol.
    + apply counted_le, team_rows_mono.
      unfold goal_shot, on_target_shot. rewrite Hcol. simpl.
      intros e _ [Hs Hg%eqb_cell_true]%andb_true_iff.
      by rewrite Hs, Hg.
    + case_bool_decide; simpl; lia.
  - apply counted_le, team_rows_mono. unfold on_target_shot.
    by intros e _ [? _]%andb_true_iff.
Qed.

Lemma fl_1 : fl 1 = 1%Q.
Proof. by vm_compute. Qed.

Lemma fl_100 : fl 100 = 100%Q.
Proof. by vm_compute. Qed.

Lemma Qnat_nonneg (n : nat) : (0 <= Qnat n)%Q.
Proof.
  unfold Qnat. change 0%Q with (inject_Z 0). rewrite <-Zle_Qle. lia.
Qed.

(** A quotient of counts [a <= b] lies between 0 and 1, and its
    percentage between 0 and 100, also after rounding. *)
Lemma float_div_counts (a b : nat) :
  (a ≤ b)%nat → (0 < b)%nat →
  (0 <= float_div (Qnat a) (Qnat b) <= 1)%Q.
Proof.
  intros Hab Hb. unfold float_div.
  assert (0 <= fl (Qnat a))%Q as Ha0 by apply fl_nonneg, Qnat_nonneg.
  assert (1 <= fl (Qnat b))%Q as Hb1.
  { rewrite <-fl_1. apply fl_mono. unfold Qnat.
    change 1%Q with (inject_Z 1). rewrite <-Zle_Qle. lia. }
  assert (fl (Qnat a) <= fl (Qnat b))%Q as Hle.
  { apply fl_mono. unfold Qnat. rewrite <-Zle_Qle. lia. }
  split.
  - apply fl_nonneg. apply Qle_shift_div_l; [lra|]. lra.
  - apply Qle_trans with (fl 1); [|rewrite fl_1; lra].
    apply fl_mono. apply Qle_shift_div_r; lra.
Qed.

Lemma float_mul_percent (x : Q) :
  (0 <= x <= 1)%Q → (0 <= float_mul x 100 <= 100)%Q.
Proof.
  intros [H0 H1]. unfold float_mul. rewrite fl_100.
  assert (0 <= fl x <= 1)%Q as [? ?].
  { split; [by apply fl_nonneg|]. rewrite <-fl_1. by apply fl_mono. }
  split; [apply fl_nonneg; nra|].
  apply Qle_trans with (fl 100); [|rewrite fl_100; lra].
  apply fl_mono. nra.
Qed.

Lemma successful_le_passes (df : DataFrame) (label : string)
    (seg : segment_result) (r : team_metrics) :
  compute_match_metrics df label = Ok seg →
  r ∈ teams seg → (passes_successful r ≤ passes r)%nat.
Proof.
  intros Hseg Hr.
  apply compute_match_metrics_inv in Hseg
    as (tm & po & pc & ps & sc & so & go & ap & ft & _ & _ & Hpc & Hps & _
        & _ & _ & _ & _ & _ & Hteams & _).
  rewrite Hteams in Hr. apply list_elem_of_fmap in Hr as (tid & -> & _).
  simpl. unfold get0.
  destruct (pass_counts_by_team_lookup df) as (pc' & Hpc' & Lpc).
  rewrite Hpc in Hpc'. injection Hpc' as <-.
  destruct (successful_pass_counts_by_team_lookup df) as (ps' & Hps' & Lps).
  rewrite Hps in Hps'. injection Hps' as <-.
  rewrite Lpc, Lps. destruct (no_team_events df); [simpl; lia|].
  apply counted_le, team_rows_mono. unfold successful_pass.
  by intros e _ [? _]%andb_true_iff.
Qed.

(** C7, as the code has it.  In every team record produced by
    [compute_match_metrics], pass_completion_pct is null exactly when
    passes is 0; otherwise it is [round(passes_successful / passes * 100,
    2)]: the float quotient times 100, rounded to two decimals, which is
    the float of a number of hundredths between 0 and 100. *)
Theorem compute_match_metrics_pass_completion (df : DataFrame)
    (label : string) (seg : segment_result) (r : team_metrics) :
  compute_match_metrics df label = Ok seg →
  r ∈ teams seg →
  (pass_completion_pct r = None ↔ passes r = 0%nat) ∧
  ((0 < passes r)%nat →
   let pct :=
     float_mul (float_div (Qnat (passes_successful r)) (Qnat (passes r))) 100
   in
   pass_completion_pct r = Some (py_round pct 2) ∧
   py_round pct 2 = fl (inject_Z (round_half_even (pct * 100)) / 100) ∧
   (0 ≤ round_half_even (pct * 100) ≤ 10000)%Z).
Proof.
  intros Hseg Hr.
  pose proof (successful_le_passes df label seg r Hseg Hr) as Hle.
  apply compute_match_metrics_inv in Hseg
    as (tm & po & pc & ps & sc & so & go & ap & ft & _ & _ & _ & _ & _
        & _ & _ & _ & _ & _ & Hteams & _).
  rewrite Hteams in Hr. apply list_elem_of_fmap in Hr as (tid & -> & _).
  cbn [pass_completion_pct passes passes_successful team_record] in *.
  case_bool_decide as Hp; cbn [fmap option_fmap option_map].
  - split; [done|]. lia.
  - split; [split; [done|]; intros; lia|]. intros Hpos.
    pose proof (float_mul_percent _ (float_div_counts _ _ Hle Hpos))
      as [H0 H100].
    set (pct := float_mul _ 100) in *. split; [done|].
    assert (fl pct = pct) as Hfl by apply fl_idem.
    split.
    + unfold py_round. by rewrite Hfl.
    + split.
      * rewrite <-(round_half_even_Z 0). apply round_half_even_mono.
        change (inject_Z 0) with 0%Q. lra.
      * rewrite <-(round_half_even_Z 10000). apply round_half_even_mono.
        change (inject_Z 10000) with 10000%Q. lra.
Qed.

Lemma foldl_insert_lookup {V} (f : Z → V) (l : list Z) (acc : gmap Z V) (t : Z) :
  foldl (λ out tid, <[tid := f tid]> out) acc l !! t
  = if bool_decide (t ∈ l) then Some (f t) else acc !! t.
Proof.
  revert acc. induction l as [|a l IH]; intros acc.
  - case_bool_decide as H; [by apply elem_of_nil in H|done].
  - simpl. rewrite IH. destruct (decide (t ∈ l)) as [Hl|Hl].
    + rewrite (bool_decide_true _ Hl).
      by rewrite bool_decide_true by (by right).
    + rewrite (bool_decide_false _ Hl).
      destruct (decide (t = a)) as [->|Hne].
      * rewrite lookup_insert_eq. by rewrite bool_decide_true by left.
      * rewrite lookup_insert_ne by done.
        rewrite bool_decide_false; [done|]. by intros [?|?]%elem_of_cons.
Qed.

Lemma average_position_by_team_located (df : DataFrame)
    (m : gmap Z position) (t : Z) :
  average_position_by_team df = Ok m → is_Some (m !! t) →
  ∃ e, e ∈ rows df ∧ c_team_id e = Some t ∧ has_xy e = true.
Proof.
  unfold average_position_by_team.
  destruct (df_empty df || negb (has_col df "team_id")) eqn:Hg.
  { intros [= <-] [? H]. by rewrite lookup_empty in H. }
  intros (valid & Hv & H)%bind_inv.
  apply where_inv in Hv as [Hcols ->].
  destruct (df_empty (with_rows df _)).
  { injection H as <-. intros [? H]. by rewrite lookup_empty in H. }
  apply bind_inv in H as (tids & Ht & H).
  unfold getitem in Ht. destruct (has_col _ "team_id"); [|done].
  injection Ht as <-. injection H as <-.
  rewrite foldl_insert_lookup, lookup_empty.
  case_bool_decide as Hin; [|by intros [? ?]]. intros _.
  apply elem_of_remove_dups, list_elem_of_omap in Hin as (o & Ho & Heq).
  simpl in Heq. subst o.
  apply list_elem_of_fmap in Ho as (e & He & Hin).
  apply list_elem_of_filter in Hin as [Hxy Hin]. by exists e.
Qed.

(** [round(0, 2)] *)
Lemma py_round_zero : py_round 0 2 == 0.
Proof. reflexivity. Qed.

(** C4, as the code has it.  For a team none of whose events has a
    non-null (x, y) location, the team record of [compute_match_metrics]
    has avg_x and avg_y equal to 0: the aggregator reads the absent
    position with the default 0 and does not produce null. *)
Theorem compute_match_metrics_unlocated_team (df : DataFrame)
    (label : string) (seg : segment_result) (r : team_metrics) :
  compute_match_metrics df label = Ok seg →
  r ∈ teams seg →
  (∀ e, e ∈ rows df → c_team_id e = Some (team_id r) → has_xy e = false) →
  ∃ qx qy, avg_x r = Some (Num qx) ∧ avg_y r = Some (Num qy) ∧
           qx == 0 ∧ qy == 0.
Proof.
  intros Hseg Hr Hloc.
  apply compute_match_metrics_inv in Hseg
    as (tm & po & pc & ps & sc & so & go & ap & ft & _ & _ & _ & _ & _
        & _ & _ & Hap & _ & _ & Hteams & _).
  rewrite Hteams in Hr. apply list_elem_of_fmap in Hr as (tid & -> & _).
  simpl in *.
  destruct (ap !! tid) as [pos|] eqn:Hpos.
  - destruct (average_position_by_team_located df ap tid Hap)
      as (e & He & Ht & Hxy); [by eexists|].
    by rewrite (Hloc e He Ht) in Hxy.
  - simpl. exists (py_round 0 2), (py_round 0 2).
    repeat split; apply py_round_zero.
Qed.

(** ** Totality of the metric functions *)

Lemma returns_lookup {A} (r : result A) (P : A → Prop) :
  (∃ a, r = Ok a ∧ P a) → returns r.
Proof. intros (a & -> & _). by exists a. Qed.

Lemma possession_share_from_passes_returns (df : DataFrame) :
  returns (possession_share_from_passes df).
Proof.
  unfold possession_share_from_passes.
  destruct (no_team_events df) eqn:Hg; [by eexists|].
  destruct (no_team_events_false df Hg) as (Hne & Hid & Hty).
  rewrite where_Ok by (by intros c ->%list_elem_of_singleton).
  rewrite bind_Ok.
  destruct (df_empty (with_rows df _)) eqn:Hemp; [by eexists|].
  unfold count_by_team. rewrite getitem_Ok, !bind_Ok by done.
  case_bool_decide; by eexists.
Qed.

Lemma final_third_entries_by_team_returns (df : DataFrame) :
  returns (final_third_entries_by_team df).
Proof.
  unfold final_third_entries_by_team.
  destruct (_ || _) eqn:Hg; [by eexists|].
  apply orb_false_iff in Hg as [Hg Hx]. apply orb_false_iff in Hg as [_ Hid].
  apply negb_false_iff, has_col_true in Hx, Hid.
  rewrite where_Ok, bind_Ok.
  - destruct (count_by_team_filter df
      (λ e, notna (c_x e) && ge_cell (c_x e) 80) Hid) as (m & Hm & _).
    by exists m.
  - intros c Hc. repeat (apply elem_of_cons in Hc as [->|Hc]; [done|]).
    by apply elem_of_nil in Hc.
Qed.

Lemma _team_id_to_name_map_returns (df : DataFrame) :
  returns (_team_id_to_name_map df).
Proof. unfold _team_id_to_name_map. destruct (_ || _); by eexists. Qed.

(** [average_position_by_team] returns when the x and y columns are
    there, on an empty table, and on a table without team ids. *)
Lemma average_position_by_team_returns (df : DataFrame) :
  (df_empty df = true ∨ "team_id" ∉ columns df
   ∨ ("x" ∈ columns df ∧ "y" ∈ columns df)) →
  returns (average_position_by_team df).
Proof.
  unfold average_position_by_team. intros Hcase.
  destruct (df_empty df || negb (has_col df "team_id")) eqn:Hg; [by eexists|].
  apply orb_false_iff in Hg as [He Hid].
  apply negb_false_iff, has_col_true in Hid.
  destruct Hcase as [?|[?|[Hx Hy]]]; [congruence|done|].
  rewrite where_Ok, bind_Ok.
  - destruct (df_empty (with_rows df _)) eqn:Hemp; [by eexists|].
    rewrite getitem_Ok, bind_Ok by done. by eexists.
  - intros c Hc. repeat (apply elem_of_cons in Hc as [->|Hc]; [done|]).
    by apply elem_of_nil in Hc.
Qed.

(** What [average_position_by_team] does otherwise. *)
Lemma average_position_by_team_raises (df : DataFrame) :
  df_empty df = false → "team_id" ∈ columns df →
  ("x" ∉ columns df ∨ "y" ∉ columns df) →
  ∃ c, average_position_by_team df = KeyError c ∧ (c = "x" ∨ c = "y").
Proof.
  intros He Hid Hxy. unfold average_position_by_team.
  rewrite He, (proj2 (has_col_true df "team_id") Hid). simpl.
  unfold where_. simpl.
  destruct (has_col df "x") eqn:Hx.
  - destruct (has_col df "y") eqn:Hy.
    + apply has_col_true in Hx, Hy. by destruct Hxy.
    + exists "y". split; [done|by right].
  - exists "x". split; [done|by left].
Qed.

(** [compute_match_metrics] returns on every table on which
    [average_position_by_team] does. *)
Lemma compute_match_metrics_returns (df : DataFrame) (label : string) :
  (df_empty df = true ∨ "team_id" ∉ columns df
   ∨ ("x" ∈ columns df ∧ "y" ∈ columns df)) →
  returns (compute_match_metrics df label).
Proof.
  intros Hcase. unfold compute_match_metrics.
  destruct (_team_id_to_name_map_returns df) as [? ->].
  destruct (possession_share_from_passes_returns df) as [? ->].
  destruct (pass_counts_by_team_lookup df) as (? & -> & _).
  destruct (successful_pass_counts_by_team_lookup df) as (? & -> & _).
  destruct (shot_counts_by_team_lookup df) as (? & -> & _).
  destruct (shots_on_target_by_team_lookup df) as (? & -> & _).
  destruct (goals_by_team_lookup df) as (? & -> & _).
  destruct (average_position_by_team_returns df Hcase) as [? ->].
  destruct (final_third_entries_by_team_returns df) as [? ->].
  rewrite !bind_Ok. by eexists.
Qed.

(** An empty event table yields no team and zero totals. *)
Lemma compute_match_metrics_empty (df : DataFrame) (label : string) :
  rows df = [] →
  compute_match_metrics df label =
    Ok {| segment := label; teams := [];
          totals := {| total_passes := 0; total_shots := 0 |} |}.
Proof.
  intros Hrows.
  assert (df_empty df = true) as He by (unfold df_empty; by rewrite Hrows).
  unfold compute_match_metrics, _team_id_to_name_map,
    possession_share_from_passes, pass_counts_by_team,
    successful_pass_counts_by_team, shot_counts_by_team,
    shots_on_target_by_team, goals_by_team, average_position_by_team,
    final_third_entries_by_team, no_team_events.
  rewrite He. cbn [orb]. rewrite !bind_Ok.
  by rewrite map_to_list_empty, dict_sum_empty.
Qed.

(** ** Spatial metrics *)

Ltac present :=
  let c := fresh "c" in
  let Hc := fresh "Hc" in
  intros c Hc; simpl;
  repeat (apply elem_of_cons in Hc as [->|Hc]; [assumption|]);
  by apply elem_of_nil in Hc.

Ltac read_where :=
  repeat first [ rewrite where_Ok by present | rewrite bind_Ok; cbv beta ].

Lemma attack_distribution_by_zone_returns (df : DataFrame) (tid : Z) :
  "team_id" ∈ columns df → "type_name" ∈ columns df →
  "x" ∈ columns df → "y" ∈ columns df →
  returns (attack_distribution_by_zone df tid).
Proof.
  intros Hid Hty Hx Hy. unfold attack_distribution_by_zone.
  read_where. case_bool_decide; [by eexists|].
  read_where. case_bool_decide; [by eexists|].
  read_where. rewrite getitem_Ok, bind_Ok by done. by eexists.
Qed.

Lemma defensive_zone_activity_returns (df : DataFrame) (tid : Z) :
  "team_id" ∈ columns df → "type_name" ∈ columns df → "x" ∈ columns df →
  returns (defensive_zone_activity df tid).
Proof.
  intros Hid Hty Hx. unfold defensive_zone_activity.
  read_where. rewrite has_col_with_rows.
  destruct (has_col df "pass_outcome") eqn:Hpo.
  - apply has_col_true in Hpo. read_where. by eexists.
  - read_where. by eexists.
Qed.

Lemma passing_concentration_returns (std : list (option Q) → number)
    (df : DataFrame) (tid : Z) :
  "team_id" ∈ columns df → "type_name" ∈ columns df →
  "x" ∈ columns df → "y" ∈ columns df → "end_x" ∈ columns df →
  returns (passing_concentration std df tid).
Proof.
  intros Hid Hty Hx Hy Hex. unfold passing_concentration.
  read_where. case_bool_decide; [by eexists|].
  rewrite !getitem_Ok, !bind_Ok by done. read_where. by eexists.
Qed.

(** *** The three flanks *)

Lemma Qnat_add (a b : nat) : Qnat (a + b) = (Qnat a + Qnat b)%Q.
Proof. unfold Qnat. by rewrite Nat2Z.inj_add, inject_Z_plus. Qed.

Lemma Qnat_pos (a : nat) : (0 < a)%nat → (0 < Qnat a)%Q.
Proof.
  intros H. unfold Qnat. change 0%Q with (inject_Z 0).
  rewrite <-Zlt_Qlt. lia.
Qed.

Lemma Qnat_le (a b : nat) : (a ≤ b)%nat → (Qnat a <= Qnat b)%Q.
Proof. intros H. unfold Qnat. rewrite <-Zle_Qle. lia. Qed.

Lemma Qnat_shares (a b c : nat) :
  (0 < a + b + c)%nat →
  (Qnat a / Qnat (a + b + c) + Qnat b / Qnat (a + b + c)
   + Qnat c / Qnat (a + b + c) == 1)%Q.
Proof.
  intros Hpos. apply Qnat_pos in Hpos.
  set (T := Qnat (a + b + c)) in *.
  assert (Qnat a + Qnat b + Qnat c == T)%Q as HT
    by (subst T; by rewrite !Qnat_add).
  assert (¬ T == 0)%Q as Hnz by (intros Hz; rewrite Hz in Hpos; by vm_compute in Hpos).
  transitivity ((Qnat a + Qnat b + Qnat c) / T)%Q; [by field|].
  rewrite HT. by field.
Qed.

Lemma three_way_count {A} (p q r : A → bool) (l : list A) :
  (∀ a, a ∈ l →
     (p a = true ∧ q a = false ∧ r a = false)
     ∨ (p a = false ∧ q a = true ∧ r a = false)
     ∨ (p a = false ∧ q a = false ∧ r a = true)) →
  (length (filter (λ a, p a = true) l) + length (filter (λ a, q a = true) l)
   + length (filter (λ a, r a = true) l) = length l)%nat.
Proof.
  induction l as [|a l IH]; intros Hone; [done|].
  specialize (IH (λ a' H, Hone a' (list_elem_of_further _ _ _ H))).
  rewrite !filter_cons.
  destruct (Hone a) as [(Hp & Hq & Hr)|[(Hp & Hq & Hr)|(Hp & Hq & Hr)]];
    [left|..]; rewrite Hp, Hq, Hr; repeat case_decide; try done; simpl; lia.
Qed.

(** Left of, inside and right of the central third: exactly one of the
    three tests holds at every non-null y. *)
Lemma zone_partition (a b : Q) (l : list event) :
  (a <= b)%Q →
  (∀ e, e ∈ l → notna (c_y e) = true) →
  (length (filter (λ e, lt_cell (c_y e) a = true) l)
   + length (filter (λ e, ge_cell (c_y e) a && le_cell (c_y e) b = true) l)
   + length (filter (λ e, gt_cell (c_y e) b = true) l) = length l)%nat.
Proof.
  intros Hab Hy. apply three_way_count. intros e He.
  specialize (Hy e He). destruct (c_y e) as [v|]; [|done]. simpl.
  unfold Qlt_bool.
  destruct (Qle_bool a v) eqn:Hav; destruct (Qle_bool v b) eqn:Hvb; simpl;
    [by right; left|by right; right|by left|].
  exfalso.
  assert (v <= b)%Q as Hle; [|apply Qle_bool_true in Hle; congruence].
  apply Qle_trans with a; [|done].
  apply Qlt_le_weak, Qnot_le_lt. intros H%Qle_bool_true. congruence.
Qed.

(** C9. Whenever [attack_distribution_by_zone] reports at least one action
    in the attacking half, the left, centre and right shares are all
    present and add up to 1. *)
Theorem attack_distribution_by_zone_shares (df : DataFrame) (tid : Z)
    (r : attack_distribution) :
  attack_distribution_by_zone df tid = Ok r →
  (0 < attacking_half_actions r)%nat →
  ∃ l c rr,
    left_flank_attacks_pct r = Some l ∧
    center_attacks_pct r = Some c ∧
    right_flank_attacks_pct r = Some rr ∧
    (l + c + rr == 1)%Q.
Proof.
  unfold attack_distribution_by_zone. intros H Hpos.
  apply bind_inv in H as (te & Hte & H). apply where_inv in Hte as [_ ->].
  apply bind_inv in H as (ae & Hae & H). apply where_inv in Hae as [_ ->].
  case_bool_decide; [injection H as <-; simpl in Hpos; lia|].
  apply bind_inv in H as (ah & Hah & H). apply where_inv in Hah as [_ ->].
  case_bool_decide; [injection H as <-; simpl in Hpos; lia|].
  apply bind_inv in H as (le & Hle & H). apply where_inv in Hle as [_ ->].
  apply bind_inv in H as (mi & Hmi & H). apply where_inv in Hmi as [_ ->].
  apply bind_inv in H as (ri & Hri & H). apply where_inv in Hri as [_ ->].
  apply bind_inv in H as (ft & Hft & H). apply where_inv in Hft as [_ ->].
  apply bind_inv in H as (ys & _ & H). injection H as <-.
  simpl in *. unfold len in *. simpl in *.
  match goal with
  | H : length ?l ≠ 0%nat |- context [filter _ ?l] =>
      assert (∀ e, e ∈ l → notna (c_y e) = true) as Hy
  end.
  { intros e [_ [He _]%list_elem_of_filter]%list_elem_of_filter.
    by apply andb_true_iff in He as [_ ?]. }
  pose proof (zone_partition (2667 # 100) (5333 # 100) _
                ltac:(by vm_compute) Hy) as Hpart.
  rewrite bool_decide_true by lia.
  do 3 eexists. repeat split. apply Qnat_shares. lia.
Qed.

(** ** Possession shares *)

Lemma share_sum_empty : share_sum ∅ = 0%Q.
Proof. unfold share_sum. apply map_fold_empty. Qed.

Lemma share_sum_insert (m : gmap string Q) (k : string) (v : Q) :
  m !! k = None → share_sum (<[k:=v]> m) == v + share_sum m.
Proof.
  intros Hm. unfold share_sum.
  apply (map_fold_insert Qeq (λ _ v acc, v + acc)%Q); [| |done].
  - intros _ z a b Hab. by rewrite Hab.
  - intros. ring.
Qed.

Lemma share_sum_counts (m : gmap Z nat) (T : Q) :
  share_sum (kmap pretty ((λ c, Qnat c / T)%Q <$> m)) == Qnat (dict_sum m) / T.
Proof.
  induction m as [|t c m Hm IH] using map_ind.
  - rewrite fmap_empty, kmap_empty, share_sum_empty, dict_sum_empty.
    change (Qnat 0) with 0%Q. unfold Qdiv. ring.
  - rewrite fmap_insert, kmap_insert by apply _.
    rewrite share_sum_insert
      by (by rewrite lookup_kmap, lookup_fmap, Hm by apply _).
    rewrite IH, dict_sum_insert, Qnat_add by done. unfold Qdiv. ring.
Qed.

Lemma share_bounds (c T : nat) :
  (c ≤ T)%nat → (0 < T)%nat → (0 <= Qnat c / Qnat T <= 1)%Q.
Proof.
  intros Hc HT. pose proof (Qnat_pos T HT) as HTq. split.
  - apply Qle_shift_div_l; [done|]. rewrite Qmult_0_l.
    change 0%Q with (Qnat 0). apply Qnat_le. lia.
  - apply Qle_shift_div_r; [done|]. rewrite Qmult_1_l. by apply Qnat_le.
Qed.

(** C5, as the code has it.  On a table with team and type columns that
    holds at least one Pass event of a team (a non-null team id), the
    possession shares are each in [0, 1] and add up to 1.  Without such an
    event, or without one of the two columns, the dictionary is empty. *)
Theorem possession_shares_sum_to_one (df : DataFrame) :
  "team_id" ∈ columns df → "type_name" ∈ columns df →
  (∃ e, e ∈ rows df ∧ c_type_name e = Some "Pass" ∧ is_Some (c_team_id e)) →
  ∃ shares, possession_share_from_passes df = Ok shares ∧
    (∀ k v, shares !! k = Some v → (0 <= v <= 1)%Q) ∧
    share_sum shares == 1.
Proof.
  intros Hid Hty (e & He & Hpass & [t Ht]).
  unfold possession_share_from_passes.
  rewrite (no_team_events_rows df e Hid Hty He).
  rewrite where_Ok by (by intros c ->%list_elem_of_singleton).
  rewrite bind_Ok.
  set (passes := filter (λ e, is_type "Pass" e = true) (rows df)).
  assert (e ∈ passes) as Hin.
  { apply list_elem_of_filter. split; [by apply eqb_cell_true|done]. }
  assert (df_empty (with_rows df passes) = false) as ->.
  { unfold df_empty. simpl. destruct passes; [by apply elem_of_nil in Hin|].
    destruct (columns df); [by apply elem_of_nil in Hid|done]. }
  unfold count_by_team. rewrite getitem_Ok, !bind_Ok by done. simpl.
  set (counts := value_counts (c_team_id <$> passes)).
  assert (0 < dict_sum counts)%nat as Hpos.
  { subst counts. rewrite dict_sum_value_counts.
    assert (t ∈ dropna (c_team_id <$> passes)) as Hd.
    { apply list_elem_of_omap. exists (Some t). split; [|done].
      apply list_elem_of_fmap. by exists e. }
    destruct (dropna _); [by apply elem_of_nil in Hd|simpl; lia]. }
  rewrite bool_decide_false by lia.
  eexists. split; [done|]. split.
  - intros k v (i & -> & Hv)%lookup_kmap_Some; [|apply _].
    apply lookup_fmap_Some in Hv as (c & <- & Hc).
    apply share_bounds; [by eapply dict_sum_lookup_le|done].
  - rewrite share_sum_counts. apply Qnat_pos in Hpos.
    field. intros Hz. rewrite Hz in Hpos. by vm_compute in Hpos.
Qed.

(** Without a Pass event of a team the dictionary is empty. *)
Lemma possession_share_from_passes_empty (df : DataFrame) :
  (∀ e, e ∈ rows df → c_type_name e = Some "Pass" → c_team_id e = None) →
  possession_share_from_passes df = Ok ∅.
Proof.
  intros Hnone. unfold possession_share_from_passes.
  destruct (no_team_events df) eqn:Hg; [done|].
  destruct (no_team_events_false df Hg) as (Hne & Hid & Hty).
  rewrite where_Ok by (by intros c ->%list_elem_of_singleton).
  rewrite bind_Ok.
  destruct (df_empty (with_rows df _)) eqn:Hemp; [done|].
  unfold count_by_team. rewrite getitem_Ok, !bind_Ok by done. simpl.
  rewrite dict_sum_value_counts.
  rewrite bool_decide_true; [done|].
  destruct (dropna _) as [|t ts] eqn:Hd; [done|].
  assert (t ∈ dropna (c_team_id <$>
            filter (λ e, is_type "Pass" e = true) (rows df))) as Ht
    by (rewrite Hd; left).
  apply list_elem_of_omap in Ht as (o & Ho & Heq). simpl in Heq. subst o.
  apply list_elem_of_fmap in Ho as (e & Ht & He).
  apply list_elem_of_filter in He as [Hp%eqb_cell_true He].
  rewrite (Hnone e He Hp) in Ht. done.
Qed.

(** ** The claims on the example tables *)

Ltac in_rows H :=
  repeat (apply elem_of_cons in H as [->|H]); [..|by apply elem_of_nil in H].

Ltac has_column := apply (bool_decide_unpack _); by vm_compute.

Lemma filter_last_n_minutes_spec_witness :
  let cutoff := float_sub (Qmax (40 * 60) (45 * 60)) (float_mul 10 60) in
  let out := filter_last_n_minutes last_minutes_table 10 None in
  columns out = filter (λ c, c ≠ "_seconds") (columns last_minutes_table) ∧
  rows out =
    clear_seconds <$>
      filter (λ e, c_period e = Some 2 ∧ (cutoff <= elapsed e)%Q)
        (rows last_minutes_table) ∧
  (∀ e, e ∈ rows last_minutes_table →
     (c_timestamp e = None → elapsed e = 0%Q) ∧
     (∀ ts, c_timestamp e = Some ts → re_match ts = None →
            elapsed e = 0%Q) ∧
     (∀ h m s frac rest,
        all_digits h = true → all_digits m = true → all_digits s = true →
        h ≠ "" → m ≠ "" → s ≠ "" →
        all_digits frac = true → no_digit_head rest = true →
        c_timestamp e
        = Some (h +:+ ":" +:+ m +:+ ":" +:+ s +:+ "." +:+ frac +:+ rest) →
        elapsed e
        = float_add (inject_Z (int h * 3600 + int m * 60 + int s))
            (float_div (inject_Z (int (ljust3 frac))) 1000))) ∧
  (fl (fl 10 * 60) == 10 * 60 →
   fl (Qmax (40 * 60) (45 * 60) - 10 * 60)
   == Qmax (40 * 60) (45 * 60) - 10 * 60 →
   cutoff == Qmax (40 * 60) (45 * 60) - 10 * 60)%Q ∧
  (10 == 10 → 40 * 60 == 40 * 60 →
   cutoff == 35 * 60 ∧
   ∀ e, e ∈ rows last_minutes_table → c_period e = Some 2%Z →
     (c_timestamp e = Some "00:35:00.000" → clear_seconds e ∈ rows out) ∧
     (c_timestamp e = Some "00:34:59.000" → clear_seconds e ∉ rows out) ∧
     (elapsed e == 35 * 60 → clear_seconds e ∈ rows out) ∧
     (elapsed e == 34 * 60 + 59 → clear_seconds e ∉ rows out))%Q.
Proof.
  apply (filter_last_n_minutes_spec last_minutes_table 10 None 2 (40 * 60)%Q).
  - has_column.
  - has_column.
  - split.
    + exists (row 3 2 "00:40:00.000" "Shot" (Some 1) None).
      split; [|done]. do 3 right. left.
    + intros e q He Hq. in_rows He; simpl in Hq; injection Hq as <-; lia.
  - split.
    + exists (row 3 2 "00:40:00.000" "Shot" (Some 1) None).
      split; [do 3 right; left|]. split; [done|]. by vm_compute.
    + intros e He Hp. in_rows He; try (by discriminate Hp); by vm_compute.
Defined.

(** The scenario of C1 run on the code: the rows at 35:00 and 40:00 are
    kept, the row at 34:59 and the row of period 1 are not. *)
Example filter_last_n_minutes_scenario :
  c_label <$> rows (filter_last_n_minutes last_minutes_table 10 None)
  = [2; 3]%nat.
Proof. by vm_compute. Qed.

(** The cutoff is computed in floats: with the last event at 00:45:00.001
    and [n = 15] it is the float above the seconds of 00:30:00.001, and
    the row at 00:30:00.001 is not kept. *)
Example filter_last_n_minutes_float_cutoff :
  c_label <$> rows (filter_last_n_minutes rounding_table 15 None) = [2]%nat ∧
  (_timestamp_to_seconds (Some "00:30:00.001")
   < float_sub (_timestamp_to_seconds (Some "00:45:00.001")) (float_mul 15 60))%Q.
Proof. split; by vm_compute. Qed.

Lemma attack_distribution_by_zone_shares_witness :
  ∃ l c rr,
    left_flank_attacks_pct match_attacks = Some l ∧
    center_attacks_pct match_attacks = Some c ∧
    right_flank_attacks_pct match_attacks = Some rr ∧
    (l + c + rr == 1)%Q.
Proof.
  apply (attack_distribution_by_zone_shares match_table 1 match_attacks).
  - by vm_compute.
  - vm_compute. lia.
Defined.

Lemma compute_match_metrics_counts_consistent_witness :
  (passes_successful (first_team match_segment)
   ≤ passes (first_team match_segment))%nat ∧
  (goals (first_team match_segment)
   ≤ shots_on_target (first_team match_segment))%nat ∧
  (shots_on_target (first_team match_segment)
   ≤ shots (first_team match_segment))%nat.
Proof.
  apply (compute_match_metrics_counts_consistent match_table "full_match"
           match_segment).
  - by vm_compute.
  - left.
Defined.

(** C3 as stated fails on the table of the repository's own test: team 2
    has a shot and no goal, and is not a key of the result. *)
Lemma goals_by_team_scoreless_team_absent :
  (∃ e, e ∈ rows goals_table ∧ c_team_id e = Some 2
        ∧ c_type_name e = Some "Shot") ∧
  ∃ m, goals_by_team goals_table = Ok m ∧ m !! 1 = Some 1%nat ∧ m !! 2 = None.
Proof.
  split.
  - eexists. split; [right; left|done].
  - eexists. split; [by vm_compute|]. split; by vm_compute.
Qed.

Lemma goals_by_team_shooting_team_witness :
  ∃ m, goals_by_team shots_table = Ok m ∧
    (has_col shots_table "shot_outcome" = false → m !! 2 = Some 0%nat) ∧
    (has_col shots_table "shot_outcome" = true →
       m !! 2 = counted (team_rows goal_shot (rows shots_table) 2) ∧
       (is_Some (m !! 2) ↔
        ∃ e, e ∈ rows shots_table ∧ c_team_id e = Some 2
             ∧ goal_shot e = true)) ∧
    get0 m 2 = (if has_col shots_table "shot_outcome"
                then team_rows goal_shot (rows shots_table) 2 else 0%nat).
Proof.
  apply (goals_by_team_shooting_team shots_table 2).
  - has_column.
  - has_column.
  - eexists. split; [right; left|done].
Defined.

(** C4 as stated fails: team 1 has no located event and its record has
    avg_x = avg_y = 0, not null. *)
Lemma compute_match_metrics_unlocated_zero :
  compute_match_metrics unlocated_table "full_match" = Ok unlocated_segment ∧
  first_team unlocated_segment ∈ teams unlocated_segment ∧
  team_id (first_team unlocated_segment) = 1 ∧
  (∀ e, e ∈ rows unlocated_table → c_team_id e = Some 1 → has_xy e = false) ∧
  avg_x (first_team unlocated_segment) = Some (Num 0) ∧
  avg_y (first_team unlocated_segment) = Some (Num 0) ∧
  avg_x (first_team unlocated_segment) ≠ None ∧
  avg_y (first_team unlocated_segment) ≠ None.
Proof.
  split; [by vm_compute|]. split; [left|]. split; [done|].
  split; [|done]. intros e He Ht. in_rows He; done.
Qed.

Lemma compute_match_metrics_unlocated_team_witness :
  ∃ qx qy,
    avg_x (first_team unlocated_segment) = Some (Num qx) ∧
    avg_y (first_team unlocated_segment) = Some (Num qy) ∧
    qx == 0 ∧ qy == 0.
Proof.
  apply (compute_match_metrics_unlocated_team unlocated_table "full_match"
           unlocated_segment).
  - by vm_compute.
  - left.
  - intros e He Ht. in_rows He; done.
Defined.

(** C5 as stated fails: a table may hold Pass events and yield no share at
    all, when it has no team_id column or when no pass has a team. *)
Lemma possession_share_from_passes_unattributed :
  (∃ e, e ∈ rows no_team_column_table ∧ c_type_name e = Some "Pass") ∧
  (∃ e, e ∈ rows teamless_pass_table ∧ c_type_name e = Some "Pass") ∧
  possession_share_from_passes no_team_column_table = Ok ∅ ∧
  possession_share_from_passes teamless_pass_table = Ok ∅ ∧
  ¬ share_sum ∅ == 1.
Proof.
  split; [eexists; split; [left|done]|].
  split; [eexists; split; [left|done]|].
  split; [by vm_compute|]. split; [by vm_compute|].
  rewrite share_sum_empty. by vm_compute.
Qed.

Lemma possession_shares_sum_to_one_witness :
  ∃ shares, possession_share_from_passes match_table = Ok shares ∧
    (∀ k v, shares !! k = Some v → (0 <= v <= 1)%Q) ∧
    share_sum shares == 1.
Proof.
  apply (possession_shares_sum_to_one match_table).
  - has_column.
  - has_column.
  - eexists. split; [left|]. split; [done|by eexists].
Defined.

(** C7 as stated fails on the value: one successful pass out of three gives
    33.33, which is not 1/3 * 100, neither as a float nor exactly. *)
Lemma pass_completion_pct_is_rounded :
  compute_match_metrics passes_table "full_match" = Ok passes_segment ∧
  first_team passes_segment ∈ teams passes_segment ∧
  passes (first_team passes_segment) = 3%nat ∧
  passes_successful (first_team passes_segment) = 1%nat ∧
  pass_completion_pct (first_team passes_segment) = Some (fl (3333 # 100)) ∧
  ¬ (fl (3333 # 100) == float_mul (float_div (Qnat 1) (Qnat 3)) 100) ∧
  ¬ (fl (3333 # 100) == Qnat 1 / Qnat 3 * 100).
Proof.
  split; [by vm_compute|]. split; [left|]. do 2 (split; [done|]).
  split; [by vm_compute|]. split; by vm_compute.
Qed.

Lemma compute_match_metrics_pass_completion_witness :
  (pass_completion_pct (first_team passes_segment) = None
   ↔ passes (first_team passes_segment) = 0%nat) ∧
  ((0 < passes (first_team passes_segment))%nat →
   let pct :=
     float_mul (float_div (Qnat (passes_successful (first_team passes_segment)))
                  (Qnat (passes (first_team passes_segment)))) 100
   in
   pass_completion_pct (first_team passes_segment) = Some (py_round pct 2) ∧
   py_round pct 2 = fl (inject_Z (round_half_even (pct * 100)) / 100) ∧
   (0 ≤ round_half_even (pct * 100) ≤ 10000)%Z).
Proof.
  apply (compute_match_metrics_pass_completion passes_table "full_match"
           passes_segment).
  - by vm_compute.
  - left.
Defined.

(** [round] acts on the float: with 93 successful passes out of 160 the
    float percentage lies just above 58.125 and the field is 58.13, where
    the exact quotient would round to 58.12. *)
Example pass_completion_pct_of_the_float :
  passes (first_team many_passes_segment) = 160%nat ∧
  passes_successful (first_team many_passes_segment) = 93%nat ∧
  pass_completion_pct (first_team many_passes_segment)
  = Some (fl (5813 # 100)) ∧
  round_half_even (Qnat 93 / Qnat 160 * 100 * 100) = 5812.
Proof. repeat split; by vm_compute. Qed.

(** C8: the aggregator raises on a table without location columns. *)
Theorem compute_match_metrics_raises_without_location :
  compute_match_metrics no_location_table "full_match" = KeyError "x".
Proof. by vm_compute. Qed.

Lemma no_team_events_true (df : DataFrame) :
  df_empty df = true ∨ "team_id" ∉ columns df ∨ "type_name" ∉ columns df →
  no_team_events df = true.
Proof.
  unfold no_team_events. intros [->|[H|H]]; [done|..];
    apply has_col_false in H; rewrite H; simpl; by rewrite ?orb_true_r.
Qed.

Lemma elem_of_columns_dec (df : DataFrame) (cs : list string) :
  (∀ c, c ∈ cs → c ∈ columns df) ∨ ¬ (∀ c, c ∈ cs → c ∈ columns df).
Proof.
  destruct (decide (Forall (λ c, c ∈ columns df) cs)) as [H|H].
  - left. by apply Forall_forall.
  - right. intros H'. apply H. by apply Forall_forall.
Qed.

Lemma where_cases (df : DataFrame) (l : list event) (cs : list string)
    (p : event → bool) :
  ((∀ c, c ∈ cs → c ∈ columns df) ∧
   where_ (with_rows df l) cs p
   = Ok (with_rows df (filter (λ e, p e = true) l)))
  ∨ raises_missing cs df (where_ (with_rows df l) cs p).
Proof.
  destruct (where_ (with_rows df l) cs p) as [df'|c] eqn:Hw.
  - left. apply where_inv in Hw as [Hcs ->]. done.
  - right. exists c. by destruct (where_KeyError _ _ _ _ Hw).
Qed.

Lemma with_rows_rows (df : DataFrame) : with_rows df (rows df) = df.
Proof. by destruct df. Qed.

Lemma raises_missing_bind {A B} (cs cs' : list string) (df : DataFrame)
    (r : result A) (k : A → result B) :
  (∀ c, c ∈ cs → c ∈ cs') →
  raises_missing cs df r → raises_missing cs' df (r ≫= k).
Proof. intros Hsub (c & Hc & Hn & ->). exists c. split; [by apply Hsub|done]. Qed.

(** The first read of a function: it raises, or the columns are there. *)
Ltac first_read :=
  match goal with
  | |- raises_missing _ _ (mbind _ (where_ (with_rows ?d ?l) ?cs ?p)) =>
      destruct (where_cases d l cs p) as [[? ->]|?];
      [rewrite bind_Ok
      |eapply raises_missing_bind; [|eassumption];
       let c := fresh "c" in let Hc := fresh "Hc" in
       intros c Hc;
       repeat (apply elem_of_cons in Hc as [->|Hc]; [by repeat constructor|]);
       by apply elem_of_nil in Hc]
  end.

Lemma attack_distribution_by_zone_raises (df : DataFrame) (tid : Z) :
  ¬ (∀ c, c ∈ attack_columns → c ∈ columns df) →
  raises_missing attack_columns df (attack_distribution_by_zone df tid).
Proof.
  intros Hmiss. unfold attack_distribution_by_zone.
  rewrite <-(with_rows_rows df) at 2. do 2 first_read.
  destruct Hmiss. intros c Hc. unfold attack_columns in Hc.
  apply elem_of_cons in Hc as [->|Hc]; auto. set_unfold. auto.
Qed.

Lemma defensive_zone_activity_raises (df : DataFrame) (tid : Z) :
  ¬ (∀ c, c ∈ defence_columns → c ∈ columns df) →
  raises_missing defence_columns df (defensive_zone_activity df tid).
Proof.
  intros Hmiss. unfold defensive_zone_activity.
  rewrite <-(with_rows_rows df) at 2. do 2 first_read.
  destruct Hmiss. intros c Hc. unfold defence_columns in Hc.
  apply elem_of_cons in Hc as [->|Hc]; auto. set_unfold. auto.
Qed.

Lemma passing_concentration_raises (std : list (option Q) → number)
    (df : DataFrame) (tid : Z) :
  ¬ (∀ c, c ∈ passing_columns → c ∈ columns df) →
  raises_missing passing_columns df (passing_concentration std df tid).
Proof.
  intros Hmiss. unfold passing_concentration.
  rewrite <-(with_rows_rows df) at 2. first_read. by destruct Hmiss.
Qed.

(** C2, as the code has it.  The counting metrics of [metrics.py] and the
    possession share return on every table, and return the empty
    dictionary on a table that is empty or lacks the team_id or type_name
    column (the x column, for the final-third entries).
    [average_position_by_team] returns the empty dictionary on a table
    that is empty or lacks the team_id column, and returns on every table
    with x and y columns.  Each function of [spatial.py] returns exactly on
    the tables that have the columns it reads without a test (team_id,
    type_name and x; y for the attack distribution; y and end_x for the
    passing concentration), and on every other table it raises [KeyError]
    for one of those columns that is missing; pass_outcome is optional. *)
Theorem metric_functions_total (std : list (option Q) → number)
    (df : DataFrame) (tid : Z) :
  (returns (possession_share_from_passes df) ∧
   returns (ball_receipts_by_team df) ∧
   returns (pass_counts_by_team df) ∧
   returns (successful_pass_counts_by_team df) ∧
   returns (shot_counts_by_team df) ∧
   returns (shots_on_target_by_team df) ∧
   returns (goals_by_team df) ∧
   returns (final_third_entries_by_team df)) ∧
  (df_empty df = true ∨ "team_id" ∉ columns df ∨ "type_name" ∉ columns df →
   possession_share_from_passes df = Ok ∅ ∧
   ball_receipts_by_team df = Ok ∅ ∧
   pass_counts_by_team df = Ok ∅ ∧
   successful_pass_counts_by_team df = Ok ∅ ∧
   shot_counts_by_team df = Ok ∅ ∧
   shots_on_target_by_team df = Ok ∅ ∧
   goals_by_team df = Ok ∅) ∧
  (df_empty df = true ∨ "team_id" ∉ columns df ∨ "x" ∉ columns df →
   final_third_entries_by_team df = Ok ∅) ∧
  ((df_empty df = true ∨ "team_id" ∉ columns df →
    average_position_by_team df = Ok ∅) ∧
   ("x" ∈ columns df → "y" ∈ columns df →
    returns (average_position_by_team df))) ∧
  (((∀ c, c ∈ attack_columns → c ∈ columns df) →
    returns (attack_distribution_by_zone df tid)) ∧
   (¬ (∀ c, c ∈ attack_columns → c ∈ columns df) →
    raises_missing attack_columns df (attack_distribution_by_zone df tid))) ∧
  (((∀ c, c ∈ defence_columns → c ∈ columns df) →
    returns (defensive_zone_activity df tid)) ∧
   (¬ (∀ c, c ∈ defence_columns → c ∈ columns df) →
    raises_missing defence_columns df (defensive_zone_activity df tid))) ∧
  (((∀ c, c ∈ passing_columns → c ∈ columns df) →
    returns (passing_concentration std df tid)) ∧
   (¬ (∀ c, c ∈ passing_columns → c ∈ columns df) →
    raises_missing passing_columns df (passing_concentration std df tid))).
Proof.
  split; [|split; [|split; [|split; [|split; [|split]]]]].
  - split; [apply possession_share_from_passes_returns|].
    split; [eapply returns_lookup, ball_receipts_by_team_lookup|].
    split; [eapply returns_lookup, pass_counts_by_team_lookup|].
    split; [eapply returns_lookup, successful_pass_counts_by_team_lookup|].
    split; [eapply returns_lookup, shot_counts_by_team_lookup|].
    split; [eapply returns_lookup, shots_on_target_by_team_lookup|].
    split; [eapply returns_lookup, goals_by_team_lookup|].
    apply final_third_entries_by_team_returns.
  - intros Hg%no_team_events_true.
    unfold possession_share_from_passes, ball_receipts_by_team,
      pass_counts_by_team, successful_pass_counts_by_team,
      shot_counts_by_team, shots_on_target_by_team, goals_by_team.
    by rewrite Hg.
  - intros Hg. unfold final_third_entries_by_team.
    destruct Hg as [->|[H|H]]; [done|..];
      apply has_col_false in H; rewrite H; simpl; by rewrite ?orb_true_r.
  - split.
    + intros Hg. unfold average_position_by_team.
      destruct Hg as [->|H]; [done|].
      apply has_col_false in H. rewrite H. simpl. by rewrite orb_true_r.
    + intros Hx Hy. apply average_position_by_team_returns. by do 2 right.
  - split; [|apply attack_distribution_by_zone_raises].
    intros H. apply attack_distribution_by_zone_returns; apply H;
      unfold attack_columns; by repeat constructor.
  - split; [|apply defensive_zone_activity_raises].
    intros H. apply defensive_zone_activity_returns; apply H;
      unfold defence_columns; by repeat constructor.
  - split; [|apply passing_concentration_raises].
    intros H. apply passing_concentration_returns; apply H;
      unfold passing_columns; by repeat constructor.
Qed.

(** C2 as stated fails: on a table without location columns the three
    functions of [spatial.py] raise [KeyError], and so does
    [average_position_by_team]. *)
Lemma spatial_metrics_raise_without_location :
  attack_distribution_by_zone no_location_table 1 = KeyError "x" ∧
  defensive_zone_activity no_location_table 1 = KeyError "x" ∧
  passing_concentration (λ _, NaN) no_location_table 1 = KeyError "x" ∧
  average_position_by_team no_location_table = KeyError "x".
Proof. repeat split; by vm_compute. Qed.

Lemma metric_functions_total_witness :
  (possession_share_from_passes no_team_column_table = Ok ∅ ∧
   ball_receipts_by_team no_team_column_table = Ok ∅ ∧
   pass_counts_by_team no_team_column_table = Ok ∅ ∧
   successful_pass_counts_by_team no_team_column_table = Ok ∅ ∧
   shot_counts_by_team no_team_column_table = Ok ∅ ∧
   shots_on_target_by_team no_team_column_table = Ok ∅ ∧
   goals_by_team no_team_column_table = Ok ∅) ∧
  final_third_entries_by_team no_location_table = Ok ∅ ∧
  average_position_by_team no_team_column_table = Ok ∅ ∧
  returns (average_position_by_team match_table) ∧
  (returns (attack_distribution_by_zone match_table 1) ∧
   returns (defensive_zone_activity match_table 1) ∧
   returns (passing_concentration (λ _, NaN) match_table 1)) ∧
  (raises_missing attack_columns no_location_table
     (attack_distribution_by_zone no_location_table 1) ∧
   raises_missing defence_columns no_location_table
     (defensive_zone_activity no_location_table 1) ∧
   raises_missing passing_columns no_location_table
     (passing_concentration (λ _, NaN) no_location_table 1)).
Proof.
  assert (∀ cs, ¬ (∀ c, c ∈ "team_id" :: "type_name" :: "x" :: cs →
                        c ∈ columns no_location_table)) as Hmiss.
  { intros cs H. specialize (H "x" ltac:(by repeat constructor)).
    revert H. apply (bool_decide_unpack _). by vm_compute. }
  assert (∀ cs, Forall (λ c, c ∈ columns match_table) cs →
                ∀ c, c ∈ cs → c ∈ columns match_table) as Hall
    by (intros cs; apply Forall_forall).
  split; [|split; [|split; [|split; [|split]]]].
  - apply (metric_functions_total (λ _, NaN) no_team_column_table 1).
    right; left. apply (bool_decide_unpack _). by vm_compute.
  - apply (metric_functions_total (λ _, NaN) no_location_table 1).
    do 2 right. apply (bool_decide_unpack _). by vm_compute.
  - apply (metric_functions_total (λ _, NaN) no_team_column_table 1).
    right. apply (bool_decide_unpack _). by vm_compute.
  - apply (metric_functions_total (λ _, NaN) match_table 1); has_column.
  - destruct (metric_functions_total (λ _, NaN) match_table 1)
      as (_ & _ & _ & _ & [Ha _] & [Hd _] & [Hp _]).
    split; [|split]; [apply Ha|apply Hd|apply Hp]; apply Hall;
      apply (bool_decide_unpack _); by vm_compute.
  - destruct (metric_functions_total (λ _, NaN) no_location_table 1)
      as (_ & _ & _ & _ & [_ Ha] & [_ Hd] & [_ Hp]).
    split; [|split]; [apply Ha|apply Hd|apply Hp]; apply Hmiss.
Defined.

(* ================================================================= *)
(** * Further properties of the code *)

(** ** More on timestamps *)

(** X2. [_timestamp_to_seconds] never returns a negative number; a
    missing timestamp and a string that does not begin with a digit give
    0. *)
Theorem timestamp_to_seconds_nonneg (ts : option string) :
  (0 <= _timestamp_to_seconds ts)%Q ∧
  (ts = None → _timestamp_to_seconds ts = 0%Q) ∧
  (∀ s, ts = Some s → no_digit_head s = true →
        _timestamp_to_seconds ts = 0%Q).
Proof.
  split; [|split].
  - destruct ts as [s|]; simpl; [|done].
    destruct (re_match s) as [[[[g1 g2] g3] g4]|] eqn:Hm; [|done].
    apply re_match_all_digits in Hm as (H1 & H2 & H3 & H4).
    apply int_nonneg in H1, H2, H3.
    assert (0 <= inject_Z (int g1 * 3600 + int g2 * 60 + int g3))%Q as Hs.
    { change 0%Q with (inject_Z 0). rewrite <-Zle_Qle. lia. }
    destruct g4 as [|c g4]; [by apply fl_nonneg|].
    pose proof (int_nonneg _ (ljust3_all_digits _ H4)) as Hf.
    unfold float_add, float_div. apply fl_nonneg.
    rewrite <-(Qplus_0_r 0). apply Qplus_le_compat; [by apply fl_nonneg|].
    do 2 apply fl_nonneg. assert (fl 1000 = 1000%Q) as -> by (by vm_compute).
    apply Qle_shift_div_l; [done|]. rewrite Qmult_0_l. apply fl_nonneg.
    change 0%Q with (inject_Z 0). by rewrite <-Zle_Qle.
  - by intros ->.
  - intros s -> Hs. by apply timestamp_to_seconds_no_digit.
Qed.

(** X1. On a timestamp of the form H:M:S.F followed by anything that is no
    digit (H, M, S non-empty runs of digits, F a run of digits),
    [_timestamp_to_seconds] returns the float sum of H*3600 + M*60 + S and
    of the float quotient by 1000 of the first three digits of F, padded
    with zeros on the right.  Without the dot and the fraction it returns
    H*3600 + M*60 + S, exactly when that is at most 2^53. *)
Theorem timestamp_to_seconds_wellformed (h m s : string) :
  all_digits h = true → all_digits m = true → all_digits s = true →
  h ≠ "" → m ≠ "" → s ≠ "" →
  (∀ frac rest, all_digits frac = true → no_digit_head rest = true →
     _timestamp_to_seconds
       (Some (h +:+ ":" +:+ m +:+ ":" +:+ s +:+ "." +:+ frac +:+ rest))
     = float_add (inject_Z (int h * 3600 + int m * 60 + int s))
         (float_div (inject_Z (int (ljust3 frac))) 1000)) ∧
  (∀ rest, no_digit_head rest = true → no_head "." rest = true →
     _timestamp_to_seconds (Some (h +:+ ":" +:+ m +:+ ":" +:+ s +:+ rest))
     = fl (inject_Z (int h * 3600 + int m * 60 + int s)) ∧
     ((int h * 3600 + int m * 60 + int s ≤ 2 ^ 53)%Z →
      _timestamp_to_seconds (Some (h +:+ ":" +:+ m +:+ ":" +:+ s +:+ rest))
      == inject_Z (int h * 3600 + int m * 60 + int s))).
Proof.
  intros Hh Hm Hs Nh Nm Ns. split.
  - intros frac rest Hf Hr. by apply timestamp_to_seconds_parts.
  - intros rest Hr Hd.
    assert (_timestamp_to_seconds
              (Some (h +:+ ":" +:+ m +:+ ":" +:+ s +:+ rest))
            = fl (inject_Z (int h * 3600 + int m * 60 + int s))) as Heq.
    { unfold _timestamp_to_seconds.
      rewrite (re_match_wellformed h m s rest) by done.
      destruct rest as [|c rest]; [done|].
      simpl in Hr, Hd. apply negb_true_iff in Hr.
      apply negb_true_iff, bool_decide_eq_false in Hd.
      assert (span_digits (String c rest) = ("", String c rest)) as Hsp
        by (simpl; by rewrite Hr).
      destruct c as [[] [] [] [] [] [] [] []]; try done; by rewrite Hsp. }
    split; [done|]. intros Hle. rewrite Heq. apply fl_Z.
    apply int_nonneg in Hh, Hm, Hs. lia.
Qed.

Lemma timestamp_to_seconds_wellformed_witness :
  (∀ frac rest, all_digits frac = true → no_digit_head rest = true →
     _timestamp_to_seconds
       (Some ("00" +:+ ":" +:+ "01" +:+ ":" +:+ "30" +:+ "." +:+ frac +:+ rest))
     = float_add (inject_Z (int "00" * 3600 + int "01" * 60 + int "30"))
         (float_div (inject_Z (int (ljust3 frac))) 1000)) ∧
  (∀ rest, no_digit_head rest = true → no_head "." rest = true →
     _timestamp_to_seconds
       (Some ("00" +:+ ":" +:+ "01" +:+ ":" +:+ "30" +:+ rest))
     = fl (inject_Z (int "00" * 3600 + int "01" * 60 + int "30")) ∧
     ((int "00" * 3600 + int "01" * 60 + int "30" ≤ 2 ^ 53)%Z →
      _timestamp_to_seconds
        (Some ("00" +:+ ":" +:+ "01" +:+ ":" +:+ "30" +:+ rest))
      == inject_Z (int "00" * 3600 + int "01" * 60 + int "30"))).
Proof. by apply (timestamp_to_seconds_wellformed "00" "01" "30"). Defined.

Lemma timestamp_to_seconds_nonneg_witness :
  (0 <= _timestamp_to_seconds (Some "00:01:30.000"))%Q ∧
  _timestamp_to_seconds None = 0%Q ∧
  _timestamp_to_seconds (Some "kick-off") = 0%Q.
Proof.
  split; [apply (timestamp_to_seconds_nonneg (Some "00:01:30.000"))|].
  split; [by apply (timestamp_to_seconds_nonneg None)|].
  by apply (proj2 (proj2 (timestamp_to_seconds_nonneg (Some "kick-off")))
              "kick-off").
Defined.

(** ** More on the time windows *)

Lemma present_periods_nil (df : DataFrame) :
  present_periods df = [] ↔ ∀ e, e ∈ rows df → c_period e = None.
Proof.
  split.
  - intros Hnil e He. destruct (c_period e) as [q|] eqn:Hq; [|done].
    assert (q ∈ present_periods df) as Hin
      by (apply elem_of_present_periods; eauto).
    rewrite Hnil in Hin. by apply elem_of_nil in Hin.
  - intros Hnone. destruct (present_periods df) as [|q qs] eqn:Hps; [done|].
    assert (q ∈ present_periods df) as Hin by (rewrite Hps; left).
    apply elem_of_present_periods in Hin as (e & He & Hq).
    by rewrite (Hnone e He) in Hq.
Qed.

Lemma filter_fmap_set_seconds (P P' : event → Prop)
    `{!∀ e, Decision (P e)} `{!∀ e, Decision (P' e)} (l : list event) :
  (∀ e, P (set_seconds e) ↔ P' e) →
  filter P (set_seconds <$> l) = set_seconds <$> filter P' l.
Proof.
  intros HP. induction l as [|e l IH]; [done|].
  rewrite fmap_cons, !filter_cons.
  destruct (decide (P (set_seconds e))) as [H1|H1];
    destruct (decide (P' e)) as [H2|H2]; try (apply HP in H1; done);
    try (apply HP in H2; done); [|done].
  rewrite fmap_cons. by f_equal.
Qed.

Lemma dropna_seconds (l : list event) :
  dropna (c_seconds <$> (set_seconds <$> l)) = elapsed <$> l.
Proof. induction l as [|e l IH]; [done|]. simpl. by f_equal. Qed.

(** [filter_last_n_minutes] on a table with both columns, in terms of the
    rows of the table. *)
Lemma filter_last_n_minutes_unfold (df : DataFrame) (n : Q)
    (period : option Z) :
  "period" ∈ columns df → "timestamp" ∈ columns df →
  filter_last_n_minutes df n period =
    match present_periods df with
    | [] => assign_seconds df
    | p0 :: ps =>
        let ref := match period with
                   | Some p => p
                   | None => foldl Z.max p0 ps
                   end in
        match last_cutoff (period_rows df ref) n with
        | None => with_rows (assign_seconds df) []
        | Some c =>
            {| columns := filter (λ c, c ≠ "_seconds") (columns df);
               rows := clear_seconds <$>
                         filter (λ e, c_period e = Some ref ∧ (c <= elapsed e)%Q)
                           (rows df) |}
        end
    end.
Proof.
  intros Hp Ht. unfold filter_last_n_minutes.
  rewrite (proj2 (has_col_true df "period") Hp).
  rewrite (proj2 (has_col_true df "timestamp") Ht).
  cbn [negb orb]. rewrite present_periods_assign_seconds.
  destruct (present_periods df) as [|p0 ps]; [done|].
  cbv zeta. set (ref := match period with Some p => p | None => _ end).
  rewrite rows_assign_seconds.
  rewrite (filter_fmap_set_seconds _ (λ e, c_period e = Some ref))
    by (intros e; apply eqb_cell_true).
  fold (period_rows df ref). unfold last_cutoff.
  destruct (period_rows df ref) as [|e0 es] eqn:Hrows.
  { by unfold df_empty. }
  assert (df_empty (with_rows (assign_seconds df)
                      (set_seconds <$> e0 :: es)) = false) as ->.
  { unfold df_empty. simpl.
    destruct (has_col df "_seconds"); destruct (columns df); try done.
    by apply elem_of_nil in Hp. }
  cbn [rows with_rows]. unfold series_max. rewrite dropna_seconds.
  cbn [fmap list_fmap].
  unfold drop_seconds. cbn [rows columns with_rows]. f_equal.
  - apply (columns_drop_assign df).
  - apply filter_set_seconds. intros e. cbn [c_period c_seconds set_seconds].
    rewrite andb_true_iff, eqb_cell_true. unfold ge_cell.
    by rewrite Qle_bool_true.
Qed.

(** X3. On a table with both columns in which no row has a period value,
    [filter_last_n_minutes] returns all rows, for any [n] and any period
    asked for, and the result carries the scratch column "_seconds". *)
Theorem filter_last_n_minutes_no_period_value (df : DataFrame) (n : Q)
    (period : option Z) :
  "period" ∈ columns df → "timestamp" ∈ columns df →
  (∀ e, e ∈ rows df → c_period e = None) →
  filter_last_n_minutes df n period = assign_seconds df ∧
  "_seconds" ∈ columns (filter_last_n_minutes df n period) ∧
  length (rows (filter_last_n_minutes df n period)) = length (rows df).
Proof.
  intros Hp Ht Hnone.
  rewrite filter_last_n_minutes_unfold by done.
  rewrite (proj2 (present_periods_nil df) Hnone).
  split; [done|]. split.
  - unfold assign_seconds. simpl.
    destruct (has_col df "_seconds") eqn:Hs; [by apply has_col_true|].
    apply elem_of_app. right. left.
  - unfold assign_seconds. simpl. apply length_fmap.
Qed.

(** X4. When the table has period values but no row of the period asked
    for, [filter_last_n_minutes] returns no row, and the empty result
    carries the scratch column "_seconds". *)
Theorem filter_last_n_minutes_empty_period (df : DataFrame) (n : Q) (p : Z) :
  "period" ∈ columns df → "timestamp" ∈ columns df →
  (∃ e, e ∈ rows df ∧ is_Some (c_period e)) →
  (∀ e, e ∈ rows df → c_period e ≠ Some p) →
  rows (filter_last_n_minutes df n (Some p)) = [] ∧
  "_seconds" ∈ columns (filter_last_n_minutes df n (Some p)).
Proof.
  intros Hp Ht (e & He & [q Hq]) Hnone.
  rewrite filter_last_n_minutes_unfold by done.
  destruct (present_periods df) as [|p0 ps] eqn:Hps.
  { pose proof (proj1 (present_periods_nil df) Hps e He). congruence. }
  cbv zeta.
  assert (period_rows df p = []) as ->.
  { unfold period_rows. destruct (filter _ (rows df)) as [|e' l] eqn:Hf; [done|].
    assert (e' ∈ filter (λ e, c_period e = Some p) (rows df)) as Hin
      by (rewrite Hf; left).
    apply list_elem_of_filter in Hin as [Hp' Hin]. by destruct (Hnone e' Hin). }
  split; [done|]. unfold last_cutoff, assign_seconds. simpl.
  destruct (has_col df "_seconds") eqn:Hs; [by apply has_col_true|].
  apply elem_of_app. right. left.
Qed.

Lemma period_rows_bool (df : DataFrame) (p : Z) :
  filter (λ e, eqb_cell (c_period e) p = true) (rows df) = period_rows df p.
Proof. apply list_filter_iff. intros e. apply eqb_cell_true. Qed.

Lemma period_rows_twice (df : DataFrame) (p : Z) :
  period_rows (with_rows df (period_rows df p)) p = period_rows df p.
Proof. unfold period_rows. cbn [rows with_rows]. apply filter_twice. Qed.

Lemma filter_in_period (l : list event) (p : Z) (c : Q) :
  filter (λ e, c_period e = Some p ∧ (c <= elapsed e)%Q)
    (filter (λ e, c_period e = Some p) l)
  = filter (λ e, c_period e = Some p ∧ (c <= elapsed e)%Q) l.
Proof.
  induction l as [|e l IH]; [done|].
  rewrite (filter_cons (λ e, c_period e = Some p)).
  destruct (decide (c_period e = Some p)) as [Hp|Hp].
  - rewrite !filter_cons. destruct (decide _); by rewrite IH.
  - rewrite IH, filter_cons, decide_False; [done|]. by intros [? _].
Qed.

(** X5. Narrowing to a period first and asking for the last minutes of
    that period afterwards gives the same table as asking for the last
    minutes of the period on the whole table, provided the table has both
    columns and some row has a period value. *)
Theorem filter_last_n_minutes_after_period (df : DataFrame) (n : Q) (p : Z) :
  "period" ∈ columns df → "timestamp" ∈ columns df →
  (∃ e, e ∈ rows df ∧ is_Some (c_period e)) →
  filter_last_n_minutes (filter_by_period df p) n (Some p)
  = filter_last_n_minutes df n (Some p).
Proof.
  intros Hp Ht (e & He & [q Hq]).
  unfold filter_by_period.
  rewrite (proj2 (has_col_true df "period") Hp). cbn [negb].
  rewrite period_rows_bool.
  rewrite !filter_last_n_minutes_unfold by done.
  destruct (present_periods df) as [|p0 ps] eqn:Hps.
  { pose proof (proj1 (present_periods_nil df) Hps e He). congruence. }
  cbv zeta. rewrite period_rows_twice.
  destruct (present_periods (with_rows df (period_rows df p)))
    as [|p1 ps1] eqn:Hps1.
  - assert (period_rows df p = []) as Hnil.
    { destruct (period_rows df p) as [|e' l] eqn:Hf; [done|].
      pose proof (proj1 (present_periods_nil _) Hps1 e') as Hn.
      assert (e' ∈ period_rows df p) as Hin by (rewrite Hf; left).
      apply list_elem_of_filter in Hin as [Hp' _].
      rewrite Hn in Hp'; [done|]. simpl. left. }
    rewrite Hnil. unfold last_cutoff, assign_seconds, with_rows. by simpl.
  - destruct (last_cutoff (period_rows df p) n) as [c|]; [|done].
    cbn [columns with_rows]. f_equal. f_equal. apply filter_in_period.
Qed.

Lemma filter_last_n_minutes_after_period_witness :
  filter_last_n_minutes (filter_by_period last_minutes_table 2) 10 (Some 2)
  = filter_last_n_minutes last_minutes_table 10 (Some 2).
Proof.
  apply (filter_last_n_minutes_after_period last_minutes_table 10 2).
  - has_column.
  - has_column.
  - eexists. split; [left|by eexists].
Defined.

Lemma filter_last_n_minutes_no_period_value_witness :
  let df := {| columns := ["period"; "timestamp"];
               rows := [Event 0 None (Some "00:10:00.000") None None None
                          None None None None None None] |} in
  filter_last_n_minutes df 10 (Some 2) = assign_seconds df ∧
  "_seconds" ∈ columns (filter_last_n_minutes df 10 (Some 2)) ∧
  length (rows (filter_last_n_minutes df 10 (Some 2))) = length (rows df).
Proof.
  apply filter_last_n_minutes_no_period_value.
  - has_column.
  - has_column.
  - intros e He. in_rows He. done.
Defined.

Lemma filter_last_n_minutes_empty_period_witness :
  rows (filter_last_n_minutes last_minutes_table 10 (Some 3)) = [] ∧
  "_seconds" ∈ columns (filter_last_n_minutes last_minutes_table 10 (Some 3)).
Proof.
  apply filter_last_n_minutes_empty_period.
  - has_column.
  - has_column.
  - eexists. split; [left|by eexists].
  - intros e He. in_rows He; done.
Defined.

Lemma sublist_filter_impl {A} (P P' : A → Prop)
    `{!∀ a, Decision (P a)} `{!∀ a, Decision (P' a)} (l : list A) :
  (∀ a, P a → P' a) → filter P l `sublist_of` filter P' l.
Proof.
  intros Himp. induction l as [|a l IH]; [done|].
  rewrite !filter_cons.
  destruct (decide (P a)) as [H1|H1].
  - rewrite decide_True by auto. by apply sublist_skip.
  - destruct (decide (P' a)); [by apply sublist_cons|done].
Qed.

Lemma sublist_fmap_list {A B} (f : A → B) (l1 l2 : list A) :
  l1 `sublist_of` l2 → f <$> l1 `sublist_of` f <$> l2.
Proof.
  induction 1; simpl; [done|by apply sublist_skip|by apply sublist_cons].
Qed.

(** X6. A longer window keeps more: for [n <= n'] the rows of the last [n]
    minutes are a sublist of the rows of the last [n'] minutes, on every
    table and for every period argument. *)
Theorem filter_last_n_minutes_monotone (df : DataFrame) (n n' : Q)
    (period : option Z) :
  (n <= n')%Q →
  rows (filter_last_n_minutes df n period)
    `sublist_of` rows (filter_last_n_minutes df n' period).
Proof.
  intros Hn.
  destruct (has_col df "period") eqn:Hp; [|unfold filter_last_n_minutes;
    by rewrite Hp].
  destruct (has_col df "timestamp") eqn:Ht; [|unfold filter_last_n_minutes;
    by rewrite Hp, Ht].
  apply has_col_true in Hp, Ht.
  rewrite !filter_last_n_minutes_unfold by done.
  destruct (present_periods df) as [|p0 ps]; [done|]. cbv zeta.
  unfold last_cutoff.
  destruct (elapsed <$> period_rows df _) as [|v vs]; [done|].
  cbn [rows]. apply sublist_fmap_list, sublist_filter_impl.
  intros e [He Hc]. split; [done|].
  eapply Qle_trans; [|exact Hc].
  by apply float_sub_anti_r, float_mul_60_mono.
Qed.

Lemma filter_last_n_minutes_monotone_witness :
  rows (filter_last_n_minutes last_minutes_table 5 None)
    `sublist_of` rows (filter_last_n_minutes last_minutes_table 10 None).
Proof. apply filter_last_n_minutes_monotone. by vm_compute. Defined.

Lemma last_cutoff_Some (evs : list event) (n c : Q) :
  last_cutoff evs n = Some c →
  ∃ M, c = float_sub (py_max M (45 * 60)) (float_mul n 60) ∧
       (∃ e, e ∈ evs ∧ elapsed e = M) ∧
       ∀ e, e ∈ evs → (elapsed e <= M)%Q.
Proof.
  unfold last_cutoff. destruct (elapsed <$> evs) as [|v vs] eqn:Hev; [done|].
  intros [= <-]. exists (foldl py_max v vs). split; [done|]. split.
  - pose proof (foldl_py_max_elem vs v) as Hin. rewrite <-Hev in Hin.
    apply list_elem_of_fmap in Hin as (e & He & Hin). by exists e.
  - intros e He.
    assert (elapsed e ∈ v :: vs) as Hin
      by (rewrite <-Hev; by apply list_elem_of_fmap_2).
    apply elem_of_cons in Hin as [->|Hin];
      [apply foldl_py_max_init|by apply foldl_py_max_upper].
Qed.

Lemma last_cutoff_None (evs : list event) (n : Q) :
  last_cutoff evs n = None → evs = [].
Proof. unfold last_cutoff. by destruct evs. Qed.

(** X7. When the last event of the reference period is at 45:00 or later
    and [n >= 0], every row of the period at that latest time is kept: the
    window is not empty. *)
Theorem filter_last_n_minutes_keeps_latest (df : DataFrame) (n : Q)
    (period : option Z) (ref : Z) (e : event) :
  "period" ∈ columns df → "timestamp" ∈ columns df →
  reference_period df period ref →
  e ∈ rows df → c_period e = Some ref →
  (∀ e', e' ∈ rows df → c_period e' = Some ref → (elapsed e' <= elapsed e)%Q) →
  (45 * 60 <= elapsed e)%Q → (0 <= n)%Q →
  clear_seconds e ∈ rows (filter_last_n_minutes df n period).
Proof.
  intros Hp Ht Href He Hpe Hmax Hlong Hn.
  rewrite filter_last_n_minutes_unfold by done.
  destruct (present_periods df) as [|p0 ps] eqn:Hps.
  { pose proof (proj1 (present_periods_nil df) Hps e He). congruence. }
  cbv zeta. rewrite (use_period_reference df period ref p0 ps Hps Href).
  assert (e ∈ period_rows df ref) as Hin by (by apply list_elem_of_filter).
  destruct (last_cutoff (period_rows df ref) n) as [c|] eqn:Hc.
  2:{ apply last_cutoff_None in Hc. rewrite Hc in Hin.
      by apply elem_of_nil in Hin. }
  apply last_cutoff_Some in Hc as (M & -> & (e1 & He1 & HM) & Hub).
  cbn [rows]. apply list_elem_of_fmap_2, list_elem_of_filter.
  split; [|done]. split; [done|].
  apply list_elem_of_filter in He1 as [Hp1 He1].
  assert (M <= elapsed e)%Q as HMe by (rewrite <-HM; by apply Hmax).
  assert (py_max M (45 * 60) <= elapsed e)%Q as Hpm.
  { destruct (py_max_cases M (45 * 60)) as [[-> _]|[-> _]]; done. }
  apply Qle_trans with (py_max M (45 * 60)); [|done].
  apply float_sub_le; [|by apply float_mul_60_nonneg].
  destruct (py_max_cases M (45 * 60)) as [[-> _]|[-> _]].
  - rewrite <-HM. unfold elapsed.
    by rewrite (timestamp_to_seconds_float (c_timestamp e1)).
  - by vm_compute.
Qed.

(** X8. The floor of 45 minutes can empty the window: when every row of
    the period asked for lies before the cutoff [45*60 - n*60] that the
    floor alone gives (the float difference, as the code computes it), no
    row is kept. *)
Theorem filter_last_n_minutes_short_period (df : DataFrame) (n : Q)
    (period : option Z) (ref : Z) :
  "period" ∈ columns df → "timestamp" ∈ columns df →
  reference_period df period ref →
  (∃ e, e ∈ rows df ∧ is_Some (c_period e)) →
  (∀ e, e ∈ rows df → c_period e = Some ref →
        (elapsed e < float_sub (45 * 60) (float_mul n 60))%Q) →
  rows (filter_last_n_minutes df n period) = [].
Proof.
  intros Hp Ht Href (e0 & He0 & [q Hq]) Hshort.
  rewrite filter_last_n_minutes_unfold by done.
  destruct (present_periods df) as [|p0 ps] eqn:Hps.
  { pose proof (proj1 (present_periods_nil df) Hps e0 He0). congruence. }
  cbv zeta. rewrite (use_period_reference df period ref p0 ps Hps Href).
  destruct (last_cutoff (period_rows df ref) n) as [c|] eqn:Hc; [|done].
  apply last_cutoff_Some in Hc as (M & -> & _ & _).
  cbn [rows].
  destruct (filter _ (rows df)) as [|e l] eqn:Hf; [done|]. exfalso.
  assert (e ∈ filter (λ e, c_period e = Some ref
            ∧ (float_sub (py_max M (45 * 60)) (float_mul n 60)
               <= elapsed e)%Q) (rows df)) as Hin
    by (rewrite Hf; left).
  apply list_elem_of_filter in Hin as [[Hpe Hle] He].
  specialize (Hshort e He Hpe).
  apply (Qlt_irrefl (elapsed e)).
  eapply Qlt_le_trans; [exact Hshort|].
  eapply Qle_trans; [|exact Hle].
  apply float_sub_mono_l, py_max_r.
Qed.

Lemma filter_last_n_minutes_keeps_latest_witness :
  clear_seconds (row 1 1 "00:46:30.000" "Shot" (Some 2) None)
  ∈ rows (filter_last_n_minutes long_period_table 1 None).
Proof.
  apply (filter_last_n_minutes_keeps_latest long_period_table 1 None 1).
  - has_column.
  - has_column.
  - split.
    + eexists. split; [left|done].
    + intros e q He Hq. in_rows He; simpl in Hq; injection Hq as <-; lia.
  - right. left.
  - done.
  - intros e' He' _. in_rows He'; by vm_compute.
  - by vm_compute.
  - by vm_compute.
Defined.

Lemma filter_last_n_minutes_short_period_witness :
  rows (filter_last_n_minutes last_minutes_table 4 (Some 2)) = [].
Proof.
  apply (filter_last_n_minutes_short_period last_minutes_table 4 (Some 2) 2).
  - has_column.
  - has_column.
  - done.
  - eexists. split; [left|by eexists].
  - intros e He Hp. in_rows He; try (by discriminate Hp); by vm_compute.
Defined.

(** X9. On a table with both columns, [filter_first_n_minutes] keeps
    exactly the rows of the period (period 1 when none is given) whose
    elapsed seconds are at most [n * 60], the float product as the code
    computes it, in the order of the table, and drops the scratch column;
    a row of the period whose timestamp is missing or does not parse
    counts as 0 seconds, so it is kept for every [n >= 0]. *)
Theorem filter_first_n_minutes_spec (df : DataFrame) (n : Q)
    (period : option Z) :
  "period" ∈ columns df → "timestamp" ∈ columns df →
  let ref := default 1%Z period in
  let out := filter_first_n_minutes df n period in
  columns out = filter (λ c, c ≠ "_seconds") (columns df) ∧
  rows out =
    clear_seconds <$>
      filter (λ e, c_period e = Some ref ∧ (elapsed e <= float_mul n 60)%Q)
        (rows df) ∧
  ∀ e, e ∈ rows df → c_period e = Some ref → (0 <= n)%Q →
       (c_timestamp e = None
        ∨ ∃ s, c_timestamp e = Some s ∧ no_digit_head s = true) →
       clear_seconds e ∈ rows out.
Proof.
  intros Hp Ht ref out.
  assert (rows out = clear_seconds <$>
            filter (λ e, c_period e = Some ref
                         ∧ (elapsed e <= float_mul n 60)%Q)
              (rows df)) as Hrows.
  { subst out. unfold filter_first_n_minutes.
    rewrite (proj2 (has_col_true df "period") Hp).
    rewrite (proj2 (has_col_true df "timestamp") Ht).
    cbn [negb orb rows drop_seconds with_rows]. rewrite rows_assign_seconds.
    apply filter_set_seconds. intros e. cbn [c_period c_seconds set_seconds].
    rewrite andb_true_iff, eqb_cell_true. unfold le_cell.
    by rewrite Qle_bool_true. }
  split; [|split; [done|]].
  - subst out. unfold filter_first_n_minutes.
    rewrite (proj2 (has_col_true df "period") Hp).
    rewrite (proj2 (has_col_true df "timestamp") Ht).
    cbn [negb orb]. apply (columns_drop_assign df).
  - intros e He Hpe Hn Hts. rewrite Hrows.
    apply list_elem_of_fmap_2, list_elem_of_filter.
    split; [|done]. split; [done|].
    assert (elapsed e = 0%Q) as ->.
    { unfold elapsed. destruct Hts as [->|(s & -> & Hd)]; [done|].
      by apply timestamp_to_seconds_no_digit. }
    by apply float_mul_60_nonneg.
Qed.

Lemma filter_first_n_minutes_spec_witness :
  let ref := default 1%Z None in
  let out := filter_first_n_minutes long_period_table 44 None in
  columns out = filter (λ c, c ≠ "_seconds") (columns long_period_table) ∧
  rows out =
    clear_seconds <$>
      filter (λ e, c_period e = Some ref ∧ (elapsed e <= float_mul 44 60)%Q)
        (rows long_period_table) ∧
  ∀ e, e ∈ rows long_period_table → c_period e = Some ref → (0 <= 44)%Q →
       (c_timestamp e = None
        ∨ ∃ s, c_timestamp e = Some s ∧ no_digit_head s = true) →
       clear_seconds e ∈ rows out.
Proof.
  apply (filter_first_n_minutes_spec long_period_table 44 None); has_column.
Defined.

(** The product is a float product: the first 4.1 minutes end just before
    246 seconds, and the row at 00:04:06.000 is not kept. *)
Example filter_first_n_minutes_float_cutoff :
  c_label <$> rows (filter_first_n_minutes first_minutes_table (41 # 10) None)
  = [0]%nat ∧
  (float_mul (41 # 10) 60 < _timestamp_to_seconds (Some "00:04:06.000"))%Q.
Proof. split; by vm_compute. Qed.

(** ** Periods *)

Lemma filter_bool_comm {A} (p q : A → bool) (l : list A) :
  filter (λ a, p a = true) (filter (λ a, q a = true) l)
  = filter (λ a, q a = true) (filter (λ a, p a = true) l).
Proof.
  rewrite !filter_filter_bool. apply list_filter_iff. intros a.
  by rewrite andb_comm.
Qed.

(** X10. Period filters commute, and on a table with a period column two
    different periods have no row in common: filtering by one period and
    then by another leaves no row. *)
Theorem filter_by_period_commute (df : DataFrame) (p q : Z) :
  filter_by_period (filter_by_period df p) q
  = filter_by_period (filter_by_period df q) p ∧
  ("period" ∈ columns df → p ≠ q →
   rows (filter_by_period (filter_by_period df p) q) = []).
Proof.
  unfold filter_by_period.
  destruct (has_col df "period") eqn:Hc; cbn [negb]; rewrite ?Hc; cbn [negb].
  2:{ split; [done|]. intros H%has_col_true. congruence. }
  rewrite !has_col_with_rows, Hc. cbn [negb rows with_rows]. split.
  - unfold with_rows. cbn [columns]. f_equal. apply filter_bool_comm.
  - intros _ Hpq. rewrite filter_filter_bool.
    destruct (filter _ (rows df)) as [|e l] eqn:Hf; [done|]. exfalso.
    assert (e ∈ filter (λ e, eqb_cell (c_period e) p
              && eqb_cell (c_period e) q = true) (rows df)) as Hin
      by (rewrite Hf; left).
    apply list_elem_of_filter in Hin as [[H1 H2]%andb_true_iff _].
    apply eqb_cell_true in H1, H2. congruence.
Qed.

Lemma filter_by_period_commute_witness :
  rows (filter_by_period (filter_by_period last_minutes_table 1) 2) = [].
Proof.
  apply (filter_by_period_commute last_minutes_table 1 2); [has_column|done].
Defined.

Lemma filter_all {A} (P : A → Prop) `{!∀ a, Decision (P a)} (l : list A) :
  (∀ a, a ∈ l → P a) → filter P l = l.
Proof.
  induction l as [|a l IH]; intros Hall; [done|].
  rewrite filter_cons, decide_True by (apply Hall; left).
  rewrite IH; [done|]. intros a' ?. apply Hall. by right.
Qed.

(** X11. Filtering a table by its only period changes nothing, so the
    segment computed on the filtered table is the segment computed on the
    table itself. *)
Theorem filter_by_period_only_period (df : DataFrame) (p : Z)
    (label : string) :
  (∀ e, e ∈ rows df → c_period e = Some p) →
  filter_by_period df p = df ∧
  compute_match_metrics (filter_by_period df p) label
  = compute_match_metrics df label.
Proof.
  intros Hall.
  assert (filter_by_period df p = df) as Heq; [|by rewrite Heq].
  unfold filter_by_period. destruct (has_col df "period"); [|done].
  cbn [negb]. rewrite filter_all.
  - by destruct df.
  - intros e He. apply eqb_cell_true. by apply Hall.
Qed.

Lemma filter_by_period_only_period_witness :
  filter_by_period match_table 1 = match_table ∧
  compute_match_metrics (filter_by_period match_table 1) "period_1"
  = compute_match_metrics match_table "period_1".
Proof.
  apply (filter_by_period_only_period match_table 1 "period_1").
  intros e He. in_rows He; done.
Defined.

(** ** More on the counting metrics *)

Lemma no_team_events_counted (df : DataFrame) (P : event → bool) (t : Z) :
  "team_id" ∈ columns df → "type_name" ∈ columns df →
  (if no_team_events df then None else counted (team_rows P (rows df) t))
  = counted (team_rows P (rows df) t).
Proof.
  intros Hid Hty. destruct (no_team_events df) eqn:Hg; [|done].
  unfold no_team_events in Hg.
  rewrite (proj2 (has_col_true df "team_id") Hid) in Hg.
  rewrite (proj2 (has_col_true df "type_name") Hty) in Hg.
  rewrite !orb_false_r in Hg. unfold df_empty in Hg.
  destruct (rows df) as [|e l] eqn:Hr; [done|].
  destruct (columns df); [by apply elem_of_nil in Hid|done].
Qed.

(** X12. On a table with team and type columns, [pass_counts_by_team],
    [shot_counts_by_team] and [ball_receipts_by_team] map every team id to
    the number of its rows of type Pass, Shot and Ball Receipt; a team
    without such a row is no key, and rows without a team id are not
    counted. *)
Theorem counts_by_team_exact (df : DataFrame) :
  "team_id" ∈ columns df → "type_name" ∈ columns df →
  ∃ passes shots receipts,
    pass_counts_by_team df = Ok passes ∧
    shot_counts_by_team df = Ok shots ∧
    ball_receipts_by_team df = Ok receipts ∧
    ∀ t, passes !! t = counted (team_rows (is_type "Pass") (rows df) t) ∧
         shots !! t = counted (team_rows (is_type "Shot") (rows df) t) ∧
         receipts !! t
         = counted (team_rows (is_type "Ball Receipt") (rows df) t).
Proof.
  intros Hid Hty.
  destruct (pass_counts_by_team_lookup df) as (mp & Hmp & Lp).
  destruct (shot_counts_by_team_lookup df) as (ms & Hms & Ls).
  destruct (ball_receipts_by_team_lookup df) as (mb & Hmb & Lb).
  exists mp, ms, mb. repeat split; try done.
  - by rewrite Lp, no_team_events_counted.
  - by rewrite Ls, no_team_events_counted.
  - by rewrite Lb, no_team_events_counted.
Qed.

Lemma counts_by_team_exact_witness :
  ∃ passes shots receipts,
    pass_counts_by_team match_table = Ok passes ∧
    shot_counts_by_team match_table = Ok shots ∧
    ball_receipts_by_team match_table = Ok receipts ∧
    ∀ t, passes !! t
         = counted (team_rows (is_type "Pass") (rows match_table) t) ∧
         shots !! t
         = counted (team_rows (is_type "Shot") (rows match_table) t) ∧
         receipts !! t
         = counted (team_rows (is_type "Ball Receipt") (rows match_table) t).
Proof. apply (counts_by_team_exact match_table); has_column. Defined.

Lemma team_rows_ext (P P' : event → bool) (l : list event) (t : Z) :
  (∀ e, P e = P' e) → team_rows P l t = team_rows P' l t.
Proof.
  intros H. unfold team_rows. f_equal. apply list_filter_iff.
  intros e. by rewrite H.
Qed.

(** X13. The fallbacks for absent outcome columns: without a shot_outcome
    column the shots on target are the shots, and without a pass_outcome
    column the successful passes are the passes. *)
Theorem outcome_fallbacks (df : DataFrame) :
  ("shot_outcome" ∉ columns df →
   shots_on_target_by_team df = shot_counts_by_team df) ∧
  ("pass_outcome" ∉ columns df →
   successful_pass_counts_by_team df = pass_counts_by_team df).
Proof.
  split.
  - intros Hc%has_col_false.
    destruct (shots_on_target_by_team_lookup df) as (m & -> & L).
    destruct (shot_counts_by_team_lookup df) as (m' & -> & L').
    f_equal. apply map_eq. intros t. rewrite L, L'.
    destruct (no_team_events df); [done|]. f_equal.
    apply team_rows_ext. intros e. unfold on_target_shot.
    rewrite Hc. simpl. by rewrite andb_true_r.
  - intros Hc%has_col_false.
    destruct (successful_pass_counts_by_team_lookup df) as (m & -> & L).
    destruct (pass_counts_by_team_lookup df) as (m' & -> & L').
    f_equal. apply map_eq. intros t. rewrite L, L'.
    destruct (no_team_events df); [done|]. f_equal.
    apply team_rows_ext. intros e. unfold successful_pass.
    rewrite Hc. simpl. by rewrite andb_true_r.
Qed.

Lemma outcome_fallbacks_witness :
  shots_on_target_by_team shots_table = shot_counts_by_team shots_table ∧
  successful_pass_counts_by_team shots_table = pass_counts_by_team shots_table.
Proof.
  split; apply (outcome_fallbacks shots_table);
    apply (bool_decide_unpack _); by vm_compute.
Defined.

(** ** More on possession *)

Lemma no_team_events_true_rows (df : DataFrame) :
  "team_id" ∈ columns df → "type_name" ∈ columns df →
  no_team_events df = true → rows df = [].
Proof.
  intros Hid Hty Hg. unfold no_team_events in Hg.
  rewrite (proj2 (has_col_true df "team_id") Hid) in Hg.
  rewrite (proj2 (has_col_true df "type_name") Hty) in Hg.
  rewrite !orb_false_r in Hg. unfold df_empty in Hg.
  destruct (rows df) as [|e l] eqn:Hr; [done|].
  destruct (columns df); [by apply elem_of_nil in Hid|done].
Qed.

Lemma length_dropna_team_id (l : list event) :
  length (dropna (c_team_id <$> l))
  = length (filter (λ e, notna (c_team_id e) = true) l).
Proof.
  unfold dropna. induction l as [|e l IH]; [done|].
  rewrite filter_cons. simpl.
  destruct (c_team_id e); simpl; [by f_equal|done].
Qed.

Lemma length_dropna_team (P : event → bool) (l : list event) :
  length (dropna (c_team_id <$> filter (λ e, P e = true) l))
  = length (filter (λ e, P e && notna (c_team_id e) = true) l).
Proof. by rewrite length_dropna_team_id, filter_filter_bool. Qed.

Lemma count_team_le_dropna (l : list (option Z)) (t : Z) :
  (count_team l t ≤ length (dropna l))%nat.
Proof.
  unfold count_team. induction l as [|[t'|] l IH]; simpl; [done|..].
  - rewrite filter_cons. case_decide; simpl; lia.
  - by rewrite filter_cons, decide_False.
Qed.

(** X14. On a table with team and type columns, the possession share of a
    team is the number of its Pass rows divided by the number of Pass rows
    that have a team; a team without a Pass row is no key. *)
Theorem possession_share_exact (df : DataFrame) :
  "team_id" ∈ columns df → "type_name" ∈ columns df →
  ∃ shares, possession_share_from_passes df = Ok shares ∧
    ∀ t, shares !! pretty t
         = (λ k, Qnat k / Qnat (team_passes df))%Q
           <$> counted (team_rows (is_type "Pass") (rows df) t).
Proof.
  intros Hid Hty. unfold possession_share_from_passes.
  destruct (no_team_events df) eqn:Hg.
  { exists ∅. split; [done|]. intros t. rewrite lookup_empty.
    by rewrite (no_team_events_true_rows df Hid Hty Hg). }
  destruct (no_team_events_false df Hg) as (Hne & _ & _).
  rewrite where_Ok by (by intros c ->%list_elem_of_singleton).
  rewrite bind_Ok.
  destruct (df_empty (with_rows df _)) eqn:Hemp.
  { apply df_empty_with_rows in Hemp; [|done].
    exists ∅. split; [done|]. intros t. rewrite lookup_empty.
    by rewrite <-count_team_fmap_filter, Hemp. }
  unfold count_by_team. rewrite getitem_Ok, !bind_Ok by done.
  cbn [rows with_rows].
  set (tids := c_team_id <$> filter (λ e, is_type "Pass" e = true) (rows df)).
  assert (dict_sum (value_counts tids) = team_passes df) as Htot.
  { rewrite dict_sum_value_counts. apply length_dropna_team. }
  rewrite Htot. case_bool_decide as Hz.
  - exists ∅. split; [done|]. intros t. rewrite lookup_empty.
    rewrite <-count_team_fmap_filter. fold tids.
    pose proof (count_team_le_dropna tids t) as Hle.
    rewrite <-dict_sum_value_counts, Htot, Hz in Hle.
    by destruct (count_team tids t); [|lia].
  - eexists. split; [done|]. intros t.
    rewrite lookup_kmap by apply _.
    rewrite lookup_fmap, value_counts_lookup. subst tids.
    by rewrite count_team_fmap_filter.
Qed.

Lemma possession_share_exact_witness :
  ∃ shares, possession_share_from_passes match_table = Ok shares ∧
    ∀ t, shares !! pretty t
         = (λ k, Qnat k / Qnat (team_passes match_table))%Q
           <$> counted (team_rows (is_type "Pass") (rows match_table) t).
Proof. apply (possession_share_exact match_table); has_column. Defined.

(** ** More on the average position *)

Lemma average_position_by_team_lookup (df : DataFrame)
    (m : gmap Z position) (t : Z) :
  "team_id" ∈ columns df →
  average_position_by_team df = Ok m →
  m !! t =
    if bool_decide (Some t ∈ c_team_id <$>
                      filter (λ e, has_xy e = true) (rows df))
    then Some (team_position (filter (λ e, has_xy e = true) (rows df)) t)
    else None.
Proof.
  intros Hid. unfold average_position_by_team.
  rewrite (proj2 (has_col_true df "team_id") Hid). cbn [negb].
  rewrite orb_false_r.
  destruct (df_empty df) eqn:He.
  { intros [= <-]. rewrite lookup_empty.
    unfold df_empty in He. destruct (rows df) as [|e l].
    - by rewrite bool_decide_false by apply not_elem_of_nil.
    - destruct (columns df); [by apply elem_of_nil in Hid|done]. }
  intros (valid & Hv & H)%bind_inv.
  apply where_inv in Hv as [_ ->].
  destruct (df_empty (with_rows df _)) eqn:Hemp.
  { injection H as <-. rewrite lookup_empty.
    apply df_empty_with_rows in Hemp; [|done]. rewrite Hemp.
    by rewrite bool_decide_false by apply not_elem_of_nil. }
  rewrite getitem_Ok, bind_Ok in H by done. injection H as <-.
  rewrite foldl_insert_lookup, lookup_empty. cbn [rows with_rows].
  erewrite bool_decide_ext; [done|].
  rewrite elem_of_remove_dups. unfold dropna. rewrite list_elem_of_omap.
  split; [intros (o & Ho & Heq); by simplify_eq/=|by exists (Some t)].
Qed.

(** X15. On a table with a team_id column, the keys of
    [average_position_by_team] are exactly the teams that have an event
    with both coordinates, and the value of a team is the mean position of
    those events of the team. *)
Theorem average_position_by_team_keys (df : DataFrame)
    (m : gmap Z position) (t : Z) :
  "team_id" ∈ columns df →
  average_position_by_team df = Ok m →
  (is_Some (m !! t) ↔
   ∃ e, e ∈ rows df ∧ c_team_id e = Some t ∧ has_xy e = true) ∧
  (∀ pos, m !! t = Some pos →
     pos = team_position (filter (λ e, has_xy e = true) (rows df)) t).
Proof.
  intros Hid Hm. rewrite (average_position_by_team_lookup df m t Hid Hm).
  case_bool_decide as Hin.
  - split; [|by intros pos [= <-]]. split; [|by eexists]. intros _.
    apply list_elem_of_fmap in Hin as (e & Ht & He).
    apply list_elem_of_filter in He as [Hxy He]. by exists e.
  - split; [|done]. split; [by intros [? ?]|].
    intros (e & He & Ht & Hxy). destruct Hin.
    apply list_elem_of_fmap. exists e. split; [done|].
    by apply list_elem_of_filter.
Qed.

Local Open Scope Q_scope.






Local Close Scope Q_scope.

Lemma average_position_by_team_keys_witness :
  let m := value_or ∅ (average_position_by_team match_table) in
  (is_Some (m !! 1) ↔
   ∃ e, e ∈ rows match_table ∧ c_team_id e = Some 1 ∧ has_xy e = true) ∧
  (∀ pos, m !! 1 = Some pos →
     pos = team_position
             (filter (λ e, has_xy e = true) (rows match_table)) 1).
Proof.
  apply (average_position_by_team_keys match_table); [has_column|].
  by vm_compute.
Defined.


(** ** More on the spatial metrics *)

Lemma py_min_cases (a b : Q) :
  (py_min a b = a ∧ (a <= b)%Q) ∨ (py_min a b = b ∧ (b <= a)%Q).
Proof.
  unfold py_min, Qlt_bool. destruct (Qle_bool a b) eqn:H; simpl.
  - left. split; [done|]. by apply Qle_bool_true.
  - right. split; [done|]. apply Qlt_le_weak, Qnot_le_lt.
    intros H'%Qle_bool_true. congruence.
Qed.

Lemma foldl_py_min_init (vs : list Q) (v : Q) : (foldl py_min v vs <= v)%Q.
Proof.
  revert v. induction vs as [|w vs IH]; intros v; simpl; [apply Qle_refl|].
  eapply Qle_trans; [apply IH|].
  destruct (py_min_cases v w) as [[-> _]|[-> H]]; [apply Qle_refl|done].
Qed.

Lemma length_filter_le {A} (P : A → Prop) `{!∀ a, Decision (P a)}
    (l : list A) : (length (filter P l) ≤ length l)%nat.
Proof. apply sublist_length, sublist_filter. Qed.

(** X17. Every share reported by [attack_distribution_by_zone] lies in
    [0, 1], the final-third dominance, when present, is a number in
    [0, 1], and a result without attacking-half actions is the default
    result with every share absent. *)
Theorem attack_distribution_by_zone_bounds (df : DataFrame) (tid : Z)
    (r : attack_distribution) :
  attack_distribution_by_zone df tid = Ok r →
  (attacking_half_actions r = 0%nat → r = no_attacks) ∧
  (∀ q, left_flank_attacks_pct r = Some q ∨ center_attacks_pct r = Some q
        ∨ right_flank_attacks_pct r = Some q → (0 <= q <= 1)%Q) ∧
  (∀ d, final_third_dominance r = Some d →
        ∃ q, d = Num q ∧ (0 <= q <= 1)%Q).
Proof.
  unfold attack_distribution_by_zone. intros H.
  apply bind_inv in H as (te & Hte & H). apply where_inv in Hte as [_ ->].
  apply bind_inv in H as (ae & Hae & H). apply where_inv in Hae as [_ ->].
  case_bool_decide;
    [injection H as <-; split; [done|split; [by intros q [?|[?|?]]|done]]|].
  apply bind_inv in H as (ah & Hah & H). apply where_inv in Hah as [_ ->].
  case_bool_decide as Hah;
    [injection H as <-; split; [done|split; [by intros q [?|[?|?]]|done]]|].
  apply bind_inv in H as (le & Hle & H). apply where_inv in Hle as [_ ->].
  apply bind_inv in H as (mi & Hmi & H). apply where_inv in Hmi as [_ ->].
  apply bind_inv in H as (ri & Hri & H). apply where_inv in Hri as [_ ->].
  apply bind_inv in H as (ft & Hft & H). apply where_inv in Hft as [_ ->].
  apply bind_inv in H as (ys & Hys & H).
  unfold getitem in Hys. destruct (has_col _ "y"); [|done].
  injection Hys as <-. injection H as <-.
  unfold len in *. cbn [rows with_rows] in *.
  match type of Hah with
  | length ?l ≠ 0%nat => set (half := l) in *
  end.
  assert (∀ e, e ∈ half → notna (c_y e) = true) as Hy.
  { intros e [_ [He _]%list_elem_of_filter]%list_elem_of_filter.
    by apply andb_true_iff in He as [_ ?]. }
  pose proof (zone_partition (2667 # 100) (5333 # 100) half
                ltac:(by vm_compute) Hy) as Hpart.
  cbn [attacking_half_actions left_flank_attacks_pct center_attacks_pct
       right_flank_attacks_pct final_third_dominance].
  split; [done|]. split.
  - rewrite bool_decide_true by lia.
    intros q [[= <-]|[[= <-]|[= <-]]]; apply share_bounds; lia.
  - case_bool_decide as Hft; [|done]. intros d [= <-].
    set (third := filter (λ e, gt_cell (c_x e) 80 = true) half) in *.
    destruct third as [|e0 es] eqn:Hthird; [simpl in Hft; lia|].
    assert (e0 ∈ half) as He0.
    { assert (e0 ∈ third) as Hin by (rewrite Hthird; left).
      by apply list_elem_of_filter in Hin as [_ ?]. }
    pose proof (Hy e0 He0) as Hy0.
    unfold series_max, series_min. cbn [fmap list_fmap].
    destruct (c_y e0) as [v|]; [|done].
    fold (@fmap list _ _ _ c_y es). cbn [dropna omap list_omap id].
    fold (dropna (c_y <$> es)).
    eexists. split; [done|].
    set (hi := foldl py_max v _). set (lo := foldl py_min v _).
    assert (0 <= (hi - lo) / 80)%Q as Hnn.
    { apply Qle_shift_div_l; [done|]. rewrite Qmult_0_l.
      assert (lo <= hi)%Q as Hlh
        by (eapply Qle_trans;
              [apply foldl_py_min_init|apply foldl_py_max_init]).
      apply (Qplus_le_l _ _ lo). by ring_simplify. }
    destruct (py_min_cases ((hi - lo) / 80) 1) as [[-> ?]|[-> ?]]; done.
Qed.

Lemma attack_distribution_by_zone_bounds_witness :
  (attacking_half_actions match_attacks = 0%nat → match_attacks = no_attacks) ∧
  (∀ q, left_flank_attacks_pct match_attacks = Some q
        ∨ center_attacks_pct match_attacks = Some q
        ∨ right_flank_attacks_pct match_attacks = Some q → (0 <= q <= 1)%Q) ∧
  (∀ d, final_third_dominance match_attacks = Some d →
        ∃ q, d = Num q ∧ (0 <= q <= 1)%Q).
Proof.
  apply (attack_distribution_by_zone_bounds match_table 1 match_attacks).
  by vm_compute.
Defined.

Lemma two_way_count {A} (p q : A → bool) (l : list A) :
  (∀ a, a ∈ l → p a = true → q a = false) →
  (length (filter (λ a, p a = true) l) + length (filter (λ a, q a = true) l)
   ≤ length l)%nat.
Proof.
  induction l as [|a l IH]; intros Hex; [done|].
  specialize (IH (λ a' H, Hex a' (list_elem_of_further _ _ _ H))).
  rewrite !filter_cons.
  destruct (p a) eqn:Hp.
  - rewrite (Hex a) by (done || left). rewrite decide_True, decide_False by done.
    simpl. lia.
  - rewrite decide_False by done. case_decide; simpl; lia.
Qed.

(** X18. The high-press and low-block zones of [defensive_zone_activity]
    do not overlap: the two counts together are at most the number of the
    team's defensive events that have an x coordinate. *)
Theorem defensive_zone_activity_zones (df : DataFrame) (tid : Z)
    (r : defensive_activity) :
  defensive_zone_activity df tid = Ok r →
  (high_press_actions r + low_block_actions r
   ≤ length (filter (λ e, eqb_cell (c_team_id e) tid
                          && (isin (c_type_name e) defensive_types
                              && notna (c_x e)) = true) (rows df)))%nat.
Proof.
  unfold defensive_zone_activity. intros H.
  apply bind_inv in H as (te & Hte & H). apply where_inv in Hte as [_ ->].
  apply bind_inv in H as (de & Hde & H). apply where_inv in Hde as [_ ->].
  apply bind_inv in H as (hi & Hhi & H). apply where_inv in Hhi as [_ ->].
  apply bind_inv in H as (lo & Hlo & H). apply where_inv in Hlo as [_ ->].
  apply bind_inv in H as (ls & _ & H).
  apply bind_inv in H as (la & _ & H). injection H as <-.
  unfold len. cbn [rows with_rows high_press_actions low_block_actions].
  rewrite <-(filter_filter_bool
               (λ e, isin (c_type_name e) defensive_types && notna (c_x e))
               (λ e, eqb_cell (c_team_id e) tid)).
  apply two_way_count. intros e _ Hgt. destruct (c_x e) as [v|]; [|done]. simpl in *.
  unfold Qlt_bool in *. apply negb_true_iff in Hgt. apply negb_false_iff.
  apply Qle_bool_true. apply Qle_trans with 60%Q.
  - by vm_compute.
  - apply Qlt_le_weak, Qnot_le_lt. intros Hle%Qle_bool_true.
    congruence.
Qed.

Lemma defensive_zone_activity_zones_witness :
  (high_press_actions (value_or (DefensiveActivity 0 0 0)
                         (defensive_zone_activity defence_table 1))
   + low_block_actions (value_or (DefensiveActivity 0 0 0)
                          (defensive_zone_activity defence_table 1))
   ≤ length (filter (λ e, eqb_cell (c_team_id e) 1%Z
                          && (isin (c_type_name e) defensive_types
                              && notna (c_x e)) = true)
               (rows defence_table)))%nat.
Proof.
  apply (defensive_zone_activity_zones defence_table 1). by vm_compute.
Defined.

(** X19. [passing_concentration] reports no value at all exactly when the
    team has no pass with start coordinates and an end x; otherwise the
    share of backward passes is a number in [0, 1], the number of
    qualifying passes with [end_x < x] over the number of qualifying
    passes, and both spreads are present. *)
Theorem passing_concentration_back_passes (std : list (option Q) → number)
    (df : DataFrame) (tid : Z) (r : pass_concentration) :
  passing_concentration std df tid = Ok r →
  let passes := filter (λ e, qualifying_pass tid e = true) (rows df) in
  (passes = [] →
   r = {| pass_width_spread := None; pass_depth_spread := None;
          back_passes_pct := None |}) ∧
  (passes ≠ [] →
   pass_width_spread r = Some (std (c_y <$> passes)) ∧
   pass_depth_spread r = Some (std (c_x <$> passes)) ∧
   ∃ q, back_passes_pct r = Some q ∧ (0 <= q <= 1)%Q ∧
        q = (Qnat (length (filter (λ e, match c_end_x e, c_x e with
                                        | Some a, Some b => Qlt_bool a b
                                        | _, _ => false
                                        end = true) passes))
             / Qnat (length passes))%Q).
Proof.
  intros H. cbv zeta. unfold passing_concentration in H.
  apply bind_inv in H as (tp & Htp & H). apply where_inv in Htp as [Hc ->].
  unfold len in H. cbn [rows with_rows] in H.
  change (λ e, eqb_cell (c_team_id e) tid && is_type "Pass" e
               && notna (c_x e) && notna (c_y e) && notna (c_end_x e) = true)
    with (λ e, qualifying_pass tid e = true) in H.
  set (passes := filter (λ e, qualifying_pass tid e = true) (rows df)) in *.
  case_bool_decide as Hlen.
  { injection H as <-. split; [done|]. intros Hne.
    by destruct passes. }
  assert (passes ≠ []) as Hne by (intros Heq; by rewrite Heq in Hlen).
  split; [done|]. intros _.
  apply bind_inv in H as (ys & Hys & H). apply bind_inv in H as (xs & Hxs & H).
  unfold getitem in Hys, Hxs.
  destruct (has_col _ "y"); [|done]. destruct (has_col _ "x"); [|done].
  injection Hys as <-. injection Hxs as <-.
  apply bind_inv in H as (bw & Hbw & H). apply where_inv in Hbw as [_ ->].
  injection H as <-. cbn [rows with_rows pass_width_spread pass_depth_spread
                          back_passes_pct].
  split; [done|]. split; [done|].
  rewrite bool_decide_true by lia. eexists. split; [done|]. split; [|done].
  apply share_bounds; [apply length_filter_le|lia].
Qed.

Lemma passing_concentration_back_passes_witness :
  let r := value_or (PassConcentration None None None)
             (passing_concentration (λ _, NaN) defence_table 1) in
  let passes := filter (λ e, qualifying_pass 1 e = true) (rows defence_table) in
  (passes = [] →
   r = {| pass_width_spread := None; pass_depth_spread := None;
          back_passes_pct := None |}) ∧
  (passes ≠ [] →
   pass_width_spread r = Some ((λ _, NaN) (c_y <$> passes)) ∧
   pass_depth_spread r = Some ((λ _, NaN) (c_x <$> passes)) ∧
   ∃ q, back_passes_pct r = Some q ∧ (0 <= q <= 1)%Q ∧
        q = (Qnat (length (filter (λ e, match c_end_x e, c_x e with
                                        | Some a, Some b => Qlt_bool a b
                                        | _, _ => false
                                        end = true) passes))
             / Qnat (length passes))%Q).
Proof.
  apply (passing_concentration_back_passes (λ _, NaN) defence_table 1).
  by vm_compute.
Defined.

(** ** More on the segment aggregator *)

Lemma team_names_lookup (name_col : bool) (l : list event)
    (seen : list (option Z)) (acc : gmap Z string) (t : Z) :
  foldl (λ out row,
           match c_team_id row with
           | Some tid => <[tid := row_team_name name_col row tid]> out
           | None => out
           end) acc (drop_duplicates_team_id seen l) !! t
  = if bool_decide (Some t ∈ seen) then acc !! t
    else match list_find (λ e, c_team_id e = Some t) l with
         | Some (_, e) => Some (row_team_name name_col e t)
         | None => acc !! t
         end.
Proof.
  revert seen acc. induction l as [|e l IH]; intros seen acc.
  - simpl. by case_bool_decide.
  - cbn [drop_duplicates_team_id list_find].
    destruct (bool_decide (c_team_id e ∈ seen)) eqn:Hseen.
    + apply bool_decide_eq_true in Hseen. rewrite IH.
      case_bool_decide as Ht; [done|].
      rewrite decide_False by (intros Heq; apply Ht; by rewrite <-Heq).
      by destruct (list_find _ l) as [[? ?]|].
    + apply bool_decide_eq_false in Hseen. cbn [foldl]. rewrite IH.
      destruct (decide (c_team_id e = Some t)) as [Heq|Hne].
      * rewrite bool_decide_true by (rewrite Heq; left).
        rewrite Heq, lookup_insert_eq.
        by rewrite bool_decide_false by (by rewrite <-Heq).
      * assert (bool_decide (Some t ∈ c_team_id e :: seen)
                = bool_decide (Some t ∈ seen)) as ->.
        { apply bool_decide_ext. rewrite elem_of_cons.
          split; [intros [Heq|Hin]; [congruence|done]|by right]. }
        assert (match c_team_id e with
                | Some tid => <[tid:=row_team_name name_col e tid]> acc
                | None => acc
                end !! t = acc !! t) as ->.
        { destruct (c_team_id e) as [t'|]; [|done].
          apply lookup_insert_ne. congruence. }
        case_bool_decide; [done|].
        by destruct (list_find _ l) as [[? ?]|].
Qed.

Lemma team_id_to_name_map_lookup (df : DataFrame) (tm : gmap Z string) (t : Z) :
  "team_id" ∈ columns df →
  _team_id_to_name_map df = Ok tm →
  tm !! t = match list_find (λ e, c_team_id e = Some t) (rows df) with
            | Some (_, e) => Some (row_team_name (has_col df "team_name") e t)
            | None => None
            end.
Proof.
  intros Hid. unfold _team_id_to_name_map.
  rewrite (proj2 (has_col_true df "team_id") Hid). cbn [negb].
  rewrite orb_false_r. destruct (df_empty df) eqn:He.
  - intros [= <-]. rewrite lookup_empty. unfold df_empty in He.
    destruct (rows df); [done|].
    destruct (columns df); [by apply elem_of_nil in Hid|done].
  - intros [= <-].
    rewrite (team_names_lookup (has_col df "team_name") (rows df) [] ∅ t).
    rewrite bool_decide_false by apply not_elem_of_nil.
    by rewrite lookup_empty.
Qed.

Lemma team_id_to_name_map_keys (df : DataFrame) (tm : gmap Z string) (t : Z) :
  _team_id_to_name_map df = Ok tm →
  is_Some (tm !! t) →
  "team_id" ∈ columns df ∧ ∃ e, e ∈ rows df ∧ c_team_id e = Some t.
Proof.
  intros Hm Hs.
  destruct (has_col df "team_id") eqn:Hc.
  - apply has_col_true in Hc. split; [done|].
    rewrite (team_id_to_name_map_lookup df tm t Hc Hm) in Hs.
    destruct (list_find _ (rows df)) as [[i e]|] eqn:Hf;
      [|by destruct Hs].
    apply list_find_Some in Hf as (Hi & Ht & _).
    exists e. split; [by eapply list_elem_of_lookup_2|done].
  - unfold _team_id_to_name_map in Hm. rewrite Hc in Hm. cbn [negb] in Hm.
    rewrite orb_true_r in Hm. injection Hm as <-.
    rewrite lookup_empty in Hs. by destruct Hs.
Qed.

Lemma StronglySorted_le_lt (l : list Z) :
  StronglySorted Z.le l → NoDup l → StronglySorted Z.lt l.
Proof.
  induction 1 as [|x l Hs IH Hf]; intros Hnd; [constructor|].
  apply NoDup_cons in Hnd as [Hx Hnd]. constructor; [by apply IH|].
  apply Forall_forall. intros y Hy.
  apply list_elem_of_In in Hy as Hy'.
  pose proof (proj1 (Forall_forall _ _) Hf y Hy).
  assert (x ≠ y) by (intros ->; done). lia.
Qed.

Lemma sorted_team_ids (tm : gmap Z string) :
  StronglySorted Z.lt (merge_sort Z.le (map_to_list tm).*1) ∧
  ∀ t, t ∈ merge_sort Z.le (map_to_list tm).*1 ↔ is_Some (tm !! t).
Proof.
  split.
  - apply StronglySorted_le_lt.
    + apply StronglySorted_merge_sort; apply _.
    + rewrite merge_sort_Permutation. apply NoDup_fst_map_to_list.
  - intros t. rewrite merge_sort_Permutation, list_elem_of_fmap. split.
    + intros ([t' nm] & -> & Hin%elem_of_map_to_list). by eexists.
    + intros [nm Hnm]. exists (t, nm). split; [done|].
      by apply elem_of_map_to_list.
Qed.

Lemma team_record_ids tm po pc ps sc so go ap ft (ids : list Z) :
  team_id <$> (team_record tm po pc ps sc so go ap ft <$> ids) = ids.
Proof. induction ids as [|t ids IH]; [done|]. simpl. by f_equal. Qed.

(** X20. The team records of a segment are in strictly ascending order of
    team id, so no team occurs twice; on a table with a team_id column
    there is a record for exactly the team ids that occur in the table. *)
Theorem compute_match_metrics_teams (df : DataFrame) (label : string)
    (seg : segment_result) :
  compute_match_metrics df label = Ok seg →
  StronglySorted Z.lt (team_id <$> teams seg) ∧
  ("team_id" ∈ columns df →
   ∀ t, t ∈ team_id <$> teams seg ↔
        ∃ e, e ∈ rows df ∧ c_team_id e = Some t).
Proof.
  intros Hseg.
  apply compute_match_metrics_inv in Hseg
    as (tm & po & pc & ps & sc & so & go & ap & ft & Htm & _ & _ & _ & _ & _
        & _ & _ & _ & _ & Hteams & _).
  rewrite Hteams, team_record_ids.
  destruct (sorted_team_ids tm) as [Hsorted Hkeys].
  split; [done|]. intros Hid t. rewrite Hkeys.
  rewrite (team_id_to_name_map_lookup df tm t Hid Htm). split.
  - destruct (list_find _ (rows df)) as [[i e]|] eqn:Hf; [|by intros [? ?]].
    intros _. apply list_find_Some in Hf as (Hi & Ht & _).
    exists e. split; [by eapply list_elem_of_lookup_2|done].
  - intros (e & He & Ht).
    destruct (list_find_elem_of (λ e, c_team_id e = Some t) (rows df) e He Ht)
      as [[i e'] ->]. by eexists.
Qed.

Lemma compute_match_metrics_teams_witness :
  StronglySorted Z.lt (team_id <$> teams match_segment) ∧
  ("team_id" ∈ columns match_table →
   ∀ t, t ∈ team_id <$> teams match_segment ↔
        ∃ e, e ∈ rows match_table ∧ c_team_id e = Some t).
Proof.
  apply (compute_match_metrics_teams match_table "full_match"). by vm_compute.
Defined.

(** X21. The name of a team record is read off the first row of the team
    in the table: the team name of that row if the table has a team_name
    column and the cell is not null, and "Team_<id>" otherwise, whatever
    the later rows of the team say. *)
Theorem compute_match_metrics_team_name (df : DataFrame) (label : string)
    (seg : segment_result) (r : team_metrics) :
  compute_match_metrics df label = Ok seg →
  r ∈ teams seg →
  ∃ i e,
    rows df !! i = Some e ∧ c_team_id e = Some (team_id r) ∧
    (∀ j e', rows df !! j = Some e' → (j < i)%nat →
             c_team_id e' ≠ Some (team_id r)) ∧
    team_name r = row_team_name (has_col df "team_name") e (team_id r).
Proof.
  intros Hseg Hr.
  apply compute_match_metrics_inv in Hseg
    as (tm & po & pc & ps & sc & so & go & ap & ft & Htm & _ & _ & _ & _ & _
        & _ & _ & _ & _ & Hteams & _).
  rewrite Hteams in Hr. apply list_elem_of_fmap in Hr as (tid & -> & Hin).
  apply (sorted_team_ids tm) in Hin.
  destruct (team_id_to_name_map_keys df tm tid Htm Hin) as [Hid _].
  cbn [team_id team_name team_record].
  rewrite (team_id_to_name_map_lookup df tm tid Hid Htm) in Hin |- *.
  destruct (list_find _ (rows df)) as [[i e]|] eqn:Hf; [|by destruct Hin].
  apply list_find_Some in Hf as (Hi & Ht & Hfirst).
  exists i, e. repeat split; try done.
Qed.

Lemma compute_match_metrics_team_name_witness :
  ∃ i e,
    rows match_table !! i = Some e ∧
    c_team_id e = Some (team_id (first_team match_segment)) ∧
    (∀ j e', rows match_table !! j = Some e' → (j < i)%nat →
             c_team_id e' ≠ Some (team_id (first_team match_segment))) ∧
    team_name (first_team match_segment)
    = row_team_name (has_col match_table "team_name") e
        (team_id (first_team match_segment)).
Proof.
  apply (compute_match_metrics_team_name match_table "full_match"
           match_segment).
  - by vm_compute.
  - left.
Defined.

Lemma fmap_ext_in {A B} (f g : A → B) (l : list A) :
  (∀ a, a ∈ l → f a = g a) → f <$> l = g <$> l.
Proof.
  induction l as [|a l IH]; intros Hfg; [done|].
  rewrite !fmap_cons, (Hfg a) by left. f_equal.
  apply IH. intros a' ?. apply Hfg. by right.
Qed.

Lemma dict_sum_delete (m : gmap Z nat) (a : Z) :
  dict_sum m = (get0 m a + dict_sum (delete a m))%nat.
Proof.
  unfold get0. destruct (m !! a) as [v|] eqn:Hm; simpl.
  - rewrite <-(insert_delete_id m a v) at 1 by done.
    by rewrite dict_sum_insert by apply lookup_delete_eq.
  - by rewrite delete_id.
Qed.

Lemma dict_sum_sum_list (l : list Z) (m : gmap Z nat) :
  NoDup l → (∀ t, is_Some (m !! t) → t ∈ l) →
  dict_sum m = sum_list (get0 m <$> l).
Proof.
  revert m. induction l as [|a l IH]; intros m Hnd Hkeys.
  - assert (m = ∅) as ->; [|apply dict_sum_empty].
    apply map_empty. intros t. apply eq_None_not_Some.
    intros Hs. by apply Hkeys, elem_of_nil in Hs.
  - apply NoDup_cons in Hnd as [Ha Hnd].
    rewrite (dict_sum_delete m a), (IH (delete a m) Hnd).
    + cbn [fmap list_fmap sum_list sum_list_with]. f_equal.
      fold (@fmap list _ _ _ (get0 m) l). f_equal.
      apply fmap_ext_in. intros t Ht. unfold get0.
      rewrite lookup_delete_ne; [done|]. by intros ->.
    + intros t Hs. destruct (decide (t = a)) as [->|Hne].
      * rewrite lookup_delete_eq in Hs. by destruct Hs.
      * rewrite lookup_delete_ne in Hs by done.
        apply Hkeys in Hs. by apply elem_of_cons in Hs as [?|?].
Qed.

Lemma typed_counts_keys (df : DataFrame) (tm : gmap Z string)
    (m : gmap Z nat) (P : event → bool) (t : Z) :
  _team_id_to_name_map df = Ok tm →
  (m !! t = if no_team_events df then None
            else counted (team_rows P (rows df) t)) →
  is_Some (m !! t) → is_Some (tm !! t).
Proof.
  intros Htm -> Hs. destruct (no_team_events df) eqn:Hg; [by destruct Hs|].
  destruct (no_team_events_false df Hg) as (_ & Hid & _).
  destruct Hs as [k [-> Hk]%counted_Some].
  unfold team_rows in Hk.
  destruct (filter _ (rows df)) as [|e l] eqn:Hf; [simpl in Hk; lia|].
  assert (e ∈ filter (λ e, P e && eqb_cell (c_team_id e) t = true) (rows df))
    as Hin by (rewrite Hf; left).
  apply list_elem_of_filter in Hin as [[_ Ht%eqb_cell_true]%andb_true_iff He].
  rewrite (team_id_to_name_map_lookup df tm t Hid Htm).
  destruct (list_find_elem_of (λ e, c_team_id e = Some t) (rows df) e He Ht)
    as [[i e'] ->]. by eexists.
Qed.

(** X22. The totals of a segment are the sums over its team records:
    total_passes is the sum of the passes of the teams and total_shots the
    sum of their shots. *)
Theorem compute_match_metrics_totals (df : DataFrame) (label : string)
    (seg : segment_result) :
  compute_match_metrics df label = Ok seg →
  total_passes (totals seg) = sum_list (passes <$> teams seg) ∧
  total_shots (totals seg) = sum_list (shots <$> teams seg).
Proof.
  intros Hseg.
  apply compute_match_metrics_inv in Hseg
    as (tm & po & pc & ps & sc & so & go & ap & ft & Htm & _ & Hpc & _ & Hsc
        & _ & _ & _ & _ & _ & Hteams & Htot).
  rewrite Hteams, Htot. cbn [total_passes total_shots].
  rewrite <-!list_fmap_compose.
  destruct (sorted_team_ids tm) as [Hsorted Hkeys].
  assert (NoDup (merge_sort Z.le (map_to_list tm).*1)) as Hnd.
  { rewrite merge_sort_Permutation. apply NoDup_fst_map_to_list. }
  destruct (pass_counts_by_team_lookup df) as (pc' & Hpc' & Lpc).
  rewrite Hpc in Hpc'. injection Hpc' as <-.
  destruct (shot_counts_by_team_lookup df) as (sc' & Hsc' & Lsc).
  rewrite Hsc in Hsc'. injection Hsc' as <-.
  split.
  - apply (dict_sum_sum_list _ pc Hnd). intros t Hs. apply Hkeys.
    exact (typed_counts_keys df tm pc _ t Htm (Lpc t) Hs).
  - apply (dict_sum_sum_list _ sc Hnd). intros t Hs. apply Hkeys.
    exact (typed_counts_keys df tm sc _ t Htm (Lsc t) Hs).
Qed.

Lemma compute_match_metrics_totals_witness :
  total_passes (totals match_segment)
  = sum_list (passes <$> teams match_segment) ∧
  total_shots (totals match_segment)
  = sum_list (shots <$> teams match_segment).
Proof.
  apply (compute_match_metrics_totals match_table "full_match").
  by vm_compute.
Defined.

(** X23. [compute_match_metrics] returns exactly on the tables that are
    empty, have no team_id column, or have both the x and the y column; on
    every other table it raises [KeyError] for "x" or "y". *)
Theorem compute_match_metrics_returns_iff (df : DataFrame) (label : string) :
  (returns (compute_match_metrics df label) ↔
   df_empty df = true ∨ "team_id" ∉ columns df
   ∨ ("x" ∈ columns df ∧ "y" ∈ columns df)) ∧
  (¬ returns (compute_match_metrics df label) →
   ∃ c, compute_match_metrics df label = KeyError c ∧ (c = "x" ∨ c = "y")).
Proof.
  assert (df_empty df = false → "team_id" ∈ columns df →
          ("x" ∉ columns df ∨ "y" ∉ columns df) →
          ∃ c, compute_match_metrics df label = KeyError c
               ∧ (c = "x" ∨ c = "y")) as Hraise.
  { intros He Hid Hxy. unfold compute_match_metrics.
    destruct (_team_id_to_name_map_returns df) as [? ->].
    destruct (possession_share_from_passes_returns df) as [? ->].
    destruct (pass_counts_by_team_lookup df) as (? & -> & _).
    destruct (successful_pass_counts_by_team_lookup df) as (? & -> & _).
    destruct (shot_counts_by_team_lookup df) as (? & -> & _).
    destruct (shots_on_target_by_team_lookup df) as (? & -> & _).
    destruct (goals_by_team_lookup df) as (? & -> & _).
    destruct (average_position_by_team_raises df He Hid Hxy)
      as (c & -> & Hc).
    rewrite !bind_Ok. by exists c. }
  assert (returns (compute_match_metrics df label) ∨
          (df_empty df = false ∧ "team_id" ∈ columns df
           ∧ ("x" ∉ columns df ∨ "y" ∉ columns df))) as Hcases.
  { destruct (df_empty df) eqn:He;
      [left; apply compute_match_metrics_returns; by left|].
    destruct (decide ("team_id" ∈ columns df)) as [Hid|Hid];
      [|left; apply compute_match_metrics_returns; right; by left].
    destruct (decide ("x" ∈ columns df)) as [Hx|Hx]; [|right; by auto].
    destruct (decide ("y" ∈ columns df)) as [Hy|Hy]; [|right; by auto].
    left. apply compute_match_metrics_returns. right; right; done. }
  split; [split|].
  - intros [seg Hseg].
    destruct (df_empty df) eqn:He; [by left|].
    destruct (decide ("team_id" ∈ columns df)) as [Hid|Hid]; [|right; by left].
    destruct (decide ("x" ∈ columns df)) as [Hx|Hx];
      [destruct (decide ("y" ∈ columns df)) as [Hy|Hy]|].
    + right; right; done.
    + destruct (Hraise eq_refl Hid (or_intror Hy)) as (c & Hc & _). congruence.
    + destruct (Hraise eq_refl Hid (or_introl Hx)) as (c & Hc & _). congruence.
  - apply compute_match_metrics_returns.
  - intros Hn. destruct Hcases as [?|(He & Hid & Hxy)]; [done|].
    by apply Hraise.
Qed.

Lemma compute_match_metrics_returns_iff_witness :
  ∃ c, compute_match_metrics no_location_table "full_match" = KeyError c
       ∧ (c = "x" ∨ c = "y").
Proof.
  apply (compute_match_metrics_returns_iff no_location_table "full_match").
  intros [seg Hseg]. by vm_compute in Hseg.
Defined.

(** X24. On a table with team_id and x columns,
    [final_third_entries_by_team] maps every team id to the number of its
    rows with x >= 80, whatever the type of the event and whether or not
    the table has a type_name column; a team without such a row is no key,
    and rows without a team id or without an x are not counted. *)
Theorem final_third_entries_by_team_exact (df : DataFrame) :
  "team_id" ∈ columns df → "x" ∈ columns df →
  ∃ m, final_third_entries_by_team df = Ok m ∧
    ∀ t, m !! t = counted (team_rows (λ e, ge_cell (c_x e) 80) (rows df) t).
Proof.
  intros Hid Hx. unfold final_third_entries_by_team.
  rewrite (proj2 (has_col_true df "team_id") Hid),
    (proj2 (has_col_true df "x") Hx).
  cbn [negb]. rewrite !orb_false_r.
  assert (∀ t, team_rows (λ e, notna (c_x e) && ge_cell (c_x e) 80) (rows df) t
               = team_rows (λ e, ge_cell (c_x e) 80) (rows df) t) as Hext.
  { intros t. apply team_rows_ext. intros e. by destruct (c_x e). }
  destruct (df_empty df) eqn:He.
  - exists ∅. split; [done|]. intros t. rewrite lookup_empty.
    unfold df_empty in He. destruct (rows df); [done|].
    destruct (columns df); [by apply elem_of_nil in Hid|done].
  - rewrite where_Ok, bind_Ok.
    + destruct (count_by_team_filter df
        (λ e, notna (c_x e) && ge_cell (c_x e) 80) Hid) as (m & Hm & L).
      exists m. split; [done|]. intros t. by rewrite L, Hext.
    + intros c Hc. repeat (apply elem_of_cons in Hc as [->|Hc]; [done|]).
      by apply elem_of_nil in Hc.
Qed.

Lemma final_third_entries_by_team_exact_witness :
  ∃ m, final_third_entries_by_team match_table = Ok m ∧
    ∀ t, m !! t
         = counted (team_rows (λ e, ge_cell (c_x e) 80) (rows match_table) t).
Proof.
  apply (final_third_entries_by_team_exact match_table); has_column.
Defined.

(** ** Entry points *)

Lemma compute_match_metrics_label (df : DataFrame) (l l' : string) :
  compute_match_metrics df l'
  = match compute_match_metrics df l with
    | Ok s => Ok {| segment := l'; teams := teams s; totals := totals s |}
    | KeyError c => KeyError c
    end.
Proof.
  unfold compute_match_metrics.
  repeat match goal with
         | |- context [mbind _ ?m] => destruct m; cbn [mbind result_bind];
                                        [|done]
         end.
  done.
Qed.

Lemma get_match_metrics_table (load : Z → DataFrame) (mid : Z)
    (period : option Z) (last_n : option Q) :
  ∃ l, get_match_metrics load mid period last_n
       = compute_match_metrics (segment_table (load mid) period last_n) l.
Proof.
  unfold get_match_metrics, segment_table.
  destruct period, last_n; by eexists.
Qed.

Lemma segment_metrics_table (df : DataFrame) (rq : segment_request) :
  ∃ l, segment_metrics df rq
       = compute_match_metrics
           (segment_table df (req_period rq) (req_last_n_minutes rq)) l.
Proof.
  unfold segment_metrics, segment_table.
  destruct (req_period rq), (req_last_n_minutes rq); by eexists.
Qed.

Lemma segment_metrics_label (load : Z → DataFrame) (mid : Z)
    (rq : segment_request) :
  req_period rq = None ∨ req_last_n_minutes rq = None →
  segment_metrics (load mid) rq
  = get_match_metrics load mid (req_period rq) (req_last_n_minutes rq).
Proof.
  unfold segment_metrics, get_match_metrics.
  intros [-> | ->]; [by destruct (req_last_n_minutes rq)|].
  by destruct (req_period rq).
Qed.

Lemma mapM_Ok_lookup {A B} (f : A → result B) (l : list A) (ks : list B) :
  mapM f l = Ok ks →
  length ks = length l ∧
  ∀ i a, l !! i = Some a → ∃ b, ks !! i = Some b ∧ f a = Ok b.
Proof.
  revert ks. induction l as [|a l IH]; intros ks; cbn [mapM].
  - intros [= <-]. split; [done|]. intros i a Hi. by destruct i.
  - intros (b & Hb & (ks' & Hks' & [= <-])%bind_inv)%bind_inv.
    destruct (IH ks' Hks') as [Hlen Hlook]. split; [simpl; by f_equal|].
    intros [|i] a' Hi; simpl in *.
    + injection Hi as <-. by exists b.
    + by apply Hlook.
Qed.

(** X25. A result of [get_match_metrics_multi_segment] carries the match
    id and one segment more than was asked for: the first is the full
    match, as [get_match_metrics] computes it, and the segment of every
    request has the teams and totals that [get_match_metrics] computes for
    the same period and last_n_minutes.  The label is the same as well
    unless the request has both a period and a last_n_minutes. *)
Theorem get_match_metrics_multi_segment_segments (load : Z → DataFrame)
    (mid : Z) (reqs : option (list segment_request)) (res : match_metrics) :
  get_match_metrics_multi_segment load mid reqs = Ok res →
  match_id res = mid ∧
  length (segments res) = S (length (default [] reqs)) ∧
  (∃ full, segments res !! 0%nat = Some full ∧
           get_match_metrics load mid None None = Ok full) ∧
  ∀ i rq, default [] reqs !! i = Some rq →
    ∃ s s',
      segments res !! S i = Some s ∧
      get_match_metrics load mid (req_period rq) (req_last_n_minutes rq)
      = Ok s' ∧
      teams s = teams s' ∧ totals s = totals s' ∧
      (req_period rq = None ∨ req_last_n_minutes rq = None → s = s').
Proof.
  unfold get_match_metrics_multi_segment.
  intros (full & Hfull & (rest & Hrest & [= <-])%bind_inv)%bind_inv.
  destruct (mapM_Ok_lookup _ _ _ Hrest) as [Hlen Hlook].
  cbn [match_id segments]. repeat split.
  - simpl. by f_equal.
  - by exists full.
  - intros i rq Hi. destruct (Hlook i rq Hi) as (s & Hs & Hseg).
    destruct (segment_metrics_table (load mid) rq) as [l Hl].
    destruct (get_match_metrics_table load mid (req_period rq)
                (req_last_n_minutes rq)) as [l' Hl'].
    rewrite Hseg in Hl.
    rewrite (compute_match_metrics_label _ l l'), <-Hl in Hl'.
    eexists s, _. split; [done|]. split; [exact Hl'|].
    cbn [teams totals]. repeat split.
    intros Hnone. rewrite (segment_metrics_label load mid rq Hnone) in Hseg.
    rewrite Hseg in Hl'. by injection Hl'.
Qed.

Lemma get_match_metrics_multi_segment_segments_witness :
  match_id match_multi = 7 ∧
  length (segments match_multi) = S (length (default [] (Some match_requests))) ∧
  (∃ full, segments match_multi !! 0%nat = Some full ∧
           get_match_metrics (λ _, match_table) 7 None None = Ok full) ∧
  ∀ i rq, default [] (Some match_requests) !! i = Some rq →
    ∃ s s',
      segments match_multi !! S i = Some s ∧
      get_match_metrics (λ _, match_table) 7 (req_period rq)
        (req_last_n_minutes rq) = Ok s' ∧
      teams s = teams s' ∧ totals s = totals s' ∧
      (req_period rq = None ∨ req_last_n_minutes rq = None → s = s').
Proof.
  apply (get_match_metrics_multi_segment_segments (λ _, match_table) 7
           (Some match_requests)).
  by vm_compute.
Defined.
